(** * Location-Bound Messaging: attestation verification and key derivation

    A shallow embedding of the two core modules of the repository,

    - [location.ts] (the attestation verification pipeline), and
    - [crypto.ts], in its Node (backend) and browser variants
      (HKDF, location-bound key derivation, AES-GCM sealing),

    together with the properties the specification states about them.

    Conventions of the embedding.  A JavaScript [number] that holds epoch
    milliseconds is an integer ([Z]); a [number] that holds degrees,
    metres, seconds or a speed is a real ([R]): arithmetic is exact,
    floating-point rounding is not modelled.  A JavaScript string is
    identified with its UTF-8 encoding ([string], a sequence of bytes).
    An optional field is an [option].  A function that throws returns
    [None].  [Date.now()] and the random generator are explicit inputs. *)

From Stdlib Require Import Reals Lra Lia ZArith List String Ascii Bool.
From Stdlib Require Import Strings.Byte Sorting.Sorted.
Import ListNotations.

Local Open Scope Z_scope.

(* ================================================================== *)
(** * JavaScript numeric helpers *)
(* ================================================================== *)

(** Comparisons of numbers, as booleans. *)
Definition num_le (x y : R) : bool := if Rle_dec x y then true else false.
Definition num_lt (x y : R) : bool := if Rlt_dec x y then true else false.
Definition num_ge (x y : R) : bool := num_le y x.
Definition num_gt (x y : R) : bool := num_lt y x.

(** [Math.atan2(y, x)]. *)
Definition atan2 (y x : R) : R :=
  if Rlt_dec 0 x then atan (y / x)
  else if Rlt_dec x 0 then
         if Rle_dec 0 y then (atan (y / x) + PI)%R else (atan (y / x) - PI)%R
  else if Rlt_dec 0 y then (PI / 2)%R
  else if Rlt_dec y 0 then (- (PI / 2))%R
  else 0%R.

(** [Array.prototype.slice(start, end)] (also [Buffer] and [Uint8Array]):
    a negative index counts from the end, both indices are clamped. *)
Definition js_slice {A : Type} (l : list A) (start finish : Z) : list A :=
  let len := Z.of_nat (List.length l) in
  let k := if start <? 0 then Z.max (len + start) 0 else Z.min start len in
  let f := if finish <? 0 then Z.max (len + finish) 0 else Z.min finish len in
  firstn (Z.to_nat (f - k)) (skipn (Z.to_nat k) l).

(** [slice(start)]: up to the end. *)
Definition js_slice_from {A : Type} (l : list A) (start : Z) : list A :=
  js_slice l start (Z.of_nat (List.length l)).

(* ================================================================== *)
(** * location.ts: types *)
(* ================================================================== *)

Record CellTowerInfo := {
  mcc : string;
  mnc : string;
  lac : string;
  cellId : string;
  signalStrength : option R
}.

Record LocationPoint := {
  lat : R;
  lon : R;
  pt_timestamp : Z
}.

Record LocationAttestation := {
  deviceId : string;
  devicePublicKey : string;
  latitude : R;
  longitude : R;
  accuracy : R;
  timestamp : Z;
  altitude : option R;
  heading : option R;
  speed : option R;
  wifiSSIDs : option (list string);
  cellTowers : option (list CellTowerInfo);
  movementHistory : option (list LocationPoint);
  signature : string
}.

(** The [reason] strings of the module.  A template literal is a
    constructor that carries the interpolated numbers. *)
Inductive Reason :=
| InvalidSignature
    (* 'Invalid signature - attestation has been tampered with' *)
| AttestationTooOld (maxAge : R)
    (* `Attestation too old (max age: ${maxAge}s)` *)
| OutsideTimeWindow
    (* 'Attestation timestamp outside allowed time window' *)
| OutsideGeofence (distance radiusMeters : R)
    (* `Location outside geofence: ${distance}m from target (max: ...m)` *)
| ImpossibleSpeed (speed maxSpeedMps : R)
    (* `Impossible speed detected: ${speed} m/s (max: ${maxSpeedMps} m/s)` *)
| NoMovementHistory
    (* 'No movement history provided' *)
| InsufficientPresence (durationSec requiredDurationSec : R).
    (* `Insufficient continuous presence: ...s (required: ...s)` *)

Record VerificationResult := {
  valid : bool;
  reason : option Reason;
  attestation : option LocationAttestation;
  distance : option R
}.

Record VerificationConfig := {
  targetLat : R;
  targetLon : R;
  radiusMeters : R;
  windowStart : Z;
  windowEnd : Z;
  maxAttestationAgeSec : option R;
  requireContinuousPresence : option bool;
  continuousPresenceDurationSec : option R;
  maxSpeedMps : option R
}.

(** [x ?? d] *)
Definition nullish {A : Type} (x : option A) (d : A) : A :=
  match x with Some v => v | None => d end.

(** Truthiness of an optional boolean. *)
Definition truthy (x : option bool) : bool :=
  match x with Some b => b | None => false end.

(* ================================================================== *)
(** * location.ts: distance (Haversine formula) *)
(* ================================================================== *)

Local Open Scope R_scope.

(** The formula in exact arithmetic.  In floating point the term [a]
    can come out above 1 for points that are nearly antipodal (or below
    0 for latitudes beyond the poles); [Math.sqrt] then returns [NaN],
    and so does the function, and every comparison with the result is
    false. *)
Definition calculateDistance (lat1 lon1 lat2 lon2 : R) : R :=
  let R_earth := 6371000 in
  let phi1 := (lat1 * PI) / 180 in
  let phi2 := (lat2 * PI) / 180 in
  let dphi := ((lat2 - lat1) * PI) / 180 in
  let dlambda := ((lon2 - lon1) * PI) / 180 in
  let a := sin (dphi / 2) * sin (dphi / 2) +
           cos phi1 * cos phi2 * sin (dlambda / 2) * sin (dlambda / 2) in
  let c := 2 * atan2 (sqrt a) (sqrt (1 - a)) in
  R_earth * c.

Definition isWithinGeofence
  (currentLat currentLon targetLat targetLon radiusMeters : R) : bool * R :=
  let distance := calculateDistance currentLat currentLon targetLat targetLon in
  (num_le distance radiusMeters, distance).

(* ================================================================== *)
(** * location.ts: time window and freshness *)
(* ================================================================== *)

Definition isWithinTimeWindow (currentTimestamp windowStart windowEnd : Z) : bool :=
  (windowStart <=? currentTimestamp)%Z && (currentTimestamp <=? windowEnd)%Z.

(** [now] is the value [Date.now()] returns inside the function. *)
Definition isAttestationFresh (now attestationTimestamp : Z) (maxAgeSec : R) : bool :=
  let ageMs := (now - attestationTimestamp)%Z in
  (0 <=? ageMs)%Z && num_le (IZR ageMs) (maxAgeSec * 1000).

(** The call that leaves [maxAgeSec] out: the default parameter is 300. *)
Definition isAttestationFresh_default (now attestationTimestamp : Z) : bool :=
  isAttestationFresh now attestationTimestamp 300.

(* ================================================================== *)
(** * location.ts: anti-spoofing checks *)
(* ================================================================== *)

Definition calculateSpeed (point1 point2 : LocationPoint) : R :=
  let distance :=
    calculateDistance (lat point1) (lon point1) (lat point2) (lon point2) in
  let timeDelta := IZR (pt_timestamp point2 - pt_timestamp point1) / 1000 in
  if Rle_dec timeDelta 0 then 0 else distance / timeDelta.

(** [[...movementHistory].sort((a, b) => a.timestamp - b.timestamp)]:
    the sort of an array is stable, so the result is the one stable
    arrangement by increasing timestamp, which insertion computes. *)
Fixpoint insertByTimestamp (p : LocationPoint) (l : list LocationPoint)
  : list LocationPoint :=
  match l with
  | [] => [p]
  | q :: l' =>
      if (pt_timestamp p <=? pt_timestamp q)%Z then p :: q :: l'
      else q :: insertByTimestamp p l'
  end.

Definition sortByTimestamp (l : list LocationPoint) : list LocationPoint :=
  fold_right insertByTimestamp [] l.

Record PlausibilityResult := {
  plausible : bool;
  plausibility_reason : option Reason;
  maxSpeed : option R
}.

(** The loop [for (i = 1; i < sorted.length; i++)] of
    [checkMovementPlausibility]: [prev] is [sorted[i - 1]], [rest] is
    [sorted] from index [i] on, [acc] is the running [maxSpeed]. *)
Fixpoint checkTransitions (prev : LocationPoint) (rest : list LocationPoint)
  (acc limit : R) : PlausibilityResult :=
  match rest with
  | [] => {| plausible := true; plausibility_reason := None; maxSpeed := Some acc |}
  | cur :: rest' =>
      let speed := calculateSpeed prev cur in
      let acc' := Rmax acc speed in
      if num_gt speed limit then
        {| plausible := false;
           plausibility_reason := Some (ImpossibleSpeed speed limit);
           maxSpeed := Some acc' |}
      else checkTransitions cur rest' acc' limit
  end.

Definition checkMovementPlausibility
  (movementHistory : list LocationPoint) (maxSpeedMps : R) : PlausibilityResult :=
  if (List.length movementHistory <? 2)%nat then
    {| plausible := true; plausibility_reason := None; maxSpeed := None |}
  else
    match sortByTimestamp movementHistory with
    | [] => {| plausible := true; plausibility_reason := None; maxSpeed := Some 0 |}
    | first :: rest => checkTransitions first rest 0 maxSpeedMps
    end.

Record PresenceResult := {
  verified : bool;
  presence_reason : option Reason;
  duration : option R
}.

(** One iteration of the loop of [verifyContinuousPresence]; the state is
    the pair of the locals [(windowStart, windowDuration)]. *)
Definition presenceStep (targetLat targetLon radiusMeters : R)
  (st : Z * Z) (point : LocationPoint) : Z * Z :=
  let '(wStart, wDuration) := st in
  let within :=
    fst (isWithinGeofence (lat point) (lon point) targetLat targetLon radiusMeters) in
  if within then
    let wStart' := if (wStart =? -1)%Z then pt_timestamp point else wStart in
    (wStart', (pt_timestamp point - wStart')%Z)
  else ((-1)%Z, 0%Z).

Definition verifyContinuousPresence
  (movementHistory : list LocationPoint)
  (targetLat targetLon radiusMeters requiredDurationSec : R) : PresenceResult :=
  match movementHistory with
  | [] => {| verified := false;
             presence_reason := Some NoMovementHistory;
             duration := None |}
  | _ =>
      let sorted := sortByTimestamp movementHistory in
      let '(_, windowDuration) :=
        fold_left (presenceStep targetLat targetLon radiusMeters) sorted
                  ((-1)%Z, 0%Z) in
      let durationSec := IZR windowDuration / 1000 in
      if num_ge durationSec requiredDurationSec then
        {| verified := true; presence_reason := None; duration := Some durationSec |}
      else
        {| verified := false;
           presence_reason :=
             Some (InsufficientPresence durationSec requiredDurationSec);
           duration := Some durationSec |}
  end.

(* ================================================================== *)
(** * The platform: library and runtime primitives *)
(* ================================================================== *)

Local Open Scope Z_scope.

Definition bytes := list byte.

(** A value of an object literal handed to [JSON.stringify]. *)
Inductive JSValue :=
| JSString (s : string)
| JSNumber (x : R).

(** What the code takes from the runtime and from its libraries
    (tweetnacl, tweetnacl-util, Node [crypto], Web Crypto).  An object
    literal is the list of its properties in insertion order. *)
Class Platform := {
  (** [x.toFixed(digits)] *)
  toFixed : R -> nat -> string;
  (** [JSON.stringify] of an object literal *)
  JSON_stringify : list (string * JSValue) -> string;
  (** base64 of a byte array, and back (on well-formed base64, where
      [Buffer.from(s, 'base64')] and [util.decodeBase64(s)] agree) *)
  encodeBase64 : bytes -> string;
  decodeBase64 : string -> bytes;
  (** [nacl.sign.detached.verify(msg, sig, publicKey)] *)
  nacl_sign_detached_verify : bytes -> bytes -> bytes -> bool;
  (** HMAC-SHA256 of a message under a key *)
  HMAC_SHA256 : bytes -> bytes -> bytes;
  (** AES-256-GCM with a 128-bit tag: key, iv, plaintext give the
      ciphertext and the tag; decryption fails on a wrong tag *)
  AES_GCM_encrypt : bytes -> bytes -> bytes -> bytes * bytes;
  AES_GCM_decrypt : bytes -> bytes -> bytes -> bytes -> option bytes;
  (** the state of the random generator, and a draw of [n] bytes *)
  RNG : Type;
  randomBytes : nat -> RNG -> bytes * RNG
}.

(** [Buffer.from([i])] or a store into a [Uint8Array]: the value modulo 256. *)
Definition byte_of_Z (i : Z) : byte :=
  match Byte.of_N (Z.to_N (i mod 256)) with
  | Some b => b
  | None => x00
  end.

(** [Math.ceil(a / b)] for integers [a] and [b > 0]. *)
Definition ceil_div (a b : Z) : Z := - ((- a) / b).

(** ** Typed arrays *)

(** [new Uint8Array(n)] *)
Definition u8_new (n : nat) : bytes := repeat x00 n.

(** [dst.set(src, offset)], for a source that fits. *)
Definition u8_set (dst src : bytes) (offset : nat) : bytes :=
  firstn offset dst ++ src ++ skipn (offset + List.length src) dst.

(** [dst[idx] = v], for an index inside the array. *)
Definition u8_put (dst : bytes) (idx : nat) (v : Z) : bytes :=
  firstn idx dst ++ byte_of_Z v :: skipn (S idx) dst.

(* ================================================================== *)
(** * location.ts: signature check and the verification pipeline *)
(* ================================================================== *)

Section Pipeline.
Context `{Platform}.

(** [verifySignature] of crypto.ts: the value of a call that returns.
    [util.decodeBase64] and [nacl.sign.detached.verify] throw on a
    malformed signature or key; [Exn.verifySignature] below is the call
    with its exceptions. *)
Definition verifySignature (message signature publicKey : string) : bool :=
  let msgBytes := list_byte_of_string message in
  let sigBytes := decodeBase64 signature in
  let pubKey := decodeBase64 publicKey in
  nacl_sign_detached_verify msgBytes sigBytes pubKey.

Definition verifyAttestationSignature (a : LocationAttestation) : bool :=
  let message := JSON_stringify
    [ ("deviceId"%string, JSString (deviceId a));
      ("lat"%string, JSString (toFixed (latitude a) 6));
      ("lon"%string, JSString (toFixed (longitude a) 6));
      ("accuracy"%string, JSNumber (accuracy a));
      ("timestamp"%string, JSNumber (IZR (timestamp a))) ] in
  verifySignature message (signature a) (devicePublicKey a).

(** Step 5 of the pipeline; [Some r] is an early [return r]. *)
Definition checkStep5 (a : LocationAttestation) (config : VerificationConfig)
  (dist : R) : option VerificationResult :=
  match movementHistory a with
  | Some h =>
      if (2 <=? List.length h)%nat then
        let limit := nullish (maxSpeedMps config) 200%R in
        let plausibility := checkMovementPlausibility h limit in
        if negb (plausible plausibility) then
          Some {| valid := false;
                  reason := plausibility_reason plausibility;
                  attestation := Some a;
                  distance := Some dist |}
        else None
      else None
  | None => None
  end.

(** Step 6 of the pipeline; an array, also an empty one, is truthy. *)
Definition checkStep6 (a : LocationAttestation) (config : VerificationConfig)
  (dist : R) : option VerificationResult :=
  match truthy (requireContinuousPresence config), movementHistory a with
  | true, Some h =>
      let durationSec := nullish (continuousPresenceDurationSec config) 30%R in
      let presence :=
        verifyContinuousPresence h (targetLat config) (targetLon config)
                                 (radiusMeters config) durationSec in
      if negb (verified presence) then
        Some {| valid := false;
                reason := presence_reason presence;
                attestation := Some a;
                distance := Some dist |}
      else None
  | _, _ => None
  end.

(** The result of the pipeline when the signature check returns
    ([Exn.verifyLocationAttestation] below is the pipeline with the
    exception of that check). *)
Definition verifyLocationAttestation (now : Z)
  (a : LocationAttestation) (config : VerificationConfig) : VerificationResult :=
  (* 1. Verify cryptographic signature *)
  if negb (verifyAttestationSignature a) then
    {| valid := false; reason := Some InvalidSignature;
       attestation := None; distance := None |}
  else
  (* 2. Check timestamp freshness *)
  let maxAge := nullish (maxAttestationAgeSec config) 300%R in
  if negb (isAttestationFresh now (timestamp a) maxAge) then
    {| valid := false; reason := Some (AttestationTooOld maxAge);
       attestation := Some a; distance := None |}
  else
  (* 3. Check time window *)
  if negb (isWithinTimeWindow (timestamp a) (windowStart config) (windowEnd config)) then
    {| valid := false; reason := Some OutsideTimeWindow;
       attestation := Some a; distance := None |}
  else
  (* 4. Check geofence *)
  let '(within, dist) :=
    isWithinGeofence (latitude a) (longitude a)
                     (targetLat config) (targetLon config) (radiusMeters config) in
  if negb within then
    {| valid := false;
       reason := Some (OutsideGeofence dist (radiusMeters config));
       attestation := Some a; distance := Some dist |}
  else
  (* 5. Check movement plausibility *)
  match checkStep5 a config dist with
  | Some r => r
  | None =>
  (* 6. Check continuous presence *)
  match checkStep6 a config dist with
  | Some r => r
  | None =>
      {| valid := true; reason := None;
         attestation := Some a; distance := Some dist |}
  end end.

End Pipeline.

(* ================================================================== *)
(** * JavaScript objects read by property name *)
(* ================================================================== *)

(** An object whose properties hold strings, in insertion order. *)
Definition JSObject := list (string * string).

(** [o.k], or [o[k]]: [None] is [undefined]. *)
Fixpoint get_prop (o : JSObject) (k : string) : option string :=
  match o with
  | [] => None
  | (k', v) :: o' => if String.eqb k k' then Some v else get_prop o' k
  end.

(** The six arguments that bind a key to a place and a time. *)
Record LocationBinding := {
  lb_latitude : R;
  lb_longitude : R;
  lb_radiusMeters : R;
  lb_windowStart : Z;
  lb_windowEnd : Z;
  lb_nonce : string
}.

(** A [Buffer | string] (or [Uint8Array | string]) argument. *)
Definition BufferOrString := (bytes + string)%type.

(* ================================================================== *)
(** * crypto.ts (backend, Node) *)
(* ================================================================== *)

Module Backend.
Section Defs.
Context `{Platform}.

(** The object [createHmac('sha256', key)] returns: it accumulates what
    [update] feeds it, and [digest] authenticates the whole. *)
Record Hmac := { hmac_key : bytes; hmac_data : bytes }.

Definition createHmac (key : bytes) : Hmac :=
  {| hmac_key := key; hmac_data := [] |}.
Definition update (h : Hmac) (data : bytes) : Hmac :=
  {| hmac_key := hmac_key h; hmac_data := hmac_data h ++ data |}.
Definition digest (h : Hmac) : bytes :=
  HMAC_SHA256 (hmac_key h) (hmac_data h).

Definition hkdfExtract (salt ikm : bytes) : bytes :=
  digest (update (createHmac salt) ikm).

(** The loop [for (i = 1; i <= n; i++)] of [hkdfExpand]: [count]
    iterations remain, [t] and [okm] are the two buffers. *)
Fixpoint expandLoop (prk info : bytes) (count : nat) (i : Z) (t okm : bytes)
  : bytes :=
  match count with
  | O => okm
  | S count' =>
      let hmac := createHmac prk in
      let hmac := update hmac t in
      let hmac := update hmac info in
      let hmac := update hmac [byte_of_Z i] in
      let t' := digest hmac in
      expandLoop prk info count' (i + 1) t' (okm ++ t')
  end.

(** [None] is [throw new Error('HKDF output length too large')]. *)
Definition hkdfExpand (prk info : bytes) (len : Z) : option bytes :=
  let hashLen := 32 in
  let n := ceil_div len hashLen in
  if n >? 255 then None
  else
    let okm := expandLoop prk info (Z.to_nat n) 1 [] [] in
    Some (js_slice okm 0 len).

Definition hkdf (ikm salt info : BufferOrString) (len : Z) : option bytes :=
  let ikmBuf := match ikm with inr s => decodeBase64 s | inl b => b end in
  let saltBuf := match salt with inr s => list_byte_of_string s | inl b => b end in
  let infoBuf := match info with inr s => list_byte_of_string s | inl b => b end in
  let prk := hkdfExtract saltBuf ikmBuf in
  hkdfExpand prk infoBuf len.

Definition deriveLocationBoundKey (sharedSecret : string)
  (lat lon radiusMeters : R) (windowStart windowEnd : Z) (nonce : string)
  : option bytes :=
  let locationInfo := JSON_stringify
    [ ("lat"%string, JSString (toFixed lat 6));
      ("lon"%string, JSString (toFixed lon 6));
      ("radius"%string, JSNumber radiusMeters);
      ("start"%string, JSNumber (IZR windowStart));
      ("end"%string, JSNumber (IZR windowEnd));
      ("nonce"%string, JSString nonce) ] in
  hkdf (inr sharedSecret) (inr "LocationBoundMessaging-v1"%string)
       (inr locationInfo) 32.

(** The result is the object literal [{ ciphertext, nonce, authTag }]. *)
Definition aesGcmEncrypt (plaintext : string) (key : bytes) (g : RNG)
  : JSObject * RNG :=
  let '(nonce, g') := randomBytes 12 g in
  let '(ct, tag) := AES_GCM_encrypt key nonce (list_byte_of_string plaintext) in
  ([ ("ciphertext"%string, encodeBase64 ct);
     ("nonce"%string, encodeBase64 nonce);
     ("authTag"%string, encodeBase64 tag) ], g').

(** [None] is the error a failed authentication throws. *)
Definition aesGcmDecrypt (ciphertext : string) (key : bytes)
  (nonce authTag : string) : option string :=
  match AES_GCM_decrypt key (decodeBase64 nonce)
                        (decodeBase64 ciphertext) (decodeBase64 authTag) with
  | Some pt => Some (string_of_list_byte pt)
  | None => None
  end.

(** Declared to return [{ wrappedKey, nonce, authTag }]; returns the
    object of [aesGcmEncrypt] as it is. *)
Definition wrapKey (keyToWrap wrappingKey : bytes) (g : RNG) : JSObject * RNG :=
  let keyBase64 := encodeBase64 keyToWrap in
  aesGcmEncrypt keyBase64 wrappingKey g.

Definition unwrapKey (wrappedKey : string) (wrappingKey : bytes)
  (nonce authTag : string) : option bytes :=
  match aesGcmDecrypt wrappedKey wrappingKey nonce authTag with
  | Some keyBase64 => Some (decodeBase64 keyBase64)
  | None => None
  end.

Definition generateAesKey (g : RNG) : bytes * RNG := randomBytes 32 g.

End Defs.
End Backend.

(* ================================================================== *)
(** * crypto.ts (browser, Web Crypto) *)
(* ================================================================== *)

Module Browser.
Section Defs.
Context `{Platform}.

(** [crypto.subtle.encrypt({name: 'AES-GCM', iv, tagLength: 128}, key, data)]:
    the ciphertext followed by the 16 bytes of the tag. *)
Definition subtle_encrypt (key iv data : bytes) : bytes :=
  let '(ct, tag) := AES_GCM_encrypt key iv data in ct ++ tag.

(** [crypto.subtle.decrypt]: the last 16 bytes are the tag. *)
Definition subtle_decrypt (key iv data : bytes) : option bytes :=
  AES_GCM_decrypt key iv (js_slice data 0 (-16)) (js_slice_from data (-16)).

Definition hmac (key data : bytes) : bytes := HMAC_SHA256 key data.

Definition hkdfExtract (salt ikm : bytes) : bytes := hmac salt ikm.

Fixpoint expandLoop (prk info : bytes) (count : nat) (i : Z) (t okm : bytes)
  : bytes :=
  match count with
  | O => okm
  | S count' =>
      let input := u8_new (List.length t + List.length info + 1) in
      let input := u8_set input t 0 in
      let input := u8_set input info (List.length t) in
      let input := u8_put input (List.length t + List.length info) i in
      let t' := hmac prk input in
      let newOkm := u8_new (List.length okm + List.length t') in
      let newOkm := u8_set newOkm okm 0 in
      let newOkm := u8_set newOkm t' (List.length okm) in
      expandLoop prk info count' (i + 1) t' newOkm
  end.

Definition hkdfExpand (prk info : bytes) (len : Z) : option bytes :=
  let hashLen := 32 in
  let n := ceil_div len hashLen in
  if n >? 255 then None
  else
    let okm := expandLoop prk info (Z.to_nat n) 1 (u8_new 0) (u8_new 0) in
    Some (js_slice okm 0 len).

(** [hkdf] for a secret whose text is padded base64, which
    [util.decodeBase64] accepts ([Exn.browser_hkdf] below throws on any
    other text). *)
Definition hkdf (ikm salt info : BufferOrString) (len : Z) : option bytes :=
  let ikmBuf := match ikm with inr s => decodeBase64 s | inl b => b end in
  let saltBuf := match salt with inr s => list_byte_of_string s | inl b => b end in
  let infoBuf := match info with inr s => list_byte_of_string s | inl b => b end in
  let prk := hkdfExtract saltBuf ikmBuf in
  hkdfExpand prk infoBuf len.

Definition deriveLocationBoundKey (sharedSecret : string)
  (lat lon radiusMeters : R) (windowStart windowEnd : Z) (nonce : string)
  : option bytes :=
  let locationInfo := JSON_stringify
    [ ("lat"%string, JSString (toFixed lat 6));
      ("lon"%string, JSString (toFixed lon 6));
      ("radius"%string, JSNumber radiusMeters);
      ("start"%string, JSNumber (IZR windowStart));
      ("end"%string, JSNumber (IZR windowEnd));
      ("nonce"%string, JSString nonce) ] in
  hkdf (inr sharedSecret) (inr "LocationBoundMessaging-v1"%string)
       (inr locationInfo) 32.

Definition aesGcmEncrypt (plaintext : string) (key : bytes) (g : RNG)
  : JSObject * RNG :=
  let '(nonce, g') := randomBytes 12 g in
  let encodedText := list_byte_of_string plaintext in
  let ciphertextWithTag := subtle_encrypt key nonce encodedText in
  let ciphertext := js_slice ciphertextWithTag 0 (-16) in
  let authTag := js_slice_from ciphertextWithTag (-16) in
  ([ ("ciphertext"%string, encodeBase64 ciphertext);
     ("nonce"%string, encodeBase64 nonce);
     ("authTag"%string, encodeBase64 authTag) ], g').

Definition aesGcmDecrypt (ciphertext : string) (key : bytes)
  (nonce authTag : string) : option string :=
  let ciphertextBytes := decodeBase64 ciphertext in
  let nonceBytes := decodeBase64 nonce in
  let authTagBytes := decodeBase64 authTag in
  let combined := u8_new (List.length ciphertextBytes + List.length authTagBytes) in
  let combined := u8_set combined ciphertextBytes 0 in
  let combined := u8_set combined authTagBytes (List.length ciphertextBytes) in
  match subtle_decrypt key nonceBytes combined with
  | Some decrypted => Some (string_of_list_byte decrypted)
  | None => None
  end.

Definition wrapKey (keyToWrap wrappingKey : bytes) (g : RNG) : JSObject * RNG :=
  let keyBase64 := encodeBase64 keyToWrap in
  aesGcmEncrypt keyBase64 wrappingKey g.

Definition unwrapKey (wrappedKey : string) (wrappingKey : bytes)
  (nonce authTag : string) : option bytes :=
  match aesGcmDecrypt wrappedKey wrappingKey nonce authTag with
  | Some keyBase64 => Some (decodeBase64 keyBase64)
  | None => None
  end.

Definition generateAesKey (g : RNG) : bytes * RNG := randomBytes 32 g.

End Defs.
End Browser.

(* ================================================================== *)
(** * Sealing and unsealing a message (ComposeMessage.tsx, MessageViewer.tsx) *)
(* ================================================================== *)

(** The message object the client builds and the server stores.  Each
    field holds what the client read from the object of an encryption
    call: [None] is [undefined]. *)
Record StoredMessage := {
  encryptedPayload : option string;
  payloadNonce : option string;
  payloadAuthTag : option string;
  wrappedKey : option string;
  wrappedKeyNonce : option string;
  wrappedKeyAuthTag : option string;
  locationBinding : LocationBinding
}.

Section Sealing.
Context `{Platform}.

(** [deriveLocationBoundKey] called on the fields of a binding, as the
    two handlers and the server call it. *)
Definition deriveKey_backend (sharedSecret : string) (b : LocationBinding)
  : option bytes :=
  Backend.deriveLocationBoundKey sharedSecret
    (lb_latitude b) (lb_longitude b) (lb_radiusMeters b)
    (lb_windowStart b) (lb_windowEnd b) (lb_nonce b).

Definition deriveKey_browser (sharedSecret : string) (b : LocationBinding)
  : option bytes :=
  Browser.deriveLocationBoundKey sharedSecret
    (lb_latitude b) (lb_longitude b) (lb_radiusMeters b)
    (lb_windowStart b) (lb_windowEnd b) (lb_nonce b).

(** The cryptographic steps of [handleEncrypt], for a shared secret and
    a binding already chosen. *)
Definition sealMessage (message sharedSecret : string) (b : LocationBinding)
  (g : RNG) : option (StoredMessage * RNG) :=
  let '(messageKey, g1) := Browser.generateAesKey g in
  let '(enc, g2) := Browser.aesGcmEncrypt message messageKey g1 in
  match Browser.deriveLocationBoundKey sharedSecret
          (lb_latitude b) (lb_longitude b) (lb_radiusMeters b)
          (lb_windowStart b) (lb_windowEnd b) (lb_nonce b) with
  | None => None
  | Some locationBoundKey =>
      let '(wrapped, g3) := Browser.wrapKey messageKey locationBoundKey g2 in
      Some ({| encryptedPayload := get_prop enc "ciphertext";
               payloadNonce := get_prop enc "nonce";
               payloadAuthTag := get_prop enc "authTag";
               wrappedKey := get_prop wrapped "wrappedKey";
               wrappedKeyNonce := get_prop wrapped "nonce";
               wrappedKeyAuthTag := get_prop wrapped "authTag";
               locationBinding := b |}, g3)
  end.

(** The cryptographic steps of [handleUnlock].  Decoding [undefined]
    as base64 throws, as a failed authentication does: [None]. *)
Definition unsealMessage (m : StoredMessage) (sharedSecret : string)
  : option string :=
  let b := locationBinding m in
  match Browser.deriveLocationBoundKey sharedSecret
          (lb_latitude b) (lb_longitude b) (lb_radiusMeters b)
          (lb_windowStart b) (lb_windowEnd b) (lb_nonce b) with
  | None => None
  | Some locationBoundKey =>
      match wrappedKey m, wrappedKeyNonce m, wrappedKeyAuthTag m with
      | Some w, Some wn, Some wt =>
          match Browser.unwrapKey w locationBoundKey wn wt with
          | None => None
          | Some messageKey =>
              match encryptedPayload m, payloadNonce m, payloadAuthTag m with
              | Some c, Some n, Some t => Browser.aesGcmDecrypt c messageKey n t
              | _, _, _ => None
              end
          end
      | _, _, _ => None
      end
  end.

(** A value that is [undefined] or the empty string is falsy. *)
Definition falsy (v : option string) : bool :=
  match v with
  | None => true
  | Some s => String.eqb s EmptyString
  end.

(** The validation of [POST /api/messages] on the sealing fields (the
    identifier the client sends is never empty). *)
Definition serverAcceptsMessage (m : StoredMessage) : bool :=
  negb (falsy (encryptedPayload m) || falsy (wrappedKey m)).

End Sealing.

(* ================================================================== *)
(** * The specification's reading of the checks *)
(* ================================================================== *)

(** Whether a sample lies inside the geofence, as the presence loop tests it. *)
Definition inGeofence (targetLat targetLon radiusMeters : R) (p : LocationPoint)
  : bool :=
  fst (isWithinGeofence (lat p) (lon p) targetLat targetLon radiusMeters).

(** The span of a run: from its first to its last sample. *)
Definition runSpan (r : list LocationPoint) : Z :=
  match r with
  | [] => 0
  | p :: _ => pt_timestamp (last r p) - pt_timestamp p
  end.

(** The maximal unbroken runs of samples that satisfy [inside]; a sample
    that does not closes the current run. *)
Fixpoint splitRuns (inside : LocationPoint -> bool) (l : list LocationPoint)
  : list (list LocationPoint) :=
  match l with
  | [] => [[]]
  | p :: l' =>
      match splitRuns inside l' with
      | r :: rs => if inside p then (p :: r) :: rs else [] :: r :: rs
      | [] => if inside p then [[p]] else [[]]
      end
  end.

(** The longest contiguous run inside the geofence, in the
    specification's words: the largest span of a run. *)
Definition longestRunSpan (inside : LocationPoint -> bool)
  (l : list LocationPoint) : Z :=
  fold_right Z.max 0 (map runSpan (splitRuns inside l)).

(** The continuous-presence check as the specification words it. *)
Definition spec_presenceAccepts (sorted : list LocationPoint)
  (targetLat targetLon radiusMeters requiredDurationSec : R) : bool :=
  num_ge (IZR (longestRunSpan (inGeofence targetLat targetLon radiusMeters) sorted)
          / 1000)%R
         requiredDurationSec.

(** The run the list ends with: its longest suffix of samples that
    satisfy [inside]. *)
Fixpoint trailingRun (inside : LocationPoint -> bool) (l : list LocationPoint)
  : list LocationPoint :=
  match l with
  | [] => []
  | _ :: l' => if forallb inside l then l else trailingRun inside l'
  end.

(** The order the sort arranges the samples in. *)
Definition timestampLe (p q : LocationPoint) : Prop :=
  (pt_timestamp p <= pt_timestamp q)%Z.

(** Two samples one after the other in a list. *)
Inductive consecutive {A : Type} (x y : A) : list A -> Prop :=
| consecutive_here : forall l, consecutive x y (x :: y :: l)
| consecutive_later : forall z l, consecutive x y l -> consecutive x y (z :: l).

Section HkdfSpec.
Context `{Platform}.

(** The blocks of HKDF-Expand: [T(0)] is empty and
    [T(i) = HMAC-SHA256(PRK, T(i-1) || info || byte(i))]. *)
Fixpoint hkdf_T (prk info : bytes) (i : nat) : bytes :=
  match i with
  | O => []
  | S j => HMAC_SHA256 prk (hkdf_T prk info j ++ info ++ [byte_of_Z (Z.of_nat i)])
  end.

(** [T(1) || ... || T(n)] *)
Definition hkdf_blocks (prk info : bytes) (n : nat) : bytes :=
  List.concat (map (hkdf_T prk info) (seq 1 n)).

End HkdfSpec.

(** The stage of the pipeline a rejection reason belongs to. *)
Definition stageOf (r : Reason) : nat :=
  match r with
  | InvalidSignature => 1
  | AttestationTooOld _ => 2
  | OutsideTimeWindow => 3
  | OutsideGeofence _ _ => 4
  | ImpossibleSpeed _ _ => 5
  | NoMovementHistory => 6
  | InsufficientPresence _ _ => 6
  end.

(** The outcomes of [verifyLocationAttestation]: the rejections of the
    first four stages, and the acceptance. *)
Definition geofenceDistance (a : LocationAttestation) (config : VerificationConfig)
  : R :=
  calculateDistance (latitude a) (longitude a) (targetLat config) (targetLon config).

Definition rejectedAt1 : VerificationResult :=
  {| valid := false; reason := Some InvalidSignature;
     attestation := None; distance := None |}.
Definition rejectedAt2 (a : LocationAttestation) (config : VerificationConfig)
  : VerificationResult :=
  {| valid := false;
     reason := Some (AttestationTooOld (nullish (maxAttestationAgeSec config) 300%R));
     attestation := Some a; distance := None |}.
Definition rejectedAt3 (a : LocationAttestation) : VerificationResult :=
  {| valid := false; reason := Some OutsideTimeWindow;
     attestation := Some a; distance := None |}.
Definition rejectedAt4 (a : LocationAttestation) (config : VerificationConfig)
  : VerificationResult :=
  {| valid := false;
     reason := Some (OutsideGeofence (geofenceDistance a config) (radiusMeters config));
     attestation := Some a; distance := Some (geofenceDistance a config) |}.
Definition accepted (a : LocationAttestation) (config : VerificationConfig)
  : VerificationResult :=
  {| valid := true; reason := None;
     attestation := Some a; distance := Some (geofenceDistance a config) |}.

(* ================================================================== *)
(** * A small platform, to run the definitions on concrete inputs *)
(* ================================================================== *)

Definition bytes_eqb (a b : bytes) : bool :=
  String.eqb (string_of_list_byte a) (string_of_list_byte b).

(** It has the shapes the code relies on (digests of 32 bytes, tags of
    16 bytes, decoding that undoes encoding, decryption that undoes
    encryption under the same key and nonce) and nothing else: a
    signature verifies when it spells the public key. *)
Definition demoPlatform : Platform := {|
  toFixed := fun _ _ => "0.000000"%string;
  JSON_stringify := fun props => String.concat ","%string (map fst props);
  encodeBase64 := string_of_list_byte;
  decodeBase64 := list_byte_of_string;
  nacl_sign_detached_verify := fun _ sig pk => bytes_eqb sig pk;
  HMAC_SHA256 := fun k m => firstn 32 (k ++ m ++ repeat x00 32);
  AES_GCM_encrypt := fun k iv p => (p, firstn 16 (k ++ iv ++ repeat x00 16));
  AES_GCM_decrypt := fun k iv c t =>
    if bytes_eqb t (firstn 16 (k ++ iv ++ repeat x00 16)) then Some c else None;
  RNG := nat;
  randomBytes := fun n g => (repeat (byte_of_Z (Z.of_nat g)) n, S g)
|}.

(** A sample, and an attestation taken at the target of [demoConfig]. *)
Definition mkPoint (la lo : R) (t : Z) : LocationPoint :=
  {| lat := la; lon := lo; pt_timestamp := t |}.

Definition demoAttestation (sig : string) (t : Z)
  (h : option (list LocationPoint)) : LocationAttestation :=
  {| deviceId := "device-1"; devicePublicKey := "pk";
     latitude := 0; longitude := 0; accuracy := 5; timestamp := t;
     altitude := None; heading := None; speed := None;
     wifiSSIDs := None; cellTowers := None;
     movementHistory := h; signature := sig |}.

Definition demoConfig (lo : R) (presence : option bool) : VerificationConfig :=
  {| targetLat := 0; targetLon := lo; radiusMeters := 100;
     windowStart := 0; windowEnd := 100000;
     maxAttestationAgeSec := None;
     requireContinuousPresence := presence;
     continuousPresenceDurationSec := None;
     maxSpeedMps := None |}.

(* ================================================================== *)
(** * location.ts: creating an attestation *)
(* ================================================================== *)

(** [nacl.sign.detached(msg, secretKey)], the signing side of the
    signature scheme. *)
Class Signer := {
  nacl_sign_detached : bytes -> bytes -> bytes
}.

(** The optional [context] argument of [createLocationAttestation]. *)
Record AttestationContext := {
  ctx_altitude : option R;
  ctx_heading : option R;
  ctx_speed : option R;
  ctx_wifiSSIDs : option (list string);
  ctx_cellTowers : option (list CellTowerInfo);
  ctx_movementHistory : option (list LocationPoint)
}.

Section Creation.
Context `{Platform} `{Signer}.

(** [signMessage] of crypto.ts *)
Definition signMessage (message privateKey : string) : string :=
  let msgBytes := list_byte_of_string message in
  let secretKey := decodeBase64 privateKey in
  let signature := nacl_sign_detached msgBytes secretKey in
  encodeBase64 signature.

(** A property of the spread [...context]: absent when there is no
    context, or when the context leaves it out. *)
Definition spread {A : Type} (context : option AttestationContext)
  (field : AttestationContext -> option A) : option A :=
  match context with
  | Some c => field c
  | None => None
  end.

(** [now] is the value of [Date.now()]. *)
Definition createLocationAttestation (now : Z)
  (id privateKey publicKey : string) (la lo acc : R)
  (context : option AttestationContext) : LocationAttestation :=
  let message := JSON_stringify
    [ ("deviceId"%string, JSString id);
      ("lat"%string, JSString (toFixed la 6));
      ("lon"%string, JSString (toFixed lo 6));
      ("accuracy"%string, JSNumber acc);
      ("timestamp"%string, JSNumber (IZR now)) ] in
  let sig := signMessage message privateKey in
  {| deviceId := id; devicePublicKey := publicKey;
     latitude := la; longitude := lo; accuracy := acc; timestamp := now;
     altitude := spread context ctx_altitude;
     heading := spread context ctx_heading;
     speed := spread context ctx_speed;
     wifiSSIDs := spread context ctx_wifiSSIDs;
     cellTowers := spread context ctx_cellTowers;
     movementHistory := spread context ctx_movementHistory;
     signature := sig |}.

End Creation.

(** The attestation [{ ...a, movementHistory: h }]. *)
Definition withMovementHistory (a : LocationAttestation)
  (h : option (list LocationPoint)) : LocationAttestation :=
  {| deviceId := deviceId a; devicePublicKey := devicePublicKey a;
     latitude := latitude a; longitude := longitude a;
     accuracy := accuracy a; timestamp := timestamp a;
     altitude := altitude a; heading := heading a; speed := speed a;
     wifiSSIDs := wifiSSIDs a; cellTowers := cellTowers a;
     movementHistory := h; signature := signature a |}.

(* ================================================================== *)
(** * The server: message store and REST handlers *)
(* ================================================================== *)

Record MessageMetadata := {
  title : option string;
  created : Z;
  expiresAt : option Z
}.

(** A request body of [POST /api/messages], as the handlers read it:
    a property the body lacks is [None]. *)
Record ServerMessage := {
  msg_id : option string;
  msg_senderPublicKey : option string;
  msg_recipientPublicKey : option string;
  msg_encryptedPayload : option string;
  msg_payloadNonce : option string;
  msg_payloadAuthTag : option string;
  msg_wrappedKey : option string;
  msg_wrappedKeyNonce : option string;
  msg_wrappedKeyAuthTag : option string;
  msg_locationBinding : option LocationBinding;
  msg_metadata : option MessageMetadata
}.

(** [const messages = new Map<string, StoredMessage>()]: the entries in
    insertion order, one per key. *)
Definition MessageStore := list (string * ServerMessage).

Fixpoint map_get (s : MessageStore) (k : string) : option ServerMessage :=
  match s with
  | [] => None
  | (k', v) :: s' => if String.eqb k k' then Some v else map_get s' k
  end.

(** [Map.prototype.set]: a present key keeps its place and takes the
    new value, an absent key is added at the end. *)
Fixpoint map_set (s : MessageStore) (k : string) (v : ServerMessage)
  : MessageStore :=
  match s with
  | [] => [(k, v)]
  | (k', v') :: s' =>
      if String.eqb k k' then (k, v) :: s' else (k', v') :: map_set s' k v
  end.

(** [Map.prototype.delete]: the entry of the key goes (a map holds one
    at most). *)
Fixpoint map_delete (s : MessageStore) (k : string) : MessageStore :=
  match s with
  | [] => []
  | (k', v) :: s' =>
      if String.eqb k k' then map_delete s' k else (k', v) :: map_delete s' k
  end.

(** What a handler answers: the status code and the body. *)
Inductive Response :=
| Stored (messageId : string) (expires : option Z)
    (* 200 { success: true, messageId, expiresAt } *)
| Metadata (id : option string) (binding : option LocationBinding)
           (metadata : MessageMetadata)
           (senderPublicKey recipientPublicKey : option string)
    (* 200, the metadata of a message *)
| Encrypted (m : ServerMessage)
    (* 200, the whole stored message *)
| Unlocked (wrapped wrappedNonce wrappedAuthTag : option string)
           (dist : option R)
    (* 200 { unlocked: true, wrappedKey, ..., distance } *)
| Denied (why : option Reason) (dist : option R)
    (* 403 { unlocked: false, reason, distance } *)
| Deleted
    (* 200 { success: true } *)
| BadRequest (error : string)
    (* 400 *)
| NotFound
    (* 404 { error: 'Message not found' } *)
| Gone
    (* 410 { error: 'Message expired' } *)
| InternalError.
    (* 500: an exception, caught by the handler or by the framework *)

(** [message.metadata.expiresAt && Date.now() > message.metadata.expiresAt]:
    an absent expiry, or the expiry 0, is falsy. *)
Definition isExpired (now : Z) (md : MessageMetadata) : bool :=
  match expiresAt md with
  | Some e => negb (e =? 0)%Z && (e <? now)%Z
  | None => false
  end.

Section Server.
Context `{Platform}.

(** [POST /api/messages].  The message is put into the map before the
    answer reads [message.metadata.expiresAt], which throws when the
    body has no [metadata]. *)
Definition postMessage (store : MessageStore) (message : ServerMessage)
  : Response * MessageStore :=
  if falsy (msg_id message) || falsy (msg_encryptedPayload message)
     || falsy (msg_wrappedKey message)
  then (BadRequest "Invalid message format", store)
  else
    match msg_locationBinding message, msg_id message with
    | None, _ => (BadRequest "Missing location binding", store)
    | Some _, None => (BadRequest "Invalid message format", store)
    | Some _, Some id =>
        let store' := map_set store id message in
        match msg_metadata message with
        | None => (InternalError, store')
        | Some md => (Stored id (expiresAt md), store')
        end
    end.

(** The part the three reading handlers share: look the message up,
    and delete it when it has expired. *)
Definition lookupLive (now : Z) (store : MessageStore) (id : string)
  : (ServerMessage * MessageMetadata) + (Response * MessageStore) :=
  match map_get store id with
  | None => inr (NotFound, store)
  | Some message =>
      match msg_metadata message with
      | None => inr (InternalError, store)
      | Some md =>
          if isExpired now md then inr (Gone, map_delete store id)
          else inl (message, md)
      end
  end.

(** [GET /api/messages/:id] *)
Definition getMessage (now : Z) (store : MessageStore) (id : string)
  : Response * MessageStore :=
  match lookupLive now store id with
  | inr answer => answer
  | inl (message, md) =>
      (Metadata (msg_id message) (msg_locationBinding message) md
                (msg_senderPublicKey message) (msg_recipientPublicKey message),
       store)
  end.

(** [GET /api/messages/:id/encrypted] *)
Definition getEncrypted (now : Z) (store : MessageStore) (id : string)
  : Response * MessageStore :=
  match lookupLive now store id with
  | inr answer => answer
  | inl (message, _) => (Encrypted message, store)
  end.

(** The configuration the unlock handler verifies against. *)
Definition unlockConfig (lb : LocationBinding) : VerificationConfig :=
  {| targetLat := lb_latitude lb;
     targetLon := lb_longitude lb;
     radiusMeters := lb_radiusMeters lb;
     windowStart := lb_windowStart lb;
     windowEnd := lb_windowEnd lb;
     maxAttestationAgeSec := Some 300%R;
     requireContinuousPresence := None;
     continuousPresenceDurationSec := None;
     maxSpeedMps := None |}.

(** [POST /api/messages/:id/unlock], for a request body that carries an
    attestation whose signature check returns ([Exn.unlockMessage] below
    has the answer 500 of the [catch] when that check throws).  [now]
    is the clock of the expiry test, [now'] the clock the freshness
    check reads later. *)
Definition unlockMessage (now now' : Z) (store : MessageStore) (id : string)
  (a : LocationAttestation) : Response * MessageStore :=
  match lookupLive now store id with
  | inr answer => answer
  | inl (message, _) =>
      match msg_locationBinding message with
      | None => (InternalError, store)
      | Some lb =>
          let verification := verifyLocationAttestation now' a (unlockConfig lb) in
          if negb (valid verification) then
            (Denied (reason verification) (distance verification), store)
          else
            (Unlocked (msg_wrappedKey message) (msg_wrappedKeyNonce message)
                      (msg_wrappedKeyAuthTag message) (distance verification),
             store)
      end
  end.

(** [DELETE /api/messages/:id] *)
Definition deleteMessage (store : MessageStore) (id : string)
  : Response * MessageStore :=
  match map_get store id with
  | Some _ => (Deleted, map_delete store id)
  | None => (NotFound, store)
  end.

End Server.

(* ================================================================== *)
(** * The client: status and time left (MessageViewer.tsx) *)
(* ================================================================== *)

Inductive Status :=
| UNKNOWN
| NOT_YET_ACTIVE
| EXPIRED
| UNLOCKABLE
| LOCKED (dist : R).
    (* `LOCKED (${distance.toFixed(0)}m away)` *)

(** [getStatus]; the component computes the distance by the formula of
    [calculateDistance], written out a second time. *)
Definition getStatus (message : option StoredMessage) (now : Z)
  (userLat userLon : R) : Status :=
  match message with
  | None => UNKNOWN
  | Some m =>
      let b := locationBinding m in
      if (now <? lb_windowStart b)%Z then NOT_YET_ACTIVE
      else if (lb_windowEnd b <? now)%Z then EXPIRED
      else
        let dist := calculateDistance userLat userLon
                      (lb_latitude b) (lb_longitude b) in
        if num_le dist (lb_radiusMeters b) then UNLOCKABLE else LOCKED dist
  end.

Inductive TimeLeft :=
| TimeExpired
    (* 'EXPIRED' *)
| HoursMinutes (hours mins : Z).
    (* `${hours}h ${mins}m` *)

(** [getTimeLeft] of the message list. *)
Definition getTimeLeft (now expires : Z) : TimeLeft :=
  let left := (expires - now)%Z in
  if (left <? 0)%Z then TimeExpired
  else
    let hours := (left / (1000 * 60 * 60))%Z in
    let mins := (Z.rem left (1000 * 60 * 60) / (1000 * 60))%Z in
    HoursMinutes hours mins.

(** A signer for the small platform: the signature spells the secret
    key, so that a key pair is a key and itself. *)
Definition demoSigner : Signer := {|
  nacl_sign_detached := fun _ sk => sk
|}.

(** A binding around (0, 0) and a message body bound to it. *)
Definition demoBinding : LocationBinding :=
  {| lb_latitude := 0; lb_longitude := 0; lb_radiusMeters := 100;
     lb_windowStart := 0; lb_windowEnd := 100000; lb_nonce := "n1" |}.

Definition demoMessage (md : option MessageMetadata) : ServerMessage :=
  {| msg_id := Some "msg-1"%string;
     msg_senderPublicKey := Some "spk"%string;
     msg_recipientPublicKey := Some "rpk"%string;
     msg_encryptedPayload := Some "Y3Q="%string;
     msg_payloadNonce := Some "bm9uY2U="%string;
     msg_payloadAuthTag := Some "dGFn"%string;
     msg_wrappedKey := Some "a2V5"%string;
     msg_wrappedKeyNonce := Some "bm9uY2Uy"%string;
     msg_wrappedKeyAuthTag := Some "dGFnMg=="%string;
     msg_locationBinding := Some demoBinding;
     msg_metadata := md |}.

Definition demoMetadata (expires : option Z) : MessageMetadata :=
  {| title := None; created := 0; expiresAt := expires |}.

(* ================================================================== *)
(** * Calls that throw: malformed base64, keys and signatures of a wrong size *)
(* ================================================================== *)

(** [validateBase64] of tweetnacl-util, which [util.decodeBase64] runs
    before it decodes: [false] where it throws its [TypeError].
    [Buffer.from(s, 'base64')] runs no such test and never throws. *)
Class Base64Validation := {
  validateBase64 : string -> bool
}.

(** The sizes [nacl.sign.detached.verify] insists on. *)
Definition crypto_sign_BYTES : nat := 64.
Definition crypto_sign_PUBLICKEYBYTES : nat := 32.

(** The functions above whose calls can throw before they reach their
    [return], with the exception: [None] is an exception that leaves the
    function.  [verifySignature], [verifyAttestationSignature],
    [verifyLocationAttestation], [unlockMessage] and the browser's
    [hkdf] above give the value of a call that does not throw. *)
Module Exn.
Section Defs.
Context `{Platform} `{Base64Validation}.

(** [util.decodeBase64(s)] *)
Definition util_decodeBase64 (s : string) : option bytes :=
  if validateBase64 s then Some (decodeBase64 s) else None.

(** [nacl.sign.detached.verify(msg, sig, publicKey)]: 'bad signature
    size', 'bad public key size', or the verdict. *)
Definition sign_detached_verify (msg sig publicKey : bytes) : option bool :=
  if negb (List.length sig =? crypto_sign_BYTES)%nat then None
  else if negb (List.length publicKey =? crypto_sign_PUBLICKEYBYTES)%nat then None
  else Some (nacl_sign_detached_verify msg sig publicKey).

(** [verifySignature] of crypto.ts *)
Definition verifySignature (message signature publicKey : string) : option bool :=
  let msgBytes := list_byte_of_string message in
  match util_decodeBase64 signature with
  | None => None
  | Some sigBytes =>
  match util_decodeBase64 publicKey with
  | None => None
  | Some pubKey => sign_detached_verify msgBytes sigBytes pubKey
  end end.

Definition verifyAttestationSignature (a : LocationAttestation) : option bool :=
  let message := JSON_stringify
    [ ("deviceId"%string, JSString (deviceId a));
      ("lat"%string, JSString (toFixed (latitude a) 6));
      ("lon"%string, JSString (toFixed (longitude a) 6));
      ("accuracy"%string, JSNumber (accuracy a));
      ("timestamp"%string, JSNumber (IZR (timestamp a))) ] in
  verifySignature message (signature a) (devicePublicKey a).

(** [verifyLocationAttestation]: nothing in location.ts catches what
    the signature check throws. *)
Definition verifyLocationAttestation (now : Z)
  (a : LocationAttestation) (config : VerificationConfig)
  : option VerificationResult :=
  (* 1. Verify cryptographic signature *)
  match verifyAttestationSignature a with
  | None => None
  | Some signatureOk =>
  Some (
  if negb signatureOk then
    {| valid := false; reason := Some InvalidSignature;
       attestation := None; distance := None |}
  else
  (* 2. Check timestamp freshness *)
  let maxAge := nullish (maxAttestationAgeSec config) 300%R in
  if negb (isAttestationFresh now (timestamp a) maxAge) then
    {| valid := false; reason := Some (AttestationTooOld maxAge);
       attestation := Some a; distance := None |}
  else
  (* 3. Check time window *)
  if negb (isWithinTimeWindow (timestamp a) (windowStart config) (windowEnd config)) then
    {| valid := false; reason := Some OutsideTimeWindow;
       attestation := Some a; distance := None |}
  else
  (* 4. Check geofence *)
  let '(within, dist) :=
    isWithinGeofence (latitude a) (longitude a)
                     (targetLat config) (targetLon config) (radiusMeters config) in
  if negb within then
    {| valid := false;
       reason := Some (OutsideGeofence dist (radiusMeters config));
       attestation := Some a; distance := Some dist |}
  else
  (* 5. Check movement plausibility *)
  match checkStep5 a config dist with
  | Some r => r
  | None =>
  (* 6. Check continuous presence *)
  match checkStep6 a config dist with
  | Some r => r
  | None =>
      {| valid := true; reason := None;
         attestation := Some a; distance := Some dist |}
  end end)
  end.

(** [POST /api/messages/:id/unlock]: the [catch] of the handler answers
    500 to what the verification throws. *)
Definition unlockMessage (now now' : Z) (store : MessageStore) (id : string)
  (a : LocationAttestation) : Response * MessageStore :=
  match lookupLive now store id with
  | inr answer => answer
  | inl (message, _) =>
      match msg_locationBinding message with
      | None => (InternalError, store)
      | Some lb =>
          match verifyLocationAttestation now' a (unlockConfig lb) with
          | None => (InternalError, store)
          | Some verification =>
              if negb (valid verification) then
                (Denied (reason verification) (distance verification), store)
              else
                (Unlocked (msg_wrappedKey message) (msg_wrappedKeyNonce message)
                          (msg_wrappedKeyAuthTag message) (distance verification),
                 store)
          end
      end
  end.

(** [hkdf] of the browser: a secret given as text goes through
    [util.decodeBase64]. *)
Definition browser_hkdf (ikm salt info : BufferOrString) (len : Z) : option bytes :=
  match (match ikm with inr s => util_decodeBase64 s | inl b => Some b end) with
  | None => None
  | Some ikmBuf =>
      let saltBuf := match salt with inr s => list_byte_of_string s | inl b => b end in
      let infoBuf := match info with inr s => list_byte_of_string s | inl b => b end in
      let prk := Browser.hkdfExtract saltBuf ikmBuf in
      Browser.hkdfExpand prk infoBuf len
  end.

(** [deriveLocationBoundKey] of the browser *)
Definition browser_deriveLocationBoundKey (sharedSecret : string)
  (lat lon radiusMeters : R) (windowStart windowEnd : Z) (nonce : string)
  : option bytes :=
  let locationInfo := JSON_stringify
    [ ("lat"%string, JSString (toFixed lat 6));
      ("lon"%string, JSString (toFixed lon 6));
      ("radius"%string, JSNumber radiusMeters);
      ("start"%string, JSNumber (IZR windowStart));
      ("end"%string, JSNumber (IZR windowEnd));
      ("nonce"%string, JSString nonce) ] in
  browser_hkdf (inr sharedSecret) (inr "LocationBoundMessaging-v1"%string)
               (inr locationInfo) 32.

Definition deriveKey_browser (sharedSecret : string) (b : LocationBinding)
  : option bytes :=
  browser_deriveLocationBoundKey sharedSecret
    (lb_latitude b) (lb_longitude b) (lb_radiusMeters b)
    (lb_windowStart b) (lb_windowEnd b) (lb_nonce b).

End Defs.
End Exn.

(** The test of [validateBase64]: groups of four characters of the
    base64 alphabet, the last of which may end in one or two [=]. *)
Definition isBase64Char (c : ascii) : bool :=
  let n := nat_of_ascii c in
  (((65 <=? n) && (n <=? 90)) || ((97 <=? n) && (n <=? 122))
   || ((48 <=? n) && (n <=? 57)) || (n =? 43) || (n =? 47))%nat.

Definition isPadChar (c : ascii) : bool := (nat_of_ascii c =? 61)%nat.

Fixpoint paddedBase64 (l : list ascii) : bool :=
  match l with
  | [] => true
  | c1 :: c2 :: c3 :: c4 :: rest =>
      isBase64Char c1 && isBase64Char c2 &&
      match rest with
      | [] => (isBase64Char c3 && (isBase64Char c4 || isPadChar c4))
              || (isPadChar c3 && isPadChar c4)
      | _ => isBase64Char c3 && isBase64Char c4 && paddedBase64 rest
      end
  | _ => false
  end.

Definition demoValidation : Base64Validation := {|
  validateBase64 := fun s => paddedBase64 (list_ascii_of_string s)
|}.

(** The small platform with signatures of 64 bytes and keys of 32: a
    signature verifies when its first half spells the public key. *)
Definition demoPlatform64 : Platform := {|
  toFixed := @toFixed demoPlatform;
  JSON_stringify := @JSON_stringify demoPlatform;
  encodeBase64 := @encodeBase64 demoPlatform;
  decodeBase64 := @decodeBase64 demoPlatform;
  nacl_sign_detached_verify := fun _ sig pk => bytes_eqb (firstn 32 sig) pk;
  HMAC_SHA256 := @HMAC_SHA256 demoPlatform;
  AES_GCM_encrypt := @AES_GCM_encrypt demoPlatform;
  AES_GCM_decrypt := @AES_GCM_decrypt demoPlatform;
  RNG := @RNG demoPlatform;
  randomBytes := @randomBytes demoPlatform
|}.

Definition demoKey : string := "AAAAAAAAAAAAAAAAAAAAAAAAAAAAAAAA".
Definition demoSignature : string :=
  "AAAAAAAAAAAAAAAAAAAAAAAAAAAAAAAABBBBBBBBBBBBBBBBBBBBBBBBBBBBBBBB".

(** An attestation of the device with the key [demoKey], taken at (0, 0). *)
Definition signedAttestation (sig : string) (t : Z)
  (h : option (list LocationPoint)) : LocationAttestation :=
  {| deviceId := "device-1"; devicePublicKey := demoKey;
     latitude := 0; longitude := 0; accuracy := 5; timestamp := t;
     altitude := None; heading := None; speed := None;
     wifiSSIDs := None; cellTowers := None;
     movementHistory := h; signature := sig |}.

(* ================================================================== *)
(** * Facts about the numeric helpers *)
(* ================================================================== *)

Local Open Scope R_scope.

Lemma num_le_true_iff (x y : R) : num_le x y = true <-> x <= y.
Proof. unfold num_le; destruct (Rle_dec x y); split; intros; lra || congruence. Qed.

Lemma num_le_false_iff (x y : R) : num_le x y = false <-> y < x.
Proof. unfold num_le; destruct (Rle_dec x y); split; intros; lra || congruence. Qed.

Lemma num_lt_true_iff (x y : R) : num_lt x y = true <-> x < y.
Proof. unfold num_lt; destruct (Rlt_dec x y); split; intros; lra || congruence. Qed.

Lemma num_lt_false_iff (x y : R) : num_lt x y = false <-> y <= x.
Proof. unfold num_lt; destruct (Rlt_dec x y); split; intros; lra || congruence. Qed.

Lemma atan2_pos_x (y x : R) : 0 < x -> atan2 y x = atan (y / x).
Proof. intros Hx; unfold atan2; destruct (Rlt_dec 0 x); [reflexivity | lra]. Qed.

Lemma atan2_zero_x (y : R) : 0 < y -> atan2 y 0 = PI / 2.
Proof.
  intros Hy; unfold atan2.
  destruct (Rlt_dec 0 0); [lra |].
  destruct (Rlt_dec 0 y); [reflexivity | lra].
Qed.

(** The two-argument arctangent of the formula is the arcsine of the
    textbook form of the Haversine formula. *)
Lemma atan2_sqrt_asin (a : R) : atan2 (sqrt a) (sqrt (1 - a)) = asin (sqrt a).
Proof.
  destruct (Rle_dec a 0) as [Ha0 | Ha0].
  - rewrite (sqrt_neg_0 a Ha0).
    rewrite atan2_pos_x by (apply sqrt_lt_R0; lra).
    rewrite asin_0. unfold Rdiv. rewrite Rmult_0_l. apply atan_0.
  - destruct (Rlt_dec a 1) as [Ha1 | Ha1].
    + assert (Hs : 0 < sqrt a) by (apply sqrt_lt_R0; lra).
      assert (Hs1 : sqrt a < 1).
      { rewrite <- sqrt_1. apply sqrt_lt_1_alt. lra. }
      rewrite atan2_pos_x by (apply sqrt_lt_R0; lra).
      rewrite asin_atan by lra.
      rewrite Rsqr_sqrt by lra. reflexivity.
    + assert (Hs1 : 1 <= sqrt a).
      { rewrite <- sqrt_1 at 1. apply sqrt_le_1_alt. lra. }
      rewrite (sqrt_neg_0 (1 - a)) by lra.
      rewrite atan2_zero_x by lra.
      unfold asin.
      destruct (Rle_dec (sqrt a) (-1)); [lra |].
      destruct (Rle_dec 1 (sqrt a)); [reflexivity | lra].
Qed.

(** The distance from a point to itself is zero. *)
Lemma calculateDistance_self (la lo : R) : calculateDistance la lo la lo = 0.
Proof.
  unfold calculateDistance.
  replace ((la - la) * PI / 180 / 2) with 0 by lra.
  replace ((lo - lo) * PI / 180 / 2) with 0 by lra.
  rewrite sin_0.
  replace (0 * 0 + cos (la * PI / 180) * cos (la * PI / 180) * 0 * 0) with 0 by lra.
  rewrite sqrt_0. replace (1 - 0) with 1 by lra. rewrite sqrt_1.
  rewrite atan2_pos_x by lra.
  replace (0 / 1) with 0 by lra. rewrite atan_0. lra.
Qed.

(** The distance from (0, 0) to its antipode (0, 180) is half the
    circumference. *)
Lemma calculateDistance_antipode : calculateDistance 0 0 0 180 = 6371000 * PI.
Proof.
  unfold calculateDistance.
  replace ((0 - 0) * PI / 180 / 2) with 0 by lra.
  replace ((180 - 0) * PI / 180 / 2) with (PI / 2) by lra.
  replace (0 * PI / 180) with 0 by lra.
  rewrite sin_0, cos_0, sin_PI2.
  replace (0 * 0 + 1 * 1 * 1 * 1) with 1 by lra.
  replace (1 - 1) with 0 by lra.
  rewrite sqrt_1, sqrt_0.
  rewrite atan2_zero_x by lra. lra.
Qed.

Lemma antipode_is_far : 100 < calculateDistance 0 0 0 180.
Proof. rewrite calculateDistance_antipode. pose proof PI2_1. lra. Qed.

(* ================================================================== *)
(** * The geofence check *)
(* ================================================================== *)

(** C4.  The geofence check reports the Haversine distance on a sphere
    of radius 6 371 000 m between the current and the target
    coordinates, and accepts exactly when that distance is at most the
    radius: a point at exactly the radius is accepted, a point farther
    than the radius is rejected. *)
Theorem C4_geofence_haversine_boundary :
  forall currentLat currentLon targetLat targetLon radius : R,
    let phi1 := currentLat * PI / 180 in
    let phi2 := targetLat * PI / 180 in
    let dphi := (targetLat - currentLat) * PI / 180 in
    let dlambda := (targetLon - currentLon) * PI / 180 in
    let a := (sin (dphi / 2))² + cos phi1 * cos phi2 * (sin (dlambda / 2))² in
    let d := calculateDistance currentLat currentLon targetLat targetLon in
    let check := isWithinGeofence currentLat currentLon targetLat targetLon radius in
    d = 6371000 * (2 * atan2 (sqrt a) (sqrt (1 - a))) /\
    d = 2 * 6371000 * asin (sqrt a) /\
    snd check = d /\
    (fst check = true <-> d <= radius) /\
    (d = radius -> fst check = true) /\
    (radius < d -> fst check = false).
Proof.
  intros currentLat currentLon targetLat targetLon radius phi1 phi2 dphi dlambda a d check.
  assert (Hd : d = 6371000 * (2 * atan2 (sqrt a) (sqrt (1 - a)))).
  { subst d a dphi dlambda phi1 phi2. unfold calculateDistance, Rsqr.
    match goal with
    | |- _ * (2 * atan2 (sqrt ?x) (sqrt (1 - ?x))) =
         _ * (2 * atan2 (sqrt ?y) (sqrt (1 - ?y))) =>
        replace y with x by ring
    end.
    reflexivity. }
  split; [exact Hd |].
  split; [rewrite Hd, atan2_sqrt_asin; lra |].
  split; [reflexivity |].
  subst check; unfold isWithinGeofence; cbn [fst snd]; fold d.
  split; [apply num_le_true_iff |].
  split; intros Hr.
  - apply num_le_true_iff; lra.
  - apply num_le_false_iff; exact Hr.
Qed.

(* ================================================================== *)
(** * The verification pipeline, stage by stage *)
(* ================================================================== *)

Lemma checkTransitions_reason (prev : LocationPoint) (rest : list LocationPoint)
  (acc limit : R) :
  plausible (checkTransitions prev rest acc limit) = false ->
  exists s, plausibility_reason (checkTransitions prev rest acc limit)
            = Some (ImpossibleSpeed s limit).
Proof.
  revert prev acc.
  induction rest as [| cur rest IH]; intros prev acc; cbn [checkTransitions].
  - cbn. discriminate.
  - destruct (num_gt (calculateSpeed prev cur) limit).
    + intros _. eexists. reflexivity.
    + apply IH.
Qed.

Lemma checkMovementPlausibility_reason (h : list LocationPoint) (limit : R) :
  plausible (checkMovementPlausibility h limit) = false ->
  exists s, plausibility_reason (checkMovementPlausibility h limit)
            = Some (ImpossibleSpeed s limit).
Proof.
  unfold checkMovementPlausibility.
  destruct (List.length h <? 2)%nat; [cbn; discriminate |].
  destruct (sortByTimestamp h) as [| first rest]; [cbn; discriminate |].
  apply checkTransitions_reason.
Qed.

Lemma verifyContinuousPresence_reason (h : list LocationPoint)
  (tLat tLon radius required : R) :
  verified (verifyContinuousPresence h tLat tLon radius required) = false ->
  presence_reason (verifyContinuousPresence h tLat tLon radius required)
    = Some NoMovementHistory
  \/ exists d, presence_reason (verifyContinuousPresence h tLat tLon radius required)
               = Some (InsufficientPresence d required).
Proof.
  unfold verifyContinuousPresence.
  destruct h as [| p h]; [intros _; left; reflexivity |].
  destruct (fold_left _ _ _) as [ws wd].
  destruct (num_ge (IZR wd / 1000) required); cbn; [discriminate |].
  intros _. right. eexists. reflexivity.
Qed.

Section PipelineFacts.
Context `{Platform}.
Variable now : Z.
Variable a : LocationAttestation.
Variable config : VerificationConfig.

Let maxAge : R := nullish (maxAttestationAgeSec config) 300.
Let dist : R := geofenceDistance a config.

Lemma pipeline_stage1 :
  verifyAttestationSignature a = false ->
  verifyLocationAttestation now a config = rejectedAt1.
Proof.
  intros Hsig. unfold verifyLocationAttestation. rewrite Hsig. reflexivity.
Qed.

Lemma pipeline_stage2 :
  verifyAttestationSignature a = true ->
  isAttestationFresh now (timestamp a) maxAge = false ->
  verifyLocationAttestation now a config = rejectedAt2 a config.
Proof.
  intros Hsig Hfresh. unfold verifyLocationAttestation.
  rewrite Hsig. cbn [negb]. fold maxAge. rewrite Hfresh. reflexivity.
Qed.

Lemma pipeline_stage3 :
  verifyAttestationSignature a = true ->
  isAttestationFresh now (timestamp a) maxAge = true ->
  isWithinTimeWindow (timestamp a) (windowStart config) (windowEnd config) = false ->
  verifyLocationAttestation now a config = rejectedAt3 a.
Proof.
  intros Hsig Hfresh Hwin. unfold verifyLocationAttestation.
  rewrite Hsig. cbn [negb]. fold maxAge. rewrite Hfresh. cbn [negb].
  rewrite Hwin. reflexivity.
Qed.

Lemma pipeline_stage4 :
  verifyAttestationSignature a = true ->
  isAttestationFresh now (timestamp a) maxAge = true ->
  isWithinTimeWindow (timestamp a) (windowStart config) (windowEnd config) = true ->
  num_le dist (radiusMeters config) = false ->
  verifyLocationAttestation now a config = rejectedAt4 a config.
Proof.
  intros Hsig Hfresh Hwin Hgeo. unfold verifyLocationAttestation.
  rewrite Hsig. cbn [negb]. fold maxAge. rewrite Hfresh. cbn [negb].
  rewrite Hwin. cbn [negb]. unfold isWithinGeofence.
  change (calculateDistance (latitude a) (longitude a)
            (targetLat config) (targetLon config)) with dist.
  rewrite Hgeo. reflexivity.
Qed.

Lemma pipeline_late :
  verifyAttestationSignature a = true ->
  isAttestationFresh now (timestamp a) maxAge = true ->
  isWithinTimeWindow (timestamp a) (windowStart config) (windowEnd config) = true ->
  num_le dist (radiusMeters config) = true ->
  verifyLocationAttestation now a config =
    match checkStep5 a config dist with
    | Some r => r
    | None => match checkStep6 a config dist with
              | Some r => r
              | None => accepted a config
              end
    end.
Proof.
  intros Hsig Hfresh Hwin Hgeo. unfold verifyLocationAttestation.
  rewrite Hsig. cbn [negb]. fold maxAge. rewrite Hfresh. cbn [negb].
  rewrite Hwin. cbn [negb]. unfold isWithinGeofence.
  change (calculateDistance (latitude a) (longitude a)
            (targetLat config) (targetLon config)) with dist.
  rewrite Hgeo. reflexivity.
Qed.

Lemma checkStep5_rejects (r : VerificationResult) :
  checkStep5 a config dist = Some r ->
  valid r = false /\ distance r = Some dist /\ attestation r = Some a /\
  exists s m, reason r = Some (ImpossibleSpeed s m).
Proof.
  unfold checkStep5.
  destruct (movementHistory a) as [h |]; [| discriminate].
  destruct (2 <=? List.length h)%nat; [| discriminate].
  destruct (plausible (checkMovementPlausibility h _)) eqn:Hp; [discriminate |].
  intros Hr; injection Hr as <-. cbn.
  repeat split.
  destruct (checkMovementPlausibility_reason _ _ Hp) as [s Hs].
  exists s. eexists. exact Hs.
Qed.

Lemma checkStep6_rejects (r : VerificationResult) :
  checkStep6 a config dist = Some r ->
  valid r = false /\ distance r = Some dist /\ attestation r = Some a /\
  (reason r = Some NoMovementHistory \/
   exists d m, reason r = Some (InsufficientPresence d m)).
Proof.
  unfold checkStep6.
  destruct (truthy (requireContinuousPresence config)); [| discriminate].
  destruct (movementHistory a) as [h |]; [| discriminate].
  destruct (verified (verifyContinuousPresence h _ _ _ _)) eqn:Hp; [discriminate |].
  intros Hr; injection Hr as <-. cbn.
  repeat split.
  destruct (verifyContinuousPresence_reason _ _ _ _ _ Hp) as [Hn | [d Hd]].
  - left. exact Hn.
  - right. exists d. eexists. exact Hd.
Qed.

(** Every result of the pipeline is one of the seven outcomes, and a
    rejection names its stage and carries the distance from stage 4 on. *)
Lemma pipeline_outcome :
  let r := verifyLocationAttestation now a config in
  (valid r = true /\ r = accepted a config) \/
  (valid r = false /\
   exists rs, reason r = Some rs /\
     (((stageOf rs < 4)%nat /\ distance r = None) \/
      ((4 <= stageOf rs)%nat /\ distance r = Some dist))).
Proof.
  intros r. subst r.
  destruct (verifyAttestationSignature a) eqn:Hsig.
  2:{ rewrite (pipeline_stage1 Hsig). right. split; [reflexivity |].
      eexists. split; [reflexivity |]. left. cbn. split; [lia | reflexivity]. }
  destruct (isAttestationFresh now (timestamp a) maxAge) eqn:Hfresh.
  2:{ rewrite (pipeline_stage2 Hsig Hfresh). right. split; [reflexivity |].
      eexists. split; [reflexivity |]. left. cbn. split; [lia | reflexivity]. }
  destruct (isWithinTimeWindow (timestamp a) (windowStart config) (windowEnd config))
    eqn:Hwin.
  2:{ rewrite (pipeline_stage3 Hsig Hfresh Hwin). right. split; [reflexivity |].
      eexists. split; [reflexivity |]. left. cbn. split; [lia | reflexivity]. }
  destruct (num_le dist (radiusMeters config)) eqn:Hgeo.
  2:{ rewrite (pipeline_stage4 Hsig Hfresh Hwin Hgeo). right. split; [reflexivity |].
      eexists. split; [reflexivity |]. right. cbn. split; [lia | reflexivity]. }
  rewrite (pipeline_late Hsig Hfresh Hwin Hgeo).
  destruct (checkStep5 a config dist) as [r5 |] eqn:H5.
  { destruct (checkStep5_rejects _ H5) as (Hv & Hd & _ & s & m & Hr).
    right. split; [exact Hv |]. eexists. split; [exact Hr |].
    right. cbn. split; [lia | exact Hd]. }
  destruct (checkStep6 a config dist) as [r6 |] eqn:H6.
  { destruct (checkStep6_rejects _ H6) as (Hv & Hd & _ & [Hr | (d & m & Hr)]).
    - right. split; [exact Hv |]. eexists. split; [exact Hr |].
      right. cbn. split; [lia | exact Hd].
    - right. split; [exact Hv |]. eexists. split; [exact Hr |].
      right. cbn. split; [lia | exact Hd]. }
  left. split; reflexivity.
Qed.

End PipelineFacts.

Lemma isAttestationFresh_iff (now ts : Z) (maxAgeSec : R) :
  isAttestationFresh now ts maxAgeSec = true <->
  (0 <= now - ts)%Z /\ IZR (now - ts) <= maxAgeSec * 1000.
Proof.
  unfold isAttestationFresh.
  rewrite andb_true_iff, Z.leb_le, num_le_true_iff. reflexivity.
Qed.

Lemma isWithinTimeWindow_iff (ts ws we : Z) :
  isWithinTimeWindow ts ws we = true <-> (ws <= ts <= we)%Z.
Proof.
  unfold isWithinTimeWindow. rewrite andb_true_iff, !Z.leb_le. reflexivity.
Qed.

(** Evaluation of the checks on the concrete inputs of the examples. *)
Ltac unfold_locals := repeat match goal with x := _ |- _ => subst x end.
Ltac eval_fresh :=
  unfold_locals; apply isAttestationFresh_iff; cbn [nullish maxAttestationAgeSec demoConfig
    timestamp demoAttestation]; split;
  [ lia
  | match goal with
    | |- IZR ?z <= _ => let v := eval compute in z in change z with v
    end; lra ].
Ltac eval_within_self :=
  unfold_locals; unfold isWithinGeofence; cbn [fst latitude longitude targetLat targetLon
    radiusMeters demoAttestation demoConfig];
  apply num_le_true_iff; rewrite calculateDistance_self; lra.
Ltac eval_outside_antipode :=
  unfold_locals; unfold isWithinGeofence; cbn [fst latitude longitude targetLat targetLon
    radiusMeters demoAttestation demoConfig];
  apply num_le_false_iff; apply antipode_is_far.

(** C5.  The freshness check accepts exactly when
    0 <= now - timestamp <= maxAge (in milliseconds), where the maximal
    age is 300 000 ms when the configuration leaves it out; an
    attestation stamped in the future is rejected as too old, and no
    attestation outside the bound is ever declared valid. *)
Theorem C5_freshness_check :
  forall (P : Platform) (now : Z) (a : LocationAttestation)
         (config : VerificationConfig),
    let maxAgeSec := nullish (maxAttestationAgeSec config) 300 in
    let maxAgeMs := maxAgeSec * 1000 in
    let ageMs := (now - timestamp a)%Z in
    let r := verifyLocationAttestation now a config in
    (isAttestationFresh now (timestamp a) maxAgeSec = true <->
     (0 <= ageMs)%Z /\ IZR ageMs <= maxAgeMs) /\
    (maxAttestationAgeSec config = None -> maxAgeMs = 300000) /\
    (isAttestationFresh_default now (timestamp a) = true <->
     (0 <= ageMs <= 300000)%Z) /\
    (verifyAttestationSignature a = true ->
     ~ ((0 <= ageMs)%Z /\ IZR ageMs <= maxAgeMs) ->
     r = rejectedAt2 a config) /\
    (verifyAttestationSignature a = true -> (now < timestamp a)%Z ->
     r = rejectedAt2 a config) /\
    (valid r = true -> (0 <= ageMs)%Z /\ IZR ageMs <= maxAgeMs).
Proof.
  intros P now a config maxAgeSec maxAgeMs ageMs r.
  assert (Hiff : isAttestationFresh now (timestamp a) maxAgeSec = true <->
                 (0 <= ageMs)%Z /\ IZR ageMs <= maxAgeMs)
    by apply isAttestationFresh_iff.
  assert (Hstale : verifyAttestationSignature a = true ->
                   ~ ((0 <= ageMs)%Z /\ IZR ageMs <= maxAgeMs) ->
                   r = rejectedAt2 a config).
  { intros Hs Hn. apply pipeline_stage2; [exact Hs |].
    apply not_true_is_false. intros E. apply Hn, Hiff. exact E. }
  split; [exact Hiff |].
  split.
  { intros Hnone. subst maxAgeMs maxAgeSec. rewrite Hnone. cbn. lra. }
  split.
  { unfold isAttestationFresh_default. rewrite isAttestationFresh_iff.
    fold ageMs. split.
    - intros [H0 H1]. split; [exact H0 |].
      apply le_IZR. rewrite H1. lra.
    - intros [H0 H1]. split; [exact H0 |].
      apply IZR_le in H1. lra. }
  split; [exact Hstale |].
  split.
  { intros Hs Hfut. apply Hstale; [exact Hs |]. subst ageMs. intros [H0 _]. lia. }
  intros Hvalid.
  destruct (verifyAttestationSignature a) eqn:Hs.
  - destruct (isAttestationFresh now (timestamp a) maxAgeSec) eqn:Hf.
    + apply Hiff. reflexivity.
    + subst r. rewrite (pipeline_stage2 now a config Hs Hf) in Hvalid.
      discriminate.
  - subst r. rewrite (pipeline_stage1 now a config Hs) in Hvalid. discriminate.
Qed.

(** C10.  With continuous presence required, an attestation without a
    movement history skips the presence check and verifies, whereas an
    attestation whose movement history is the empty array is rejected
    for want of a movement history. *)
Theorem C10_absent_versus_empty_history :
  forall (P : Platform) (now : Z) (a : LocationAttestation)
         (config : VerificationConfig),
    let r := verifyLocationAttestation now a config in
    let d := geofenceDistance a config in
    requireContinuousPresence config = Some true ->
    verifyAttestationSignature a = true ->
    isAttestationFresh now (timestamp a)
      (nullish (maxAttestationAgeSec config) 300) = true ->
    isWithinTimeWindow (timestamp a) (windowStart config) (windowEnd config) = true ->
    fst (isWithinGeofence (latitude a) (longitude a) (targetLat config)
           (targetLon config) (radiusMeters config)) = true ->
    (movementHistory a = None ->
     checkStep6 a config d = None /\ r = accepted a config) /\
    (movementHistory a = Some [] ->
     checkStep6 a config d <> None /\
     r = {| valid := false; reason := Some NoMovementHistory;
            attestation := Some a; distance := Some d |}).
Proof.
  intros P now a config r d Hreq Hs Hf Hw Hg.
  unfold isWithinGeofence in Hg; cbn [fst] in Hg.
  subst r. rewrite (pipeline_late now a config Hs Hf Hw Hg).
  unfold checkStep5, checkStep6. rewrite Hreq. cbn [truthy].
  split; intros Hh; rewrite Hh.
  - split; reflexivity.
  - cbn. split; [discriminate | reflexivity].
Qed.

Lemma C10_absent_versus_empty_history_witness :
  let config := demoConfig 0 (Some true) in
  let absent := demoAttestation "pk" 1000 None in
  let empty := demoAttestation "pk" 1000 (Some []) in
  verifyLocationAttestation (H := demoPlatform) 1000 absent config
    = accepted absent config /\
  verifyLocationAttestation (H := demoPlatform) 1000 empty config
    = {| valid := false; reason := Some NoMovementHistory;
         attestation := Some empty;
         distance := Some (geofenceDistance empty config) |}.
Proof.
  intros config absent empty.
  split.
  - apply (C10_absent_versus_empty_history demoPlatform 1000 absent config);
      [reflexivity | reflexivity | eval_fresh | reflexivity | eval_within_self
      | reflexivity].
  - apply (C10_absent_versus_empty_history demoPlatform 1000 empty config);
      [reflexivity | reflexivity | eval_fresh | reflexivity | eval_within_self
      | reflexivity].
Defined.

(* ================================================================== *)
(** * Sorting by timestamp *)
(* ================================================================== *)

Lemma insertByTimestamp_In (x p : LocationPoint) (l : list LocationPoint) :
  In x (insertByTimestamp p l) <-> x = p \/ In x l.
Proof.
  induction l as [| q l IH]; cbn [insertByTimestamp].
  - cbn. intuition.
  - destruct (pt_timestamp p <=? pt_timestamp q)%Z; cbn [In].
    + intuition.
    + rewrite IH. intuition.
Qed.

Lemma sortByTimestamp_In (x : LocationPoint) (l : list LocationPoint) :
  In x (sortByTimestamp l) <-> In x l.
Proof.
  induction l as [| p l IH]; cbn [sortByTimestamp fold_right].
  - reflexivity.
  - fold (sortByTimestamp l). rewrite insertByTimestamp_In, IH. cbn. intuition.
Qed.

Lemma insertByTimestamp_length (p : LocationPoint) (l : list LocationPoint) :
  List.length (insertByTimestamp p l) = S (List.length l).
Proof.
  induction l as [| q l IH]; cbn [insertByTimestamp]; [reflexivity |].
  destruct (pt_timestamp p <=? pt_timestamp q)%Z; cbn [List.length]; congruence.
Qed.

Lemma sortByTimestamp_length (l : list LocationPoint) :
  List.length (sortByTimestamp l) = List.length l.
Proof.
  induction l as [| p l IH]; [reflexivity |].
  cbn [sortByTimestamp fold_right]. fold (sortByTimestamp l).
  rewrite insertByTimestamp_length. cbn. congruence.
Qed.

Lemma insertByTimestamp_HdRel (x p : LocationPoint) (l : list LocationPoint) :
  timestampLe x p -> HdRel timestampLe x l ->
  HdRel timestampLe x (insertByTimestamp p l).
Proof.
  intros Hxp Hl. destruct l as [| q l]; cbn [insertByTimestamp].
  - constructor. exact Hxp.
  - destruct (pt_timestamp p <=? pt_timestamp q)%Z; constructor.
    + exact Hxp.
    + inversion Hl; assumption.
Qed.

Lemma insertByTimestamp_Sorted (p : LocationPoint) (l : list LocationPoint) :
  Sorted timestampLe l -> Sorted timestampLe (insertByTimestamp p l).
Proof.
  induction l as [| q l IH]; intros Hs; cbn [insertByTimestamp].
  - repeat constructor.
  - destruct (pt_timestamp p <=? pt_timestamp q)%Z eqn:E.
    + constructor; [exact Hs |]. constructor. apply Z.leb_le. exact E.
    + inversion Hs as [| ? ? Hs' Hhd]; subst.
      constructor; [apply IH; exact Hs' |].
      apply insertByTimestamp_HdRel; [| exact Hhd].
      apply Z.leb_gt in E. unfold timestampLe. lia.
Qed.

Lemma sortByTimestamp_Sorted (l : list LocationPoint) :
  Sorted timestampLe (sortByTimestamp l).
Proof.
  induction l as [| p l IH]; [constructor |].
  cbn [sortByTimestamp fold_right]. apply insertByTimestamp_Sorted. exact IH.
Qed.

Lemma consecutive_Sorted (p q : LocationPoint) (l : list LocationPoint) :
  Sorted timestampLe l -> consecutive p q l -> timestampLe p q.
Proof.
  intros Hs Hc. induction Hc as [l | z l Hc IH].
  - inversion Hs as [| ? ? _ Hhd]; subst. inversion Hhd; assumption.
  - apply IH. inversion Hs; assumption.
Qed.

Lemma consecutive_length {A : Type} (x y : A) (l : list A) :
  consecutive x y l -> (2 <= List.length l)%nat.
Proof.
  induction 1 as [l | z l Hc IH]; cbn [List.length] in *; lia.
Qed.

(* ================================================================== *)
(** * Movement plausibility *)
(* ================================================================== *)

Lemma calculateSpeed_nonpositive_interval (p q : LocationPoint) :
  (pt_timestamp q - pt_timestamp p <= 0)%Z -> calculateSpeed p q = 0.
Proof.
  intros Hdt. unfold calculateSpeed.
  destruct (Rle_dec _ 0) as [_ | Hn]; [reflexivity |].
  exfalso. apply Hn. apply IZR_le in Hdt. lra.
Qed.

Lemma calculateSpeed_positive_interval (p q : LocationPoint) :
  (pt_timestamp p < pt_timestamp q)%Z ->
  calculateSpeed p q =
    calculateDistance (lat p) (lon p) (lat q) (lon q)
    / (IZR (pt_timestamp q - pt_timestamp p) / 1000).
Proof.
  intros Hdt. unfold calculateSpeed.
  destruct (Rle_dec _ 0) as [Hle | _]; [| reflexivity].
  exfalso. assert (0 < IZR (pt_timestamp q - pt_timestamp p)) by (apply IZR_lt; lia).
  lra.
Qed.

Lemma checkTransitions_rejects_iff (prev : LocationPoint)
  (rest : list LocationPoint) (acc limit : R) :
  plausible (checkTransitions prev rest acc limit) = false <->
  exists p q, consecutive p q (prev :: rest) /\ limit < calculateSpeed p q.
Proof.
  revert prev acc.
  induction rest as [| cur rest IH]; intros prev acc; cbn [checkTransitions].
  - cbn [plausible]. split; [discriminate |].
    intros (p & q & Hc & _). apply consecutive_length in Hc. cbn in Hc. lia.
  - unfold num_gt. destruct (num_lt limit (calculateSpeed prev cur)) eqn:E.
    + cbn [plausible]. split; [| reflexivity]. intros _.
      exists prev, cur. split; [constructor | apply num_lt_true_iff; exact E].
    + rewrite IH. apply num_lt_false_iff in E. split.
      * intros (p & q & Hc & Hlt). exists p, q. split; [| exact Hlt].
        constructor. exact Hc.
      * intros (p & q & Hc & Hlt). exists p, q. split; [| exact Hlt].
        inversion Hc; subst; [lra | assumption].
Qed.

Lemma checkMovementPlausibility_rejects_iff (h : list LocationPoint) (limit : R) :
  plausible (checkMovementPlausibility h limit) = false <->
  exists p q, consecutive p q (sortByTimestamp h) /\ limit < calculateSpeed p q.
Proof.
  unfold checkMovementPlausibility.
  destruct (List.length h <? 2)%nat eqn:Elen.
  - cbn [plausible]. split; [discriminate |].
    intros (p & q & Hc & _). apply consecutive_length in Hc.
    rewrite sortByTimestamp_length in Hc. apply Nat.ltb_lt in Elen. lia.
  - destruct (sortByTimestamp h) as [| first rest].
    + cbn [plausible]. split; [discriminate |].
      intros (p & q & Hc & _). apply consecutive_length in Hc. cbn in Hc. lia.
    + apply checkTransitions_rejects_iff.
Qed.

(** C1, as the code has it.  A pair of consecutive samples whose
    timestamps do not increase is given the speed 0 and so passes the
    check: under a ceiling that is not negative, the history is rejected
    exactly when two consecutive samples of the sorted history, the
    second strictly later than the first, are farther apart than the
    ceiling allows for their interval. *)
Theorem C1_zero_interval_speed_is_zero :
  forall (h : list LocationPoint) (limit : R),
    0 <= limit ->
    (forall p q, consecutive p q (sortByTimestamp h) ->
                 (pt_timestamp p <= pt_timestamp q)%Z) /\
    (forall p q, (pt_timestamp q - pt_timestamp p <= 0)%Z ->
                 calculateSpeed p q = 0 /\ num_gt (calculateSpeed p q) limit = false) /\
    (plausible (checkMovementPlausibility h limit) = false <->
     exists p q, consecutive p q (sortByTimestamp h) /\
       (pt_timestamp p < pt_timestamp q)%Z /\
       limit < calculateDistance (lat p) (lon p) (lat q) (lon q)
               / (IZR (pt_timestamp q - pt_timestamp p) / 1000)).
Proof.
  intros h limit Hlimit.
  split.
  { intros p q Hc.
    apply (consecutive_Sorted p q _ (sortByTimestamp_Sorted h) Hc). }
  split.
  { intros p q Hdt. rewrite (calculateSpeed_nonpositive_interval p q Hdt).
    split; [reflexivity |]. apply num_lt_false_iff. exact Hlimit. }
  rewrite checkMovementPlausibility_rejects_iff.
  split; intros (p & q & Hc & Hlt); exists p, q; (split; [exact Hc |]).
  - destruct (Z_lt_le_dec (pt_timestamp p) (pt_timestamp q)) as [Hpos | Hnon].
    + split; [exact Hpos |].
      rewrite <- (calculateSpeed_positive_interval p q Hpos). exact Hlt.
    + rewrite calculateSpeed_nonpositive_interval in Hlt by lia. lra.
  - destruct Hlt as [Hpos Hlt].
    rewrite (calculateSpeed_positive_interval p q Hpos). exact Hlt.
Qed.

Lemma C1_zero_interval_speed_is_zero_witness :
  let h := [mkPoint 0 0 1000; mkPoint 0 180 1000] in
  0 <= 200 /\
  (forall p q, consecutive p q (sortByTimestamp h) ->
               (pt_timestamp p <= pt_timestamp q)%Z) /\
  (forall p q, (pt_timestamp q - pt_timestamp p <= 0)%Z ->
               calculateSpeed p q = 0 /\ num_gt (calculateSpeed p q) 200 = false) /\
  (plausible (checkMovementPlausibility h 200) = false <->
   exists p q, consecutive p q (sortByTimestamp h) /\
     (pt_timestamp p < pt_timestamp q)%Z /\
     200 < calculateDistance (lat p) (lon p) (lat q) (lon q)
           / (IZR (pt_timestamp q - pt_timestamp p) / 1000)).
Proof.
  intros h.
  assert (H200 : 0 <= 200) by lra.
  split; [exact H200 |].
  exact (C1_zero_interval_speed_is_zero h 200 H200).
Defined.

(** Two samples at different places with one timestamp pass the
    plausibility check, and the attestation that carries them is valid. *)
Lemma C1_counterexample :
  let p := mkPoint 0 0 1000 in
  let q := mkPoint 0 180 1000 in
  let h := [p; q] in
  let a := demoAttestation "pk" 1000 (Some h) in
  let config := demoConfig 0 None in
  p <> q /\
  consecutive p q (sortByTimestamp h) /\
  (pt_timestamp q - pt_timestamp p <= 0)%Z /\
  plausible (checkMovementPlausibility h 200) = true /\
  verifyLocationAttestation (H := demoPlatform) 1000 a config = accepted a config.
Proof.
  intros p q h a config.
  assert (Hsort : sortByTimestamp h = h) by reflexivity.
  assert (Hplausible : plausible (checkMovementPlausibility h 200) = true).
  { apply not_false_is_true. intros Hrej.
    apply checkMovementPlausibility_rejects_iff in Hrej.
    destruct Hrej as (p' & q' & Hc & Hlt). rewrite Hsort in Hc.
    assert (Hpq : p' = p /\ q' = q).
    { unfold h in Hc. inversion Hc as [l Hl | z l Hc' Hl].
      - split; reflexivity.
      - apply consecutive_length in Hc'. cbn in Hc'. lia. }
    destruct Hpq as [-> ->].
    rewrite calculateSpeed_nonpositive_interval in Hlt by (cbn; lia). lra. }
  split.
  { intros E. injection E as E. lra. }
  split; [rewrite Hsort; constructor |].
  split; [cbn; lia |].
  split; [exact Hplausible |].
  rewrite (pipeline_late (H := demoPlatform) 1000 a config);
    [ | reflexivity | eval_fresh | reflexivity
      | apply num_le_true_iff; unfold geofenceDistance; cbn;
        rewrite calculateDistance_self; lra ].
  unfold checkStep5, checkStep6.
  cbn [movementHistory a demoAttestation maxSpeedMps config demoConfig nullish
       requireContinuousPresence truthy].
  change (2 <=? List.length h)%nat with true. cbv iota.
  rewrite Hplausible. reflexivity.
Qed.

(* ================================================================== *)
(** * Continuous presence *)
(* ================================================================== *)

Section Presence.
Variables targetLat targetLon radius : R.

Let inside : LocationPoint -> bool := inGeofence targetLat targetLon radius.
Let step := presenceStep targetLat targetLon radius.

Lemma presenceStep_eq (ws wd : Z) (p : LocationPoint) :
  step (ws, wd) p =
  if inside p then
    ((if (ws =? -1)%Z then pt_timestamp p else ws),
     (pt_timestamp p - (if (ws =? -1)%Z then pt_timestamp p else ws))%Z)
  else ((-1)%Z, 0%Z).
Proof. reflexivity. Qed.

Lemma trailingRun_app_last (l : list LocationPoint) (p : LocationPoint) :
  trailingRun inside (l ++ [p]) =
  if inside p then trailingRun inside l ++ [p] else [].
Proof.
  induction l as [| q l IH].
  - cbn [app trailingRun forallb]. rewrite andb_true_r.
    destruct (inside p); reflexivity.
  - cbn [app trailingRun forallb]. rewrite forallb_app, IH. cbn [forallb].
    destruct (inside p).
    + rewrite !andb_true_r.
      destruct (inside q && forallb inside l); reflexivity.
    + rewrite !andb_false_r. reflexivity.
Qed.

Lemma trailingRun_In (x : LocationPoint) (l : list LocationPoint) :
  In x (trailingRun inside l) -> In x l.
Proof.
  induction l as [| q l IH]; cbn [trailingRun]; [tauto |].
  destruct (forallb inside (q :: l)); [tauto |].
  intros Hin. right. apply IH. exact Hin.
Qed.

(** What the loop has in its two locals once it has read [l]: the start
    and the span of the run [l] ends with. *)
Lemma presence_fold_trailingRun (l : list LocationPoint) :
  Forall (fun p => pt_timestamp p <> (-1)%Z) l ->
  fold_left step l ((-1)%Z, 0%Z) =
  (match trailingRun inside l with
   | [] => (-1)%Z
   | q :: _ => pt_timestamp q
   end,
   runSpan (trailingRun inside l)).
Proof.
  induction l as [| p l IH] using rev_ind; intros Hall.
  - reflexivity.
  - apply Forall_app in Hall. destruct Hall as [Hl _].
    rewrite fold_left_app. cbn [fold_left]. rewrite (IH Hl).
    rewrite presenceStep_eq, trailingRun_app_last.
    destruct (inside p); [| reflexivity].
    destruct (trailingRun inside l) as [| q run] eqn:Erun.
    + cbn. f_equal.
    + assert (Hq : pt_timestamp q <> (-1)%Z).
      { rewrite Forall_forall in Hl. apply Hl. apply trailingRun_In.
        rewrite Erun. left. reflexivity. }
      apply Z.eqb_neq in Hq. rewrite Hq.
      change ((q :: run) ++ [p]) with (q :: (run ++ [p])).
      unfold runSpan.
      change (q :: (run ++ [p])) with ((q :: run) ++ [p]).
      rewrite last_last. reflexivity.
Qed.

Lemma verifyContinuousPresence_verified_iff (h : list LocationPoint) (required : R) :
  Forall (fun p => pt_timestamp p <> (-1)%Z) h ->
  (verified (verifyContinuousPresence h targetLat targetLon radius required) = true
   <->
   h <> [] /\
   IZR (runSpan (trailingRun inside (sortByTimestamp h))) / 1000 >= required).
Proof.
  intros Hall.
  assert (Hsorted : Forall (fun p => pt_timestamp p <> (-1)%Z) (sortByTimestamp h)).
  { rewrite Forall_forall in *. intros x Hx. apply Hall.
    apply sortByTimestamp_In. exact Hx. }
  unfold verifyContinuousPresence.
  destruct h as [| p h].
  - cbn. split; [discriminate | intros [Hne _]; congruence].
  - fold step. rewrite (presence_fold_trailingRun _ Hsorted).
    unfold num_ge.
    destruct (num_le required _) eqn:E; cbn [verified].
    + apply num_le_true_iff in E.
      split; [| reflexivity]. intros _. split; [discriminate | lra].
    + apply num_le_false_iff in E.
      split; [discriminate |]. intros [_ Hge]. lra.
Qed.

End Presence.

(** C2, as the code has it.  For a history without the timestamp -1,
    the continuous-presence check accepts exactly when the history is
    not empty and the run of samples inside the geofence that the
    sorted history ends with spans at least the required duration
    (the span of an empty run being 0); a sample outside the geofence
    resets the run. *)
Theorem C2_presence_is_trailing_run :
  forall (h : list LocationPoint) (targetLat targetLon radius required : R),
    Forall (fun p => pt_timestamp p <> (-1)%Z) h ->
    let sorted := sortByTimestamp h in
    let run := trailingRun (inGeofence targetLat targetLon radius) sorted in
    (verified (verifyContinuousPresence h targetLat targetLon radius required) = true
     <-> h <> [] /\ IZR (runSpan run) / 1000 >= required).
Proof.
  intros h targetLat targetLon radius required Hall sorted run.
  apply verifyContinuousPresence_verified_iff. exact Hall.
Qed.

Lemma inGeofence_self (la lo r : R) (t : Z) :
  0 <= r -> inGeofence la lo r (mkPoint la lo t) = true.
Proof.
  intros Hr. unfold inGeofence, isWithinGeofence. cbn [fst lat lon mkPoint].
  apply num_le_true_iff. rewrite calculateDistance_self. exact Hr.
Qed.

Lemma inGeofence_antipode (t : Z) :
  inGeofence 0 180 100 (mkPoint 0 0 t) = false.
Proof.
  unfold inGeofence, isWithinGeofence. cbn [fst lat lon mkPoint].
  apply num_le_false_iff. apply antipode_is_far.
Qed.

Lemma C2_presence_is_trailing_run_witness :
  let h := [mkPoint 0 0 0; mkPoint 0 0 60000] in
  let run := trailingRun (inGeofence 0 0 100) (sortByTimestamp h) in
  Forall (fun p => pt_timestamp p <> (-1)%Z) h /\
  (verified (verifyContinuousPresence h 0 0 100 30) = true
   <-> h <> [] /\ IZR (runSpan run) / 1000 >= 30).
Proof.
  intros h run.
  assert (Hall : Forall (fun p => pt_timestamp p <> (-1)%Z) h)
    by (repeat constructor; cbn; lia).
  split; [exact Hall |].
  exact (C2_presence_is_trailing_run h 0 0 100 30 Hall).
Defined.

(** Two samples at the target, one minute apart, then one at the
    antipode: the longest run inside the geofence lasts 60 s, which the
    specification accepts against a minimum of 30 s; the code rejects. *)
Lemma C2_counterexample :
  let h := [mkPoint 0 180 0; mkPoint 0 180 60000; mkPoint 0 0 70000] in
  sortByTimestamp h = h /\
  longestRunSpan (inGeofence 0 180 100) (sortByTimestamp h) = 60000%Z /\
  spec_presenceAccepts (sortByTimestamp h) 0 180 100 30 = true /\
  verified (verifyContinuousPresence h 0 180 100 30) = false.
Proof.
  intros h.
  assert (Hsort : sortByTimestamp h = h) by reflexivity.
  assert (Hin : forall t, inGeofence 0 180 100 (mkPoint 0 180 t) = true)
    by (intros t; apply inGeofence_self; lra).
  assert (Hlongest : longestRunSpan (inGeofence 0 180 100) h = 60000%Z).
  { unfold longestRunSpan, h.
    repeat first [ rewrite Hin | rewrite inGeofence_antipode
                 | progress cbn [splitRuns] ].
    reflexivity. }
  rewrite Hsort.
  split; [reflexivity |].
  split; [exact Hlongest |].
  split.
  { unfold spec_presenceAccepts, num_ge. rewrite Hlongest.
    apply num_le_true_iff. lra. }
  apply not_true_is_false. intros Hv.
  apply verifyContinuousPresence_verified_iff in Hv;
    [| repeat constructor; cbn; lia].
  destruct Hv as [_ Hge]. rewrite Hsort in Hge. unfold h in Hge.
  repeat first [ rewrite Hin in Hge | rewrite inGeofence_antipode in Hge
               | progress cbn [trailingRun forallb andb] in Hge ].
  cbn [runSpan] in Hge. lra.
Qed.

(* ================================================================== *)
(** * Byte arrays *)
(* ================================================================== *)

Local Open Scope Z_scope.

Lemma u8_set_app (pre mid post src : bytes) :
  List.length mid = List.length src ->
  u8_set (pre ++ mid ++ post) src (List.length pre) = pre ++ src ++ post.
Proof.
  intros Hlen. unfold u8_set.
  rewrite firstn_app, firstn_all, Nat.sub_diag. cbn [firstn].
  rewrite app_nil_r. f_equal. f_equal.
  rewrite skipn_app, (skipn_all2 pre) by lia. cbn [app].
  replace (List.length pre + List.length src - List.length pre)%nat
    with (List.length mid) by lia.
  rewrite skipn_app, skipn_all, Nat.sub_diag. reflexivity.
Qed.

Lemma u8_put_app (pre post : bytes) (x : byte) (v : Z) :
  u8_put (pre ++ x :: post) (List.length pre) v = pre ++ byte_of_Z v :: post.
Proof.
  unfold u8_put.
  rewrite firstn_app, firstn_all, Nat.sub_diag. cbn [firstn].
  rewrite app_nil_r. f_equal. f_equal.
  rewrite skipn_app, (skipn_all2 pre) by lia. cbn [app].
  replace (S (List.length pre) - List.length pre)%nat with 1%nat by lia.
  reflexivity.
Qed.

(** The two stores of the browser code that copy [a] and then [b] into
    a fresh array of their joint length build [a ++ b]. *)
Lemma u8_concat (a b : bytes) :
  u8_set (u8_set (u8_new (List.length a + List.length b)) a 0) b (List.length a)
  = a ++ b.
Proof.
  unfold u8_new. rewrite repeat_app.
  pose proof (u8_set_app [] (repeat x00 (List.length a))
                (repeat x00 (List.length b)) a) as H1.
  cbn [app List.length] in H1. rewrite H1 by apply repeat_length.
  pose proof (u8_set_app a (repeat x00 (List.length b)) [] b) as H2.
  rewrite !app_nil_r in H2. apply H2. apply repeat_length.
Qed.

(** The input of a block, as the browser code assembles it. *)
Lemma u8_block_input (t info : bytes) (i : Z) :
  u8_put (u8_set (u8_set (u8_new (List.length t + List.length info + 1)) t 0)
                 info (List.length t))
         (List.length t + List.length info) i
  = t ++ info ++ [byte_of_Z i].
Proof.
  unfold u8_new. rewrite <- Nat.add_assoc, !repeat_app.
  pose proof (u8_set_app [] (repeat x00 (List.length t))
                (repeat x00 (List.length info) ++ repeat x00 1) t) as H1.
  cbn [app List.length] in H1. rewrite H1 by apply repeat_length.
  rewrite (u8_set_app t (repeat x00 (List.length info)) (repeat x00 1) info)
    by apply repeat_length.
  cbn [repeat]. rewrite app_assoc, <- length_app.
  rewrite u8_put_app, <- app_assoc. reflexivity.
Qed.

Lemma js_slice_prefix {A : Type} (l : list A) (len : Z) :
  0 <= len -> js_slice l 0 len = firstn (Z.to_nat len) l.
Proof.
  intros Hlen. unfold js_slice.
  replace (0 <? 0) with false by reflexivity.
  replace (len <? 0) with false by (symmetry; apply Z.ltb_ge; exact Hlen).
  rewrite (Z.min_l 0) by lia. cbn [Z.to_nat skipn]. rewrite Z.sub_0_r.
  destruct (Z_le_gt_dec len (Z.of_nat (List.length l))) as [Hle | Hgt].
  - rewrite Z.min_l by lia. reflexivity.
  - rewrite Z.min_r by lia. rewrite Nat2Z.id.
    rewrite firstn_all. symmetry. apply firstn_all2. lia.
Qed.

(** Cutting the last 16 bytes off and putting them back. *)
Lemma js_slice_tail_split {A : Type} (l : list A) :
  js_slice l 0 (-16) ++ js_slice_from l (-16) = l.
Proof.
  unfold js_slice_from, js_slice.
  replace (0 <? 0) with false by reflexivity.
  replace (-16 <? 0) with true by reflexivity.
  replace (Z.of_nat (List.length l) <? 0) with false
    by (symmetry; apply Z.ltb_ge; lia).
  rewrite (Z.min_l 0) by lia. cbn [Z.to_nat skipn]. rewrite Z.sub_0_r, Z.min_id.
  set (m := Z.to_nat (Z.max (Z.of_nat (List.length l) + -16) 0)).
  rewrite (firstn_all2 (skipn m l)); [apply firstn_skipn |].
  rewrite length_skipn. lia.
Qed.

Lemma js_slice_tag {A : Type} (ct tag : list A) :
  List.length tag = 16%nat ->
  js_slice (ct ++ tag) 0 (-16) = ct /\ js_slice_from (ct ++ tag) (-16) = tag.
Proof.
  intros Htag. unfold js_slice_from, js_slice.
  replace (0 <? 0) with false by reflexivity.
  replace (-16 <? 0) with true by reflexivity.
  replace (Z.of_nat (List.length (ct ++ tag)) <? 0) with false
    by (symmetry; apply Z.ltb_ge; lia).
  rewrite (Z.min_l 0) by lia. cbn [Z.to_nat skipn]. rewrite Z.sub_0_r, Z.min_id.
  rewrite length_app, Htag.
  replace (Z.to_nat (Z.max (Z.of_nat (List.length ct + 16) + -16) 0))
    with (List.length ct) by lia.
  split.
  - rewrite firstn_app, firstn_all, Nat.sub_diag. cbn [firstn]. apply app_nil_r.
  - rewrite skipn_app, skipn_all, Nat.sub_diag. cbn [skipn app].
    apply firstn_all2. lia.
Qed.

Lemma ceil_div_32_large (len : Z) : ceil_div len 32 > 255 <-> len > 255 * 32.
Proof. unfold ceil_div. Z.div_mod_to_equations. lia. Qed.

Lemma ceil_div_32_covers (len : Z) : len <= 32 * ceil_div len 32.
Proof. unfold ceil_div. Z.div_mod_to_equations. lia. Qed.

Lemma ceil_div_32_nonneg (len : Z) : 0 <= len -> 0 <= ceil_div len 32.
Proof. unfold ceil_div. Z.div_mod_to_equations. lia. Qed.

(* ================================================================== *)
(** * HKDF *)
(* ================================================================== *)

Section HkdfFacts.
Context `{Platform}.
Variables prk info : bytes.

(** The three [update] calls of the Node code feed the digest the same
    input the browser code assembles. *)
Lemma backend_block (t : bytes) (i : Z) :
  Backend.digest
    (Backend.update
       (Backend.update (Backend.update (Backend.createHmac prk) t) info)
       [byte_of_Z i])
  = HMAC_SHA256 prk (t ++ info ++ [byte_of_Z i]).
Proof.
  unfold Backend.digest, Backend.update, Backend.createHmac.
  cbn [Backend.hmac_key Backend.hmac_data app].
  rewrite <- app_assoc. reflexivity.
Qed.

Lemma expandLoop_agree (count : nat) (i : Z) (t okm : bytes) :
  Browser.expandLoop prk info count i t okm
  = Backend.expandLoop prk info count i t okm.
Proof.
  revert i t okm. induction count as [| count IH]; intros i t okm.
  - reflexivity.
  - cbn [Browser.expandLoop Backend.expandLoop].
    rewrite u8_block_input, u8_concat, backend_block. unfold Browser.hmac.
    apply IH.
Qed.

Lemma hkdfExpand_agree (len : Z) :
  Browser.hkdfExpand prk info len = Backend.hkdfExpand prk info len.
Proof.
  unfold Browser.hkdfExpand, Backend.hkdfExpand.
  destruct (ceil_div len 32 >? 255); [reflexivity |].
  rewrite expandLoop_agree. reflexivity.
Qed.

Lemma hkdf_blocks_S (k : nat) :
  hkdf_blocks prk info (S k)
  = hkdf_blocks prk info k ++ hkdf_T prk info (S k).
Proof.
  unfold hkdf_blocks. rewrite seq_S, map_app, concat_app.
  cbn [map List.concat Nat.add]. rewrite app_nil_r. reflexivity.
Qed.

(** The loop, entered with the block and the output of [k] rounds,
    leaves the output of [k + count] rounds. *)
Lemma expandLoop_blocks (count k : nat) :
  Backend.expandLoop prk info count (Z.of_nat (S k))
    (hkdf_T prk info k) (hkdf_blocks prk info k)
  = hkdf_blocks prk info (k + count).
Proof.
  revert k. induction count as [| count IH]; intros k.
  - rewrite Nat.add_0_r. reflexivity.
  - cbn [Backend.expandLoop]. rewrite backend_block.
    change (HMAC_SHA256 prk
              (hkdf_T prk info k ++ info ++ [byte_of_Z (Z.of_nat (S k))]))
      with (hkdf_T prk info (S k)).
    rewrite <- hkdf_blocks_S.
    replace (Z.of_nat (S k) + 1) with (Z.of_nat (S (S k))) by lia.
    rewrite IH. f_equal. lia.
Qed.

Lemma hkdfExpand_blocks (len : Z) :
  len <= 255 * 32 ->
  Backend.hkdfExpand prk info len
  = Some (js_slice (hkdf_blocks prk info (Z.to_nat (ceil_div len 32))) 0 len).
Proof.
  intros Hlen. unfold Backend.hkdfExpand.
  destruct (ceil_div len 32 >? 255) eqn:E.
  - apply Z.gtb_lt in E. pose proof (ceil_div_32_large len). lia.
  - pose proof (expandLoop_blocks (Z.to_nat (ceil_div len 32)) 0) as Hloop.
    cbn [Z.of_nat Pos.of_succ_nat hkdf_T Nat.add] in Hloop.
    change (hkdf_blocks prk info 0) with (@nil byte) in Hloop.
    rewrite Hloop. reflexivity.
Qed.

Hypothesis HMAC_length : forall k m, List.length (HMAC_SHA256 k m) = 32%nat.

Lemma hkdf_blocks_length (n : nat) :
  List.length (hkdf_blocks prk info n) = (32 * n)%nat.
Proof.
  induction n as [| n IH]; [reflexivity |].
  rewrite hkdf_blocks_S, length_app, IH. cbn [hkdf_T].
  rewrite HMAC_length. lia.
Qed.

Lemma hkdfExpand_output (len : Z) :
  0 <= len <= 255 * 32 ->
  exists okm,
    Backend.hkdfExpand prk info len = Some okm /\
    okm = firstn (Z.to_nat len)
            (hkdf_blocks prk info (Z.to_nat (ceil_div len 32))) /\
    List.length okm = Z.to_nat len.
Proof.
  intros [H0 Hmax]. eexists. split; [apply hkdfExpand_blocks; exact Hmax |].
  rewrite js_slice_prefix by exact H0. split; [reflexivity |].
  rewrite length_firstn, hkdf_blocks_length.
  pose proof (ceil_div_32_covers len). pose proof (ceil_div_32_nonneg len H0).
  lia.
Qed.

End HkdfFacts.

(** C9.  HKDF-Expand computes the blocks
    T(i) = HMAC-SHA256(PRK, T(i-1) || info || byte(i)) from an empty
    T(0), concatenates them and keeps the first [len] bytes, so that
    the output has exactly the requested length; it raises an error
    exactly when the requested length exceeds 255 * 32 bytes.  The
    Node and the browser implementations agree. *)
Theorem C9_hkdf_expand :
  forall (P : Platform) (prk info : bytes) (len : Z),
    (forall k m, List.length (HMAC_SHA256 k m) = 32%nat) ->
    (Backend.hkdfExpand prk info len = None <-> len > 255 * 32) /\
    Browser.hkdfExpand prk info len = Backend.hkdfExpand prk info len /\
    (0 <= len <= 255 * 32 ->
     exists okm,
       Backend.hkdfExpand prk info len = Some okm /\
       okm = firstn (Z.to_nat len)
               (hkdf_blocks prk info (Z.to_nat (ceil_div len 32))) /\
       List.length okm = Z.to_nat len) /\
    hkdf_T prk info 0 = [] /\
    (forall i, hkdf_T prk info (S i)
               = HMAC_SHA256 prk (hkdf_T prk info i ++ info
                                  ++ [byte_of_Z (Z.of_nat (S i))])) /\
    (forall n, hkdf_blocks prk info (S n)
               = hkdf_blocks prk info n ++ hkdf_T prk info (S n)).
Proof.
  intros P prk info len Hhmac.
  split.
  { unfold Backend.hkdfExpand.
    destruct (ceil_div len 32 >? 255) eqn:E.
    - apply Z.gtb_lt in E. pose proof (ceil_div_32_large len).
      split; [lia | reflexivity].
    - split; [discriminate |]. intros Hlarge.
      apply ceil_div_32_large in Hlarge.
      apply Z.gt_lt, Z.gtb_lt in Hlarge. congruence. }
  split; [apply hkdfExpand_agree |].
  split; [apply hkdfExpand_output; exact Hhmac |].
  split; [reflexivity |].
  split; [reflexivity |].
  apply hkdf_blocks_S.
Qed.

Lemma demo_HMAC_length :
  forall k m : bytes,
    List.length (HMAC_SHA256 (Platform := demoPlatform) k m) = 32%nat.
Proof.
  intros k m. cbn [HMAC_SHA256 demoPlatform].
  rewrite length_firstn, !length_app, repeat_length. lia.
Qed.

Lemma C9_hkdf_expand_witness :
  let prk := [x01; x02] in
  let info := [x03] in
  (Backend.hkdfExpand (H := demoPlatform) prk info 40 = None <-> 40 > 255 * 32) /\
  Browser.hkdfExpand (H := demoPlatform) prk info 40
    = Backend.hkdfExpand (H := demoPlatform) prk info 40 /\
  (0 <= 40 <= 255 * 32 ->
   exists okm,
     Backend.hkdfExpand (H := demoPlatform) prk info 40 = Some okm /\
     okm = firstn (Z.to_nat 40)
             (hkdf_blocks (H := demoPlatform) prk info (Z.to_nat (ceil_div 40 32))) /\
     List.length okm = Z.to_nat 40) /\
  hkdf_T (H := demoPlatform) prk info 0 = [] /\
  (forall i, hkdf_T (H := demoPlatform) prk info (S i)
             = HMAC_SHA256 (Platform := demoPlatform) prk
                 (hkdf_T (H := demoPlatform) prk info i ++ info
                  ++ [byte_of_Z (Z.of_nat (S i))])) /\
  (forall n, hkdf_blocks (H := demoPlatform) prk info (S n)
             = hkdf_blocks (H := demoPlatform) prk info n
               ++ hkdf_T (H := demoPlatform) prk info (S n)).
Proof.
  intros prk info.
  exact (C9_hkdf_expand demoPlatform prk info 40 demo_HMAC_length).
Defined.

(* ================================================================== *)
(** * Location-bound key derivation *)
(* ================================================================== *)

Section DeriveFacts.
Context `{Platform}.

(** The [info] of the derivation and the key it yields, written out. *)
Let locationInfo (b : LocationBinding) : string :=
  JSON_stringify
    [ ("lat"%string, JSString (toFixed (lb_latitude b) 6));
      ("lon"%string, JSString (toFixed (lb_longitude b) 6));
      ("radius"%string, JSNumber (lb_radiusMeters b));
      ("start"%string, JSNumber (IZR (lb_windowStart b)));
      ("end"%string, JSNumber (IZR (lb_windowEnd b)));
      ("nonce"%string, JSString (lb_nonce b)) ].

Lemma deriveKey_agree (sharedSecret : string) (b : LocationBinding) :
  deriveKey_browser sharedSecret b = deriveKey_backend sharedSecret b.
Proof.
  unfold deriveKey_browser, deriveKey_backend,
    Browser.deriveLocationBoundKey, Backend.deriveLocationBoundKey,
    Browser.hkdf, Backend.hkdf.
  rewrite hkdfExpand_agree. reflexivity.
Qed.

Lemma deriveKey_backend_value (sharedSecret : string) (b : LocationBinding) :
  (forall k m, List.length (HMAC_SHA256 k m) = 32%nat) ->
  deriveKey_backend sharedSecret b =
  Some (HMAC_SHA256
          (HMAC_SHA256 (list_byte_of_string "LocationBoundMessaging-v1")
                       (decodeBase64 sharedSecret))
          (list_byte_of_string (locationInfo b) ++ [x01])).
Proof.
  intros Hlen.
  unfold deriveKey_backend, Backend.deriveLocationBoundKey, Backend.hkdf.
  rewrite hkdfExpand_blocks by lia.
  rewrite js_slice_prefix by lia.
  change (Z.to_nat (ceil_div 32 32)) with 1%nat.
  unfold hkdf_blocks. cbn [seq map List.concat hkdf_T app].
  rewrite app_nil_r.
  rewrite firstn_all2 by (rewrite Hlen; cbn; lia).
  reflexivity.
Qed.

End DeriveFacts.

(* ================================================================== *)
(** * Sealing and unsealing *)
(* ================================================================== *)

Section SealingFacts.
Context `{Platform}.

Lemma browser_derive_returns (sharedSecret : string) (b : LocationBinding) :
  exists key, deriveKey_browser sharedSecret b = Some key.
Proof.
  unfold deriveKey_browser, Browser.deriveLocationBoundKey, Browser.hkdf,
    Browser.hkdfExpand.
  change (ceil_div 32 32 >? 255) with false. cbv iota.
  eexists. reflexivity.
Qed.

(** The object [wrapKey] returns holds the wrapped key under the name
    [ciphertext]; it has no property [wrappedKey]. *)
Lemma wrapKey_properties (keyToWrap wrappingKey : bytes) (g : RNG) :
  get_prop (fst (Browser.wrapKey keyToWrap wrappingKey g)) "wrappedKey" = None /\
  get_prop (fst (Backend.wrapKey keyToWrap wrappingKey g)) "wrappedKey" = None /\
  get_prop (fst (Browser.wrapKey keyToWrap wrappingKey g)) "ciphertext" <> None /\
  get_prop (fst (Backend.wrapKey keyToWrap wrappingKey g)) "ciphertext" <> None.
Proof.
  unfold Browser.wrapKey, Backend.wrapKey, Browser.aesGcmEncrypt,
    Backend.aesGcmEncrypt.
  destruct (randomBytes 12 g) as [nonce g'].
  destruct (AES_GCM_encrypt wrappingKey nonce _) as [ct tag].
  cbn. repeat split; discriminate.
Qed.

Hypothesis base64_roundtrip : forall b : bytes, decodeBase64 (encodeBase64 b) = b.
Hypothesis AES_GCM_roundtrip :
  forall key iv pt : bytes,
    AES_GCM_decrypt key iv (fst (AES_GCM_encrypt key iv pt))
                    (snd (AES_GCM_encrypt key iv pt)) = Some pt.
Hypothesis AES_GCM_tag_length :
  forall key iv pt : bytes,
    List.length (snd (AES_GCM_encrypt key iv pt)) = 16%nat.

(** Decryption undoes encryption when it is handed the three
    properties of the object encryption returned. *)
Lemma backend_aesGcm_roundtrip (plaintext : string) (key : bytes) (g : RNG) :
  exists c n t,
    fst (Backend.aesGcmEncrypt plaintext key g)
      = [("ciphertext"%string, c); ("nonce"%string, n); ("authTag"%string, t)] /\
    Backend.aesGcmDecrypt c key n t = Some plaintext.
Proof.
  unfold Backend.aesGcmEncrypt, Backend.aesGcmDecrypt.
  destruct (randomBytes 12 g) as [nonce g'].
  pose proof (AES_GCM_roundtrip key nonce (list_byte_of_string plaintext)) as Hrt.
  destruct (AES_GCM_encrypt key nonce _) as [ct tag]. cbn [fst snd] in *.
  do 3 eexists. split; [reflexivity |].
  rewrite !base64_roundtrip, Hrt, string_of_list_byte_of_string. reflexivity.
Qed.

Lemma browser_aesGcm_roundtrip (plaintext : string) (key : bytes) (g : RNG) :
  exists c n t,
    fst (Browser.aesGcmEncrypt plaintext key g)
      = [("ciphertext"%string, c); ("nonce"%string, n); ("authTag"%string, t)] /\
    Browser.aesGcmDecrypt c key n t = Some plaintext.
Proof.
  unfold Browser.aesGcmEncrypt, Browser.aesGcmDecrypt,
    Browser.subtle_encrypt, Browser.subtle_decrypt.
  destruct (randomBytes 12 g) as [nonce g'].
  pose proof (AES_GCM_roundtrip key nonce (list_byte_of_string plaintext)) as Hrt.
  pose proof (AES_GCM_tag_length key nonce (list_byte_of_string plaintext)) as Htag.
  destruct (AES_GCM_encrypt key nonce _) as [ct tag]. cbn [fst snd] in *.
  do 3 eexists. split; [reflexivity |].
  rewrite !base64_roundtrip, u8_concat, js_slice_tail_split.
  destruct (js_slice_tag ct tag Htag) as [-> ->].
  rewrite Hrt, string_of_list_byte_of_string. reflexivity.
Qed.

(** Unwrapping recovers the key when it is handed the property
    [ciphertext] of the object [wrapKey] returned. *)
Lemma wrapKey_roundtrip_through_ciphertext (keyToWrap wrappingKey : bytes) (g : RNG) :
  (exists c n t,
     fst (Browser.wrapKey keyToWrap wrappingKey g)
       = [("ciphertext"%string, c); ("nonce"%string, n); ("authTag"%string, t)] /\
     Browser.unwrapKey c wrappingKey n t = Some keyToWrap) /\
  (exists c n t,
     fst (Backend.wrapKey keyToWrap wrappingKey g)
       = [("ciphertext"%string, c); ("nonce"%string, n); ("authTag"%string, t)] /\
     Backend.unwrapKey c wrappingKey n t = Some keyToWrap).
Proof.
  split.
  - destruct (browser_aesGcm_roundtrip (encodeBase64 keyToWrap) wrappingKey g)
      as (c & n & t & Hobj & Hdec).
    exists c, n, t. split; [exact Hobj |].
    unfold Browser.unwrapKey. rewrite Hdec, base64_roundtrip. reflexivity.
  - destruct (backend_aesGcm_roundtrip (encodeBase64 keyToWrap) wrappingKey g)
      as (c & n & t & Hobj & Hdec).
    exists c, n, t. split; [exact Hobj |].
    unfold Backend.unwrapKey. rewrite Hdec, base64_roundtrip. reflexivity.
Qed.

End SealingFacts.

(** C8, on the code.  Whatever the plaintext, the shared secret and the
    binding, sealing succeeds but stores no wrapped key: the client
    reads the property [wrappedKey] of an object that holds the wrapped
    key under [ciphertext].  The server refuses such a message, and
    unsealing it fails instead of returning the plaintext. *)
Theorem C8_sealed_message_has_no_wrapped_key :
  forall (P : Platform) (message sharedSecret : string) (b : LocationBinding)
         (g : RNG),
    exists stored g',
      sealMessage message sharedSecret b g = Some (stored, g') /\
      wrappedKey stored = None /\
      serverAcceptsMessage stored = false /\
      unsealMessage stored sharedSecret = None /\
      unsealMessage stored sharedSecret <> Some message.
Proof.
  intros P message sharedSecret b g.
  destruct (browser_derive_returns sharedSecret b) as [key Hkey].
  unfold deriveKey_browser in Hkey.
  unfold sealMessage, Browser.generateAesKey.
  destruct (randomBytes 32 g) as [messageKey g1].
  destruct (Browser.aesGcmEncrypt message messageKey g1) as [enc g2].
  rewrite Hkey.
  pose proof (wrapKey_properties messageKey key g2) as [Hnone _].
  destruct (Browser.wrapKey messageKey key g2) as [wrapped g3].
  cbn [fst] in Hnone.
  eexists. eexists. split; [reflexivity |].
  split; [exact Hnone |].
  split.
  { unfold serverAcceptsMessage. cbn [wrappedKey]. rewrite Hnone.
    cbn [falsy]. rewrite orb_true_r. reflexivity. }
  assert (Hfail : forall m, wrappedKey m = None -> locationBinding m = b ->
                            unsealMessage m sharedSecret = None).
  { intros m Hw Hb. unfold unsealMessage. rewrite Hb, Hkey, Hw. reflexivity. }
  split.
  - apply Hfail; [exact Hnone | reflexivity].
  - rewrite Hfail; [discriminate | exact Hnone | reflexivity].
Qed.

(* ================================================================== *)
(** * The theorems on concrete attestations *)
(* ================================================================== *)

Local Open Scope R_scope.

(** A point at exactly the radius is inside; the same point is outside
    a radius of 100 m. *)
Lemma C4_geofence_haversine_boundary_witness :
  calculateDistance 0 0 0 180 = 6371000 * PI /\
  fst (isWithinGeofence 0 0 0 180 (6371000 * PI)) = true /\
  fst (isWithinGeofence 0 0 0 180 100) = false.
Proof.
  split; [apply calculateDistance_antipode |].
  split.
  - pose proof (C4_geofence_haversine_boundary 0 0 0 180 (6371000 * PI)) as Hgeo.
    cbv zeta in Hgeo. destruct Hgeo as (_ & _ & _ & _ & Hat & _).
    apply Hat. apply calculateDistance_antipode.
  - pose proof (C4_geofence_haversine_boundary 0 0 0 180 100) as Hgeo.
    cbv zeta in Hgeo. destruct Hgeo as (_ & _ & _ & _ & _ & Hbeyond).
    apply Hbeyond. apply antipode_is_far.
Defined.

(** An attestation stamped one second after the clock of the verifier. *)
Lemma C5_freshness_check_witness :
  let a := demoAttestation "pk" 2000 None in
  let config := demoConfig 0 None in
  verifyLocationAttestation (H := demoPlatform) 1000 a config
    = rejectedAt2 a config.
Proof.
  intros a config.
  pose proof (C5_freshness_check demoPlatform 1000 a config) as Hfresh.
  cbv zeta in Hfresh. destruct Hfresh as (_ & _ & _ & _ & Hfuture & _).
  apply Hfuture; [reflexivity | cbn; lia].
Defined.

(** On the small platform the hypotheses of the round trip hold, and a
    key wrapped and read back from [ciphertext] is recovered. *)
Lemma demo_wrapKey_roundtrip :
  exists c n t,
    fst (Browser.wrapKey (H := demoPlatform) [x0a; x0b] [x01] 0%nat)
      = [("ciphertext"%string, c); ("nonce"%string, n); ("authTag"%string, t)] /\
    Browser.unwrapKey (H := demoPlatform) c [x01] n t = Some [x0a; x0b].
Proof.
  refine (proj1 (wrapKey_roundtrip_through_ciphertext (H := demoPlatform)
                   _ _ _ [x0a; x0b] [x01] 0%nat)).
  - intros b. apply list_byte_of_string_of_list_byte.
  - intros key iv pt. cbn [AES_GCM_decrypt AES_GCM_encrypt demoPlatform fst snd].
    unfold bytes_eqb. rewrite String.eqb_refl. reflexivity.
  - intros key iv pt. cbn [AES_GCM_encrypt demoPlatform snd].
    rewrite length_firstn, !length_app, repeat_length. lia.
Qed.

(* ================================================================== *)
(** * More on distances and the geofence *)
(* ================================================================== *)

Lemma atan_nonneg (x : R) : 0 <= x -> 0 <= atan x.
Proof.
  intros [Hpos | <-].
  - left. rewrite <- atan_0. apply atan_increasing. exact Hpos.
  - rewrite atan_0. lra.
Qed.

Lemma asin_nonneg (x : R) : 0 <= x -> 0 <= asin x.
Proof.
  intros Hx. unfold asin.
  destruct (Rle_dec x (-1)); [lra |].
  destruct (Rle_dec 1 x); [pose proof PI_RGT_0; lra |].
  apply atan_nonneg.
  assert (0 < sqrt (1 - x²)) by (apply sqrt_lt_R0; unfold Rsqr; nra).
  apply Rmult_le_pos; [exact Hx |]. left. apply Rinv_0_lt_compat. assumption.
Qed.

Lemma calculateDistance_range (lat1 lon1 lat2 lon2 : R) :
  0 <= calculateDistance lat1 lon1 lat2 lon2 <= 6371000 * PI.
Proof.
  unfold calculateDistance. rewrite atan2_sqrt_asin.
  match goal with |- context [asin ?x] =>
    pose proof (asin_nonneg x (sqrt_pos _)) as Hlow;
    pose proof (asin_bound x) as [_ Hhigh]
  end.
  split; nra.
Qed.

Lemma calculateDistance_sym (lat1 lon1 lat2 lon2 : R) :
  calculateDistance lat1 lon1 lat2 lon2 = calculateDistance lat2 lon2 lat1 lon1.
Proof.
  unfold calculateDistance.
  replace ((lat1 - lat2) * PI / 180 / 2) with (- ((lat2 - lat1) * PI / 180 / 2))
    by lra.
  replace ((lon1 - lon2) * PI / 180 / 2) with (- ((lon2 - lon1) * PI / 180 / 2))
    by lra.
  rewrite !sin_neg.
  match goal with
  | |- _ * (2 * atan2 (sqrt ?x) (sqrt (1 - ?x))) =
       _ * (2 * atan2 (sqrt ?y) (sqrt (1 - ?y))) =>
      replace y with x by ring
  end.
  reflexivity.
Qed.

(** X1.  The distance between two points is never negative and never
    more than half the circumference of the sphere, 6 371 000 * PI
    metres, whatever the coordinates. *)
Theorem X1_distance_range :
  forall lat1 lon1 lat2 lon2 : R,
    0 <= calculateDistance lat1 lon1 lat2 lon2 <= 6371000 * PI.
Proof. exact calculateDistance_range. Qed.

(** X2.  The distance is symmetric in its two points, and it is zero
    from a point to itself. *)
Theorem X2_distance_symmetric :
  forall lat1 lon1 lat2 lon2 : R,
    calculateDistance lat1 lon1 lat2 lon2 = calculateDistance lat2 lon2 lat1 lon1 /\
    calculateDistance lat1 lon1 lat1 lon1 = 0.
Proof.
  intros. split; [apply calculateDistance_sym | apply calculateDistance_self].
Qed.

(** X3.  A geofence of negative radius contains no point, and a point
    inside a geofence is inside every larger one around the same
    target. *)
Theorem X3_geofence_radius :
  forall currentLat currentLon targetLat targetLon r : R,
    let within r :=
      fst (isWithinGeofence currentLat currentLon targetLat targetLon r) in
    (r < 0 -> within r = false) /\
    (forall r', r <= r' -> within r = true -> within r' = true).
Proof.
  intros currentLat currentLon targetLat targetLon r within. subst within.
  unfold isWithinGeofence. cbn [fst].
  pose proof (calculateDistance_range currentLat currentLon targetLat targetLon)
    as [Hlow Hhigh].
  split; [intros Hr; apply num_le_false_iff; lra |].
  intros r' Hle Hin. apply num_le_true_iff in Hin. apply num_le_true_iff. lra.
Qed.

(* ================================================================== *)
(** * The pipeline as a whole *)
(* ================================================================== *)

Section PipelineWhole.
Context `{Platform}.
Variable now : Z.
Variable a : LocationAttestation.
Variable config : VerificationConfig.

Let d : R := geofenceDistance a config.

Lemma checkStep5_none_iff :
  checkStep5 a config d = None <->
  (forall h, movementHistory a = Some h -> (2 <= List.length h)%nat ->
     plausible (checkMovementPlausibility h (nullish (maxSpeedMps config) 200))
     = true).
Proof.
  unfold checkStep5.
  destruct (movementHistory a) as [h |]; [| split; [discriminate | reflexivity]].
  destruct (2 <=? List.length h)%nat eqn:Elen.
  - apply Nat.leb_le in Elen.
    destruct (plausible (checkMovementPlausibility h _)) eqn:Ep; cbn [negb].
    + split; [| reflexivity]. intros _ h' Hh' _. injection Hh' as <-. exact Ep.
    + split; [discriminate |]. intros Hall.
      specialize (Hall h eq_refl Elen). congruence.
  - apply Nat.leb_gt in Elen. split; [| reflexivity].
    intros _ h' Hh' Hlen. injection Hh' as <-. lia.
Qed.

Lemma checkStep6_none_iff :
  checkStep6 a config d = None <->
  (requireContinuousPresence config = Some true ->
   forall h, movementHistory a = Some h ->
     verified (verifyContinuousPresence h (targetLat config) (targetLon config)
                 (radiusMeters config)
                 (nullish (continuousPresenceDurationSec config) 30)) = true).
Proof.
  unfold checkStep6.
  destruct (requireContinuousPresence config) as [[|] |]; cbn [truthy];
    try (split; [intros _ Hreq; discriminate | reflexivity]).
  destruct (movementHistory a) as [h |];
    [| split; [intros _ _ h' Hh'; discriminate | reflexivity]].
  destruct (verified (verifyContinuousPresence h _ _ _ _)) eqn:Ev; cbn [negb].
  - split; [| reflexivity]. intros _ _ h' Hh'. injection Hh' as <-. exact Ev.
  - split; [discriminate |]. intros Hall.
    specialize (Hall eq_refl h eq_refl). congruence.
Qed.

Lemma pipeline_valid_iff :
  valid (verifyLocationAttestation now a config) = true <->
  verifyAttestationSignature a = true /\
  isAttestationFresh now (timestamp a)
    (nullish (maxAttestationAgeSec config) 300) = true /\
  isWithinTimeWindow (timestamp a) (windowStart config) (windowEnd config) = true /\
  num_le d (radiusMeters config) = true /\
  checkStep5 a config d = None /\
  checkStep6 a config d = None.
Proof.
  destruct (verifyAttestationSignature a) eqn:Hs.
  2:{ rewrite (pipeline_stage1 now a config Hs). cbn.
      split; [discriminate | intros (E & _); discriminate]. }
  destruct (isAttestationFresh now (timestamp a) _) eqn:Hf.
  2:{ rewrite (pipeline_stage2 now a config Hs Hf). cbn.
      split; [discriminate | intros (_ & E & _); discriminate]. }
  destruct (isWithinTimeWindow (timestamp a) _ _) eqn:Hw.
  2:{ rewrite (pipeline_stage3 now a config Hs Hf Hw). cbn.
      split; [discriminate | intros (_ & _ & E & _); discriminate]. }
  destruct (num_le d (radiusMeters config)) eqn:Hg.
  2:{ rewrite (pipeline_stage4 now a config Hs Hf Hw Hg). cbn.
      split; [discriminate | intros (_ & _ & _ & E & _); discriminate]. }
  rewrite (pipeline_late now a config Hs Hf Hw Hg). fold d.
  destruct (checkStep5 a config d) as [r5 |] eqn:H5.
  { destruct (checkStep5_rejects a config r5 H5) as (Hv & _).
    rewrite Hv. split; [discriminate | intros (_ & _ & _ & _ & E & _); discriminate]. }
  destruct (checkStep6 a config d) as [r6 |] eqn:H6.
  { destruct (checkStep6_rejects a config r6 H6) as (Hv & _).
    rewrite Hv. split; [discriminate | intros (_ & _ & _ & _ & _ & E); discriminate]. }
  cbn. tauto.
Qed.

Lemma pipeline_result_shape :
  let r := verifyLocationAttestation now a config in
  (valid r = true -> r = accepted a config) /\
  (valid r = false ->
   exists rs, reason r = Some rs /\
     (rs = InvalidSignature -> attestation r = None) /\
     (rs <> InvalidSignature -> attestation r = Some a)).
Proof.
  intros r. subst r.
  destruct (verifyAttestationSignature a) eqn:Hs.
  2:{ rewrite (pipeline_stage1 now a config Hs). cbn.
      split; [discriminate |]. intros _. eexists. split; [reflexivity |].
      split; [reflexivity | congruence]. }
  destruct (isAttestationFresh now (timestamp a)
              (nullish (maxAttestationAgeSec config) 300)) eqn:Hf.
  2:{ rewrite (pipeline_stage2 now a config Hs Hf). cbn.
      split; [discriminate |]. intros _. eexists. split; [reflexivity |].
      split; [discriminate | reflexivity]. }
  destruct (isWithinTimeWindow (timestamp a) (windowStart config)
              (windowEnd config)) eqn:Hw.
  2:{ rewrite (pipeline_stage3 now a config Hs Hf Hw). cbn.
      split; [discriminate |]. intros _. eexists. split; [reflexivity |].
      split; [discriminate | reflexivity]. }
  destruct (num_le d (radiusMeters config)) eqn:Hg.
  2:{ rewrite (pipeline_stage4 now a config Hs Hf Hw Hg). cbn.
      split; [discriminate |]. intros _. eexists. split; [reflexivity |].
      split; [discriminate | reflexivity]. }
  rewrite (pipeline_late now a config Hs Hf Hw Hg). fold d.
  destruct (checkStep5 a config d) as [r5 |] eqn:H5.
  { destruct (checkStep5_rejects a config r5 H5) as (Hv & _ & Ha & s & m & Hr).
    split; [congruence |]. intros _. eexists. split; [exact Hr |].
    split; [discriminate | intros _; exact Ha]. }
  destruct (checkStep6 a config d) as [r6 |] eqn:H6.
  { destruct (checkStep6_rejects a config r6 H6)
      as (Hv & _ & Ha & [Hr | (s & m & Hr)]);
      (split; [congruence |]); intros _; eexists; (split; [exact Hr |]);
      (split; [discriminate | intros _; exact Ha]). }
  split; [reflexivity | cbn; discriminate].
Qed.

End PipelineWhole.

(** X4.  The pipeline declares an attestation valid exactly when the
    signature verifies, the age is between 0 and the maximal age, the
    timestamp lies in the window, the distance is at most the radius,
    a history of two samples or more is plausible, and, where
    continuous presence is required and a history is present, the
    presence check accepts it. *)
Theorem X4_pipeline_valid_iff :
  forall (P : Platform) (now : Z) (a : LocationAttestation)
         (config : VerificationConfig),
    valid (verifyLocationAttestation now a config) = true <->
    verifyAttestationSignature a = true /\
    ((0 <= now - timestamp a)%Z /\
     IZR (now - timestamp a) <= nullish (maxAttestationAgeSec config) 300 * 1000) /\
    (windowStart config <= timestamp a <= windowEnd config)%Z /\
    geofenceDistance a config <= radiusMeters config /\
    (forall h, movementHistory a = Some h -> (2 <= List.length h)%nat ->
       plausible (checkMovementPlausibility h (nullish (maxSpeedMps config) 200))
       = true) /\
    (requireContinuousPresence config = Some true ->
     forall h, movementHistory a = Some h ->
       verified (verifyContinuousPresence h (targetLat config) (targetLon config)
                   (radiusMeters config)
                   (nullish (continuousPresenceDurationSec config) 30)) = true).
Proof.
  intros P now a config.
  rewrite pipeline_valid_iff, isAttestationFresh_iff, isWithinTimeWindow_iff,
    num_le_true_iff, checkStep5_none_iff, checkStep6_none_iff.
  reflexivity.
Qed.

(** X5.  A valid result is exactly the attestation, the distance and no
    reason; a rejection always names a reason, and it returns the
    attestation unless the reason is the invalid signature. *)
Theorem X5_result_shape :
  forall (P : Platform) (now : Z) (a : LocationAttestation)
         (config : VerificationConfig),
    let r := verifyLocationAttestation now a config in
    (valid r = true ->
     reason r = None /\ attestation r = Some a /\
     distance r = Some (geofenceDistance a config)) /\
    (valid r = false ->
     exists rs, reason r = Some rs /\
       (rs = InvalidSignature -> attestation r = None) /\
       (rs <> InvalidSignature -> attestation r = Some a)).
Proof.
  intros P now a config r.
  destruct (pipeline_result_shape now a config) as [Hvalid Hinvalid].
  fold r in Hvalid, Hinvalid.
  split; [| exact Hinvalid].
  intros Hv. rewrite (Hvalid Hv). repeat split.
Qed.

(* ================================================================== *)
(** * What the signature covers *)
(* ================================================================== *)

Lemma demo_base64_roundtrip :
  forall b : bytes,
    decodeBase64 (Platform := demoPlatform)
      (encodeBase64 (Platform := demoPlatform) b) = b.
Proof. intros b. apply list_byte_of_string_of_list_byte. Qed.

(** X6.  The signature check reads the device identifier, the two
    coordinates rounded to six decimals, the accuracy, the timestamp,
    the signature and the public key, and nothing else: two
    attestations that agree on these verify alike, whatever their
    movement history, altitude, heading, speed or network context. *)
Theorem X6_signature_ignores_unsigned_fields :
  forall (P : Platform) (a a' : LocationAttestation),
    deviceId a = deviceId a' ->
    toFixed (latitude a) 6 = toFixed (latitude a') 6 ->
    toFixed (longitude a) 6 = toFixed (longitude a') 6 ->
    accuracy a = accuracy a' ->
    timestamp a = timestamp a' ->
    signature a = signature a' ->
    devicePublicKey a = devicePublicKey a' ->
    verifyAttestationSignature a = verifyAttestationSignature a'.
Proof.
  intros P a a' Hid Hlat Hlon Hacc Hts Hsig Hpk.
  unfold verifyAttestationSignature.
  rewrite Hid, Hlat, Hlon, Hacc, Hts, Hsig, Hpk. reflexivity.
Qed.

Lemma X6_signature_ignores_unsigned_fields_witness :
  let a := demoAttestation "pk" 1000 None in
  let a' := demoAttestation "pk" 1000
              (Some [mkPoint 0 0 0; mkPoint 0 180 1]) in
  verifyAttestationSignature (H := demoPlatform) a
  = verifyAttestationSignature (H := demoPlatform) a'.
Proof.
  intros a a'.
  exact (X6_signature_ignores_unsigned_fields demoPlatform a a'
           eq_refl eq_refl eq_refl eq_refl eq_refl eq_refl eq_refl).
Defined.

(** X7.  The later checks bind only an attestation that carries a
    history: when an attestation passes the signature, freshness,
    window and geofence checks, the same attestation without its
    movement history still verifies its signature and is accepted,
    whatever speed ceiling or presence the configuration asks for. *)
Theorem X7_history_can_be_dropped :
  forall (P : Platform) (now : Z) (a : LocationAttestation)
         (config : VerificationConfig),
    verifyAttestationSignature a = true ->
    isAttestationFresh now (timestamp a)
      (nullish (maxAttestationAgeSec config) 300) = true ->
    isWithinTimeWindow (timestamp a) (windowStart config) (windowEnd config) = true ->
    fst (isWithinGeofence (latitude a) (longitude a) (targetLat config)
           (targetLon config) (radiusMeters config)) = true ->
    let a' := withMovementHistory a None in
    verifyAttestationSignature a' = true /\
    verifyLocationAttestation now a' config = accepted a' config.
Proof.
  intros P now a config Hs Hf Hw Hg a'.
  assert (Hs' : verifyAttestationSignature a' = true) by exact Hs.
  split; [exact Hs' |].
  rewrite (pipeline_late now a' config Hs' Hf Hw Hg).
  unfold checkStep5, checkStep6. cbn [movementHistory a' withMovementHistory].
  destruct (truthy (requireContinuousPresence config)); reflexivity.
Qed.

Lemma X7_history_can_be_dropped_witness :
  let h := [mkPoint 0 0 0; mkPoint 0 180 1] in
  let a := demoAttestation "pk" 1000 (Some h) in
  let config := demoConfig 0 (Some true) in
  let a' := withMovementHistory a None in
  verifyAttestationSignature (H := demoPlatform) a' = true /\
  verifyLocationAttestation (H := demoPlatform) 1000 a' config = accepted a' config.
Proof.
  intros h a config.
  apply (X7_history_can_be_dropped demoPlatform 1000 a config);
    [reflexivity | eval_fresh | reflexivity | eval_within_self].
Defined.

(* ================================================================== *)
(** * Creating and verifying an attestation *)
(* ================================================================== *)

Section CreationFacts.
Context `{Platform} `{Signer}.
Variables (id privateKey publicKey : string) (la lo acc : R).
Variable context : option AttestationContext.

Hypothesis base64_roundtrip : forall b : bytes, decodeBase64 (encodeBase64 b) = b.
Hypothesis signature_correct :
  forall msg : bytes,
    nacl_sign_detached_verify msg
      (nacl_sign_detached msg (decodeBase64 privateKey))
      (decodeBase64 publicKey) = true.

Lemma created_signature_verifies (now : Z) :
  verifyAttestationSignature
    (createLocationAttestation now id privateKey publicKey la lo acc context)
  = true.
Proof.
  unfold verifyAttestationSignature, createLocationAttestation, verifySignature,
    signMessage.
  cbn [deviceId latitude longitude accuracy timestamp signature devicePublicKey].
  rewrite base64_roundtrip. apply signature_correct.
Qed.

End CreationFacts.

(** X8.  An attestation made by [createLocationAttestation] with a key
    pair passes [verifyAttestationSignature]: the verifier rebuilds the
    very message the device signed. *)
Theorem X8_created_attestation_verifies :
  forall (P : Platform) (S : Signer) (now : Z)
         (id privateKey publicKey : string) (la lo acc : R)
         (context : option AttestationContext),
    (forall b : bytes, decodeBase64 (encodeBase64 b) = b) ->
    (forall msg : bytes,
       nacl_sign_detached_verify msg
         (nacl_sign_detached msg (decodeBase64 privateKey))
         (decodeBase64 publicKey) = true) ->
    verifyAttestationSignature
      (createLocationAttestation now id privateKey publicKey la lo acc context)
    = true.
Proof.
  intros P S now id privateKey publicKey la lo acc context Hb64 Hsig.
  apply created_signature_verifies; assumption.
Qed.

Lemma demo_signature_correct :
  forall msg : bytes,
    nacl_sign_detached_verify (Platform := demoPlatform) msg
      (nacl_sign_detached (Signer := demoSigner) msg
         (decodeBase64 (Platform := demoPlatform) "pk"))
      (decodeBase64 (Platform := demoPlatform) "pk") = true.
Proof. intros msg. reflexivity. Qed.

Lemma X8_created_attestation_verifies_witness :
  verifyAttestationSignature (H := demoPlatform)
    (createLocationAttestation (H := demoPlatform) (H0 := demoSigner)
       1000 "device-1" "pk" "pk" 18.5204 73.8567 5 None)
  = true.
Proof.
  exact (X8_created_attestation_verifies demoPlatform demoSigner 1000
           "device-1" "pk" "pk" 18.5204 73.8567 5 None
           demo_base64_roundtrip demo_signature_correct).
Defined.

(** X9.  An attestation created inside the geofence and the time window
    without a movement history, and verified no later than the maximal
    age after its creation, is accepted. *)
Theorem X9_created_attestation_is_accepted :
  forall (P : Platform) (S : Signer) (now now' : Z)
         (id privateKey publicKey : string) (la lo acc : R)
         (context : option AttestationContext) (config : VerificationConfig),
    (forall b : bytes, decodeBase64 (encodeBase64 b) = b) ->
    (forall msg : bytes,
       nacl_sign_detached_verify msg
         (nacl_sign_detached msg (decodeBase64 privateKey))
         (decodeBase64 publicKey) = true) ->
    spread context ctx_movementHistory = None ->
    (now <= now')%Z ->
    IZR (now' - now) <= nullish (maxAttestationAgeSec config) 300 * 1000 ->
    (windowStart config <= now <= windowEnd config)%Z ->
    calculateDistance la lo (targetLat config) (targetLon config)
      <= radiusMeters config ->
    let a := createLocationAttestation now id privateKey publicKey la lo acc
               context in
    verifyLocationAttestation now' a config = accepted a config.
Proof.
  intros P S now now' id privateKey publicKey la lo acc context config
         Hb64 Hsig Hhist Hnow Hage Hwin Hdist a.
  assert (Hs : verifyAttestationSignature a = true)
    by (apply created_signature_verifies; assumption).
  rewrite (pipeline_late now' a config Hs).
  - unfold checkStep5, checkStep6.
    change (movementHistory a) with (spread context ctx_movementHistory).
    rewrite Hhist. destruct (truthy (requireContinuousPresence config)); reflexivity.
  - apply isAttestationFresh_iff. cbn [timestamp a createLocationAttestation].
    split; [lia | exact Hage].
  - apply isWithinTimeWindow_iff. exact Hwin.
  - apply num_le_true_iff. exact Hdist.
Qed.

Lemma X9_created_attestation_is_accepted_witness :
  let config := demoConfig 0 (Some true) in
  let a := createLocationAttestation (H := demoPlatform) (H0 := demoSigner)
             1000 "device-1" "pk" "pk" 0 0 5 None in
  verifyLocationAttestation (H := demoPlatform) 61000 a config = accepted a config.
Proof.
  intros config.
  apply (X9_created_attestation_is_accepted demoPlatform demoSigner 1000 61000
           "device-1" "pk" "pk" 0 0 5 None config
           demo_base64_roundtrip demo_signature_correct eq_refl).
  - lia.
  - cbn [nullish maxAttestationAgeSec config demoConfig].
    change (61000 - 1000)%Z with 60000%Z. lra.
  - cbn. lia.
  - cbn [targetLat targetLon radiusMeters config demoConfig].
    rewrite calculateDistance_self. lra.
Defined.

(* ================================================================== *)
(** * What the plausibility check reports *)
(* ================================================================== *)

Lemma checkTransitions_first (rest : list LocationPoint) :
  forall (prev : LocationPoint) (acc limit : R),
    let r := checkTransitions prev rest acc limit in
    plausible r = false ->
    exists before p q after,
      prev :: rest = before ++ p :: q :: after /\
      limit < calculateSpeed p q /\
      (forall p' q', consecutive p' q' (before ++ [p]) ->
                     ~ limit < calculateSpeed p' q') /\
      plausibility_reason r = Some (ImpossibleSpeed (calculateSpeed p q) limit).
Proof.
  induction rest as [| cur rest IH]; intros prev acc limit r; subst r;
    cbn [checkTransitions].
  - cbn. discriminate.
  - unfold num_gt. destruct (num_lt limit (calculateSpeed prev cur)) eqn:E.
    + intros _. apply num_lt_true_iff in E.
      exists [], prev, cur, rest. split; [reflexivity |]. split; [exact E |].
      split; [| reflexivity].
      intros p' q' Hc. apply consecutive_length in Hc. cbn in Hc. lia.
    + intros Hp. apply num_lt_false_iff in E.
      destruct (IH cur (Rmax acc (calculateSpeed prev cur)) limit Hp)
        as (before & p & q & after & Hsplit & Hlt & Hbefore & Hreason).
      exists (prev :: before), p, q, after.
      split; [cbn [app]; rewrite Hsplit; reflexivity |].
      split; [exact Hlt |]. split; [| exact Hreason].
      intros p' q' Hc. cbn [app] in Hc.
      inversion Hc as [l Hl | z l Hc' Hl]; subst.
      * assert (q' = cur) as ->.
        { destruct before as [| b before']; cbn [app] in *.
          - injection Hsplit as -> _. congruence.
          - injection Hsplit as -> _. congruence. }
        lra.
      * apply Hbefore. exact Hc'.
Qed.

(** X10.  When the plausibility check rejects, the reason names the
    ceiling and the speed of the first consecutive pair of the sorted
    history whose speed exceeds it: no pair before it does.  When it
    accepts, it gives no reason; a history of fewer than two samples is
    accepted without a maximal speed. *)
Theorem X10_plausibility_report :
  forall (h : list LocationPoint) (limit : R),
    let r := checkMovementPlausibility h limit in
    (plausible r = false ->
     exists before p q after,
       sortByTimestamp h = before ++ p :: q :: after /\
       limit < calculateSpeed p q /\
       (forall p' q', consecutive p' q' (before ++ [p]) ->
                      ~ limit < calculateSpeed p' q') /\
       plausibility_reason r = Some (ImpossibleSpeed (calculateSpeed p q) limit)) /\
    (plausible r = true -> plausibility_reason r = None) /\
    ((List.length h < 2)%nat ->
     r = {| plausible := true; plausibility_reason := None; maxSpeed := None |}).
Proof.
  intros h limit r. subst r.
  split; [| split].
  - unfold checkMovementPlausibility.
    destruct (List.length h <? 2)%nat; [cbn; discriminate |].
    destruct (sortByTimestamp h) as [| first rest]; [cbn; discriminate |].
    apply checkTransitions_first.
  - intros Hp.
    destruct (plausibility_reason (checkMovementPlausibility h limit)) as [rs |] eqn:Hr;
      [| reflexivity].
    exfalso. revert Hp Hr. unfold checkMovementPlausibility.
    destruct (List.length h <? 2)%nat; [cbn; discriminate |].
    destruct (sortByTimestamp h) as [| first rest]; [cbn; discriminate |].
    generalize 0 at 1 2 as acc. revert first.
    induction rest as [| cur rest IH]; intros first acc; cbn [checkTransitions].
    + cbn. discriminate.
    + destruct (num_gt (calculateSpeed first cur) limit); [cbn; discriminate |].
      apply IH.
  - intros Hlen. unfold checkMovementPlausibility.
    replace (List.length h <? 2)%nat with true
      by (symmetry; apply Nat.ltb_lt; exact Hlen).
    reflexivity.
Qed.

(* ================================================================== *)
(** * What the presence check measures *)
(* ================================================================== *)

Lemma timestampLe_trans : Relations_1.Transitive timestampLe.
Proof. intros x y z Hxy Hyz. unfold timestampLe in *. lia. Qed.

Lemma sortByTimestamp_StronglySorted (l : list LocationPoint) :
  StronglySorted timestampLe (sortByTimestamp l).
Proof.
  apply Sorted_StronglySorted; [exact timestampLe_trans |].
  apply sortByTimestamp_Sorted.
Qed.

Section PresenceBounds.
Variables targetLat targetLon radius : R.
Variables lo hi : Z.

Let step := presenceStep targetLat targetLon radius.

(** The window the loop keeps never starts before the earliest sample
    and never lasts longer than the whole history; on a sorted history
    its duration is never negative. *)
Lemma presence_fold_bounds (l : list LocationPoint) :
  forall ws wd : Z,
    StronglySorted timestampLe l ->
    Forall (fun p => (lo <= pt_timestamp p <= hi)%Z) l ->
    (ws = (-1)%Z \/
     ((lo <= ws)%Z /\ Forall (fun p => (ws <= pt_timestamp p)%Z) l)) ->
    (0 <= wd <= hi - lo)%Z ->
    (0 <= snd (fold_left step l (ws, wd)) <= hi - lo)%Z.
Proof.
  induction l as [| p l IH]; intros ws wd Hsorted Hrange Hws Hwd.
  - exact Hwd.
  - cbn [fold_left].
    apply StronglySorted_inv in Hsorted. destruct Hsorted as [Hsorted Hp].
    inversion Hrange as [| ? ? Hprange Hlrange]; subst.
    change (step (ws, wd) p)
      with (presenceStep targetLat targetLon radius (ws, wd) p).
    unfold presenceStep.
    destruct (fst (isWithinGeofence _ _ _ _ _)).
    + destruct (ws =? -1)%Z eqn:E.
      * apply IH; [exact Hsorted | exact Hlrange | | lia].
        right. split; [lia | exact Hp].
      * apply Z.eqb_neq in E.
        destruct Hws as [Hws | [Hlo Hall]]; [contradiction |].
        inversion Hall as [| ? ? Hwsp Hwsl]; subst.
        apply IH; [exact Hsorted | exact Hlrange | | lia].
        right. split; [exact Hlo | exact Hwsl].
    + apply IH; [exact Hsorted | exact Hlrange | left; reflexivity | lia].
Qed.

End PresenceBounds.

(** X12.  For a history that is not empty, the presence check always
    reports a duration; it is never negative and never longer than the
    time between the earliest and the latest sample, so that a required
    duration of 0 or less is always met. *)
Theorem X12_presence_duration_bounds :
  forall (h : list LocationPoint) (targetLat targetLon radius required : R)
         (lo hi : Z),
    h <> [] ->
    Forall (fun p => (lo <= pt_timestamp p <= hi)%Z) h ->
    let r := verifyContinuousPresence h targetLat targetLon radius required in
    exists seconds,
      duration r = Some seconds /\
      0 <= seconds <= IZR (hi - lo) / 1000 /\
      (required <= 0 -> verified r = true).
Proof.
  intros h targetLat targetLon radius required lo hi Hne Hrange r. subst r.
  assert (Hlohi : (lo <= hi)%Z).
  { destruct h as [| p h]; [congruence |].
    inversion Hrange; subst. lia. }
  assert (Hsorted : Forall (fun p => (lo <= pt_timestamp p <= hi)%Z)
                           (sortByTimestamp h)).
  { rewrite Forall_forall in *. intros x Hx. apply Hrange.
    apply sortByTimestamp_In. exact Hx. }
  pose proof (presence_fold_bounds targetLat targetLon radius lo hi
                (sortByTimestamp h) (-1) 0
                (sortByTimestamp_StronglySorted h) Hsorted
                (or_introl eq_refl)) as Hbounds.
  specialize (Hbounds ltac:(lia)).
  unfold verifyContinuousPresence.
  destruct h as [| p h]; [congruence |].
  destruct (fold_left _ _ _) as [ws wd]. cbn [snd] in Hbounds.
  assert (Hsec : 0 <= IZR wd / 1000 <= IZR (hi - lo) / 1000).
  { destruct Hbounds as [H0 H1]. apply IZR_le in H0, H1. lra. }
  unfold num_ge. destruct (num_le required (IZR wd / 1000)) eqn:E; cbn.
  - eexists. split; [reflexivity |]. split; [exact Hsec | reflexivity].
  - apply num_le_false_iff in E.
    eexists. split; [reflexivity |]. split; [exact Hsec |]. lra.
Qed.

Lemma X12_presence_duration_bounds_witness :
  let h := [mkPoint 0 0 5000; mkPoint 0 0 1000] in
  let r := verifyContinuousPresence h 0 0 100 30 in
  exists seconds,
    duration r = Some seconds /\
    0 <= seconds <= IZR (5000 - 1000) / 1000 /\
    (30 <= 0 -> verified r = true).
Proof.
  intros h.
  apply (X12_presence_duration_bounds h 0 0 100 30 1000 5000).
  - discriminate.
  - repeat constructor; cbn; lia.
Defined.

(** X13.  When the latest sample of the history lies outside the
    geofence, the measured duration is 0 whatever came before, and any
    positive required duration is refused. *)
Theorem X13_latest_sample_outside :
  forall (h earlier : list LocationPoint) (latest : LocationPoint)
         (targetLat targetLon radius required : R),
    sortByTimestamp h = earlier ++ [latest] ->
    inGeofence targetLat targetLon radius latest = false ->
    let r := verifyContinuousPresence h targetLat targetLon radius required in
    duration r = Some 0 /\
    (0 < required -> verified r = false) /\
    (required <= 0 -> verified r = true).
Proof.
  intros h earlier latest targetLat targetLon radius required Hsort Hout r.
  subst r. unfold verifyContinuousPresence.
  destruct h as [| p h].
  { destruct earlier; discriminate. }
  rewrite Hsort, fold_left_app. cbn [fold_left].
  destruct (fold_left _ earlier _) as [ws wd].
  unfold presenceStep. unfold inGeofence in Hout. rewrite Hout.
  replace (IZR 0 / 1000) with 0 by lra.
  unfold num_ge. destruct (num_le required 0) eqn:E; cbn.
  - apply num_le_true_iff in E.
    split; [reflexivity |]. split; [intros; lra | reflexivity].
  - apply num_le_false_iff in E.
    split; [reflexivity |]. split; [reflexivity | intros; lra].
Qed.

Lemma X13_latest_sample_outside_witness :
  let h := [mkPoint 0 180 0; mkPoint 0 180 60000; mkPoint 0 0 70000] in
  let r := verifyContinuousPresence h 0 180 100 30 in
  duration r = Some 0 /\
  (0 < 30 -> verified r = false) /\
  (30 <= 0 -> verified r = true).
Proof.
  intros h.
  apply (X13_latest_sample_outside h
           [mkPoint 0 180 0; mkPoint 0 180 60000] (mkPoint 0 0 70000)).
  - reflexivity.
  - apply inGeofence_antipode.
Defined.

Lemma trailingRun_all (inside : LocationPoint -> bool) (l : list LocationPoint) :
  forallb inside l = true -> trailingRun inside l = l.
Proof.
  destruct l as [| p l]; [reflexivity |].
  intros Hall. cbn [trailingRun]. rewrite Hall. reflexivity.
Qed.

Lemma sorted_le_last (l : list LocationPoint) (q dflt : LocationPoint) :
  StronglySorted timestampLe l -> In q l ->
  (pt_timestamp q <= pt_timestamp (last l dflt))%Z.
Proof.
  revert q. induction l as [| x [| y t] IH]; intros q Hs Hin.
  - contradiction.
  - destruct Hin as [<- | []]. cbn. lia.
  - apply StronglySorted_inv in Hs. destruct Hs as [Hs Hx].
    change (last (x :: y :: t) dflt) with (last (y :: t) dflt).
    destruct Hin as [<- | Hin].
    + inversion Hx as [| ? ? Hxy _]; subst. unfold timestampLe in Hxy.
      specialize (IH y Hs (or_introl eq_refl)). lia.
    + apply IH; assumption.
Qed.

Lemma sorted_span_is_widest (l : list LocationPoint) (p q : LocationPoint) :
  StronglySorted timestampLe l -> In p l -> In q l ->
  (pt_timestamp q - pt_timestamp p <= runSpan l)%Z.
Proof.
  intros Hs Hp Hq. destruct l as [| x t]; [contradiction |].
  unfold runSpan.
  pose proof (sorted_le_last (x :: t) q x Hs Hq) as Hlast.
  apply StronglySorted_inv in Hs. destruct Hs as [_ Hx].
  assert (pt_timestamp x <= pt_timestamp p)%Z.
  { destruct Hp as [<- | Hp]; [lia |].
    rewrite Forall_forall in Hx. apply (Hx p Hp). }
  lia.
Qed.

(** X14.  When every sample of a history (without the timestamp -1)
    lies inside the geofence, the measured duration is the time from
    the earliest to the latest sample, the widest interval between any
    two samples, and the check accepts exactly when that time is at
    least the required duration. *)
Theorem X14_presence_all_inside :
  forall (h : list LocationPoint) (targetLat targetLon radius required : R),
    h <> [] ->
    Forall (fun p => pt_timestamp p <> (-1)%Z) h ->
    Forall (fun p => inGeofence targetLat targetLon radius p = true) h ->
    let r := verifyContinuousPresence h targetLat targetLon radius required in
    let span := runSpan (sortByTimestamp h) in
    (forall p q, In p h -> In q h -> (pt_timestamp q - pt_timestamp p <= span)%Z) /\
    duration r = Some (IZR span / 1000) /\
    (verified r = true <-> IZR span / 1000 >= required).
Proof.
  intros h targetLat targetLon radius required Hne Hts Hin r span.
  assert (Hall : forallb (inGeofence targetLat targetLon radius)
                         (sortByTimestamp h) = true).
  { apply forallb_forall. intros x Hx. rewrite Forall_forall in Hin.
    apply Hin. apply sortByTimestamp_In. exact Hx. }
  assert (Hsorted_ts : Forall (fun p => pt_timestamp p <> (-1)%Z)
                              (sortByTimestamp h)).
  { rewrite Forall_forall in *. intros x Hx. apply Hts.
    apply sortByTimestamp_In. exact Hx. }
  split.
  { intros p q Hp Hq. subst span.
    apply sorted_span_is_widest;
      [apply sortByTimestamp_StronglySorted | | ];
      apply sortByTimestamp_In; assumption. }
  split.
  - subst r span. unfold verifyContinuousPresence.
    destruct h as [| p h]; [congruence |].
    rewrite (presence_fold_trailingRun _ _ _ _ Hsorted_ts).
    rewrite (trailingRun_all _ _ Hall).
    destruct (num_ge _ required); reflexivity.
  - subst r span.
    rewrite (verifyContinuousPresence_verified_iff _ _ _ _ _ Hts).
    rewrite (trailingRun_all _ _ Hall). tauto.
Qed.

Lemma X14_presence_all_inside_witness :
  let h := [mkPoint 0 0 60000; mkPoint 0 0 0; mkPoint 0 0 20000] in
  let r := verifyContinuousPresence h 0 0 100 30 in
  let span := runSpan (sortByTimestamp h) in
  (forall p q, In p h -> In q h -> (pt_timestamp q - pt_timestamp p <= span)%Z) /\
  duration r = Some (IZR span / 1000) /\
  (verified r = true <-> IZR span / 1000 >= 30).
Proof.
  intros h.
  apply (X14_presence_all_inside h 0 0 100 30).
  - discriminate.
  - repeat constructor; cbn; lia.
  - repeat constructor; apply inGeofence_self; lra.
Defined.

(* ================================================================== *)
(** * Authenticated encryption: round trips *)
(* ================================================================== *)

Local Open Scope Z_scope.

Lemma demo_AES_GCM_roundtrip :
  forall key iv pt : bytes,
    AES_GCM_decrypt (Platform := demoPlatform) key iv
      (fst (AES_GCM_encrypt (Platform := demoPlatform) key iv pt))
      (snd (AES_GCM_encrypt (Platform := demoPlatform) key iv pt)) = Some pt.
Proof.
  intros key iv pt. cbn [AES_GCM_decrypt AES_GCM_encrypt demoPlatform fst snd].
  unfold bytes_eqb. rewrite String.eqb_refl. reflexivity.
Qed.

Lemma demo_AES_GCM_tag_length :
  forall key iv pt : bytes,
    List.length (snd (AES_GCM_encrypt (Platform := demoPlatform) key iv pt))
    = 16%nat.
Proof.
  intros key iv pt. cbn [AES_GCM_encrypt demoPlatform snd].
  rewrite length_firstn, !length_app, repeat_length. lia.
Qed.

Section Interoperation.
Context `{Platform}.
Hypothesis base64_roundtrip : forall b : bytes, decodeBase64 (encodeBase64 b) = b.
Hypothesis AES_GCM_roundtrip :
  forall key iv pt : bytes,
    AES_GCM_decrypt key iv (fst (AES_GCM_encrypt key iv pt))
                    (snd (AES_GCM_encrypt key iv pt)) = Some pt.
Hypothesis AES_GCM_tag_length :
  forall key iv pt : bytes,
    List.length (snd (AES_GCM_encrypt key iv pt)) = 16%nat.



End Interoperation.

(** X15.  On the server side, [aesGcmDecrypt] applied to the three
    properties of the object [aesGcmEncrypt] returned, under the same
    key, gives back the plaintext, whatever the random nonce. *)
Theorem X15_backend_encrypt_decrypt :
  forall (P : Platform) (plaintext : string) (key : bytes) (g : RNG),
    (forall b : bytes, decodeBase64 (encodeBase64 b) = b) ->
    (forall key iv pt : bytes,
       AES_GCM_decrypt key iv (fst (AES_GCM_encrypt key iv pt))
                       (snd (AES_GCM_encrypt key iv pt)) = Some pt) ->
    exists c n t,
      fst (Backend.aesGcmEncrypt plaintext key g)
        = [("ciphertext"%string, c); ("nonce"%string, n); ("authTag"%string, t)] /\
      Backend.aesGcmDecrypt c key n t = Some plaintext.
Proof.
  intros P plaintext key g Hb64 Hrt.
  unfold Backend.aesGcmEncrypt, Backend.aesGcmDecrypt.
  destruct (randomBytes 12 g) as [nonce g'].
  specialize (Hrt key nonce (list_byte_of_string plaintext)).
  destruct (AES_GCM_encrypt key nonce _) as [ct tag]. cbn [fst snd] in *.
  do 3 eexists. split; [reflexivity |].
  rewrite !Hb64, Hrt, string_of_list_byte_of_string. reflexivity.
Qed.

Lemma X15_backend_encrypt_decrypt_witness :
  exists c n t,
    fst (Backend.aesGcmEncrypt (H := demoPlatform) "hello" [x01; x02] 7%nat)
      = [("ciphertext"%string, c); ("nonce"%string, n); ("authTag"%string, t)] /\
    Backend.aesGcmDecrypt (H := demoPlatform) c [x01; x02] n t = Some "hello"%string.
Proof.
  exact (X15_backend_encrypt_decrypt demoPlatform "hello" [x01; x02] 7%nat
           demo_base64_roundtrip demo_AES_GCM_roundtrip).
Defined.





(** X18.  [unwrapKey] recovers the wrapped key when it is handed the
    properties [ciphertext], [nonce] and [authTag] of the object
    [wrapKey] returned, in the browser and on the server. *)
Theorem X18_unwrap_recovers_key :
  forall (P : Platform) (keyToWrap wrappingKey : bytes) (g : RNG),
    (forall b : bytes, decodeBase64 (encodeBase64 b) = b) ->
    (forall key iv pt : bytes,
       AES_GCM_decrypt key iv (fst (AES_GCM_encrypt key iv pt))
                       (snd (AES_GCM_encrypt key iv pt)) = Some pt) ->
    (forall key iv pt : bytes,
       List.length (snd (AES_GCM_encrypt key iv pt)) = 16%nat) ->
    (exists c n t,
       fst (Browser.wrapKey keyToWrap wrappingKey g)
         = [("ciphertext"%string, c); ("nonce"%string, n); ("authTag"%string, t)] /\
       Browser.unwrapKey c wrappingKey n t = Some keyToWrap) /\
    (exists c n t,
       fst (Backend.wrapKey keyToWrap wrappingKey g)
         = [("ciphertext"%string, c); ("nonce"%string, n); ("authTag"%string, t)] /\
       Backend.unwrapKey c wrappingKey n t = Some keyToWrap).
Proof.
  intros P keyToWrap wrappingKey g Hb64 Hrt Htag.
  apply wrapKey_roundtrip_through_ciphertext; assumption.
Qed.

Lemma X18_unwrap_recovers_key_witness :
  (exists c n t,
     fst (Browser.wrapKey (H := demoPlatform) [x0a; x0b] [x01] 0%nat)
       = [("ciphertext"%string, c); ("nonce"%string, n); ("authTag"%string, t)] /\
     Browser.unwrapKey (H := demoPlatform) c [x01] n t = Some [x0a; x0b]) /\
  (exists c n t,
     fst (Backend.wrapKey (H := demoPlatform) [x0a; x0b] [x01] 0%nat)
       = [("ciphertext"%string, c); ("nonce"%string, n); ("authTag"%string, t)] /\
     Backend.unwrapKey (H := demoPlatform) c [x01] n t = Some [x0a; x0b]).
Proof.
  exact (X18_unwrap_recovers_key demoPlatform [x0a; x0b] [x01] 0%nat
           demo_base64_roundtrip demo_AES_GCM_roundtrip demo_AES_GCM_tag_length).
Defined.

(* ================================================================== *)
(** * HKDF: prefixes, empty outputs, the derived key *)
(* ================================================================== *)

Lemma ceil_div_32_mono (a b : Z) : a <= b -> ceil_div a 32 <= ceil_div b 32.
Proof. unfold ceil_div. intros Hab. Z.div_mod_to_equations. lia. Qed.

Lemma js_slice_nil {A : Type} (start finish : Z) :
  js_slice (@nil A) start finish = [].
Proof. unfold js_slice. rewrite skipn_nil. apply firstn_nil. Qed.

Section HkdfMore.
Context `{Platform}.
Variables prk info : bytes.

Lemma hkdf_blocks_prefix (n extra : nat) :
  exists rest,
    hkdf_blocks prk info (n + extra) = hkdf_blocks prk info n ++ rest.
Proof.
  induction extra as [| extra [rest IH]].
  - exists []. rewrite Nat.add_0_r, app_nil_r. reflexivity.
  - exists (rest ++ hkdf_T prk info (S (n + extra))).
    rewrite Nat.add_succ_r, hkdf_blocks_S, IH, app_assoc. reflexivity.
Qed.

Lemma hkdfExpand_nonpositive (len : Z) :
  len <= 0 ->
  Backend.hkdfExpand prk info len = Some [] /\
  Browser.hkdfExpand prk info len = Some [].
Proof.
  intros Hlen. rewrite hkdfExpand_agree.
  assert (Hn : ceil_div len 32 <= 0)
    by (unfold ceil_div; Z.div_mod_to_equations; lia).
  assert (E : Backend.hkdfExpand prk info len = Some []).
  { unfold Backend.hkdfExpand.
    destruct (ceil_div len 32 >? 255) eqn:Egt;
      [apply Z.gtb_lt in Egt; lia |].
    replace (Z.to_nat (ceil_div len 32)) with 0%nat by lia.
    cbn [Backend.expandLoop]. rewrite js_slice_nil. reflexivity. }
  split; exact E.
Qed.

Hypothesis HMAC_length : forall k m, List.length (HMAC_SHA256 k m) = 32%nat.

Lemma hkdfExpand_prefix (len1 len2 : Z) :
  0 <= len1 <= len2 -> len2 <= 255 * 32 ->
  exists okm1 okm2,
    Backend.hkdfExpand prk info len1 = Some okm1 /\
    Backend.hkdfExpand prk info len2 = Some okm2 /\
    okm1 = firstn (Z.to_nat len1) okm2.
Proof.
  intros [H0 H12] Hmax.
  destruct (hkdfExpand_output prk info HMAC_length len1) as (okm1 & E1 & V1 & _);
    [lia |].
  destruct (hkdfExpand_output prk info HMAC_length len2) as (okm2 & E2 & V2 & _);
    [lia |].
  exists okm1, okm2. split; [exact E1 |]. split; [exact E2 |].
  rewrite V1, V2, firstn_firstn.
  replace (Nat.min (Z.to_nat len1) (Z.to_nat len2)) with (Z.to_nat len1) by lia.
  set (n1 := Z.to_nat (ceil_div len1 32)).
  set (n2 := Z.to_nat (ceil_div len2 32)).
  assert (Hn : (n1 <= n2)%nat).
  { pose proof (ceil_div_32_mono len1 len2 H12). subst n1 n2. lia. }
  destruct (hkdf_blocks_prefix n1 (n2 - n1)) as [rest Hrest].
  replace (n1 + (n2 - n1))%nat with n2 in Hrest by lia.
  rewrite Hrest, firstn_app.
  replace (Z.to_nat len1 - List.length (hkdf_blocks prk info n1))%nat with 0%nat.
  - cbn [firstn]. rewrite app_nil_r. reflexivity.
  - rewrite (hkdf_blocks_length prk info HMAC_length).
    pose proof (ceil_div_32_covers len1).
    pose proof (ceil_div_32_nonneg len1 H0). subst n1. lia.
Qed.

End HkdfMore.

(** X19.  The outputs of HKDF-Expand for one key and one [info] are
    prefixes of one another: the shorter output is the beginning of
    the longer one. *)
Theorem X19_hkdf_expand_prefix :
  forall (P : Platform) (prk info : bytes) (len1 len2 : Z),
    (forall k m, List.length (HMAC_SHA256 k m) = 32%nat) ->
    0 <= len1 <= len2 -> len2 <= 255 * 32 ->
    exists okm1 okm2,
      Backend.hkdfExpand prk info len1 = Some okm1 /\
      Browser.hkdfExpand prk info len1 = Some okm1 /\
      Backend.hkdfExpand prk info len2 = Some okm2 /\
      Browser.hkdfExpand prk info len2 = Some okm2 /\
      okm1 = firstn (Z.to_nat len1) okm2.
Proof.
  intros P prk info len1 len2 Hlen H12 Hmax.
  destruct (hkdfExpand_prefix prk info Hlen len1 len2 H12 Hmax)
    as (okm1 & okm2 & E1 & E2 & Hprefix).
  exists okm1, okm2. rewrite !hkdfExpand_agree. auto.
Qed.

Lemma X19_hkdf_expand_prefix_witness :
  exists okm1 okm2,
    Backend.hkdfExpand (H := demoPlatform) [x01] [x02] 16 = Some okm1 /\
    Browser.hkdfExpand (H := demoPlatform) [x01] [x02] 16 = Some okm1 /\
    Backend.hkdfExpand (H := demoPlatform) [x01] [x02] 70 = Some okm2 /\
    Browser.hkdfExpand (H := demoPlatform) [x01] [x02] 70 = Some okm2 /\
    okm1 = firstn (Z.to_nat 16) okm2.
Proof.
  apply (X19_hkdf_expand_prefix demoPlatform [x01] [x02] 16 70 demo_HMAC_length);
    lia.
Defined.

(** X20.  For a requested length of 0 or less HKDF-Expand raises no
    error and computes no block: it returns the empty buffer. *)
Theorem X20_hkdf_expand_nonpositive_length :
  forall (P : Platform) (prk info : bytes) (len : Z),
    len <= 0 ->
    Backend.hkdfExpand prk info len = Some [] /\
    Browser.hkdfExpand prk info len = Some [].
Proof.
  intros P prk info len Hlen. apply hkdfExpand_nonpositive. exact Hlen.
Qed.

Lemma X20_hkdf_expand_nonpositive_length_witness :
  Backend.hkdfExpand (H := demoPlatform) [x01] [x02] (-5) = Some [] /\
  Browser.hkdfExpand (H := demoPlatform) [x01] [x02] (-5) = Some [].
Proof.
  apply (X20_hkdf_expand_nonpositive_length demoPlatform [x01] [x02] (-5)). lia.
Defined.

(** X22.  The key depends on the coordinates only through their text
    with six decimals: two bindings whose coordinates round to the same
    text, and whose radius, window and nonce agree, derive the same key. *)
Theorem X22_key_ignores_digits_beyond_six :
  forall (P : Platform) (sharedSecret : string) (b b' : LocationBinding),
    toFixed (lb_latitude b) 6 = toFixed (lb_latitude b') 6 ->
    toFixed (lb_longitude b) 6 = toFixed (lb_longitude b') 6 ->
    lb_radiusMeters b = lb_radiusMeters b' ->
    lb_windowStart b = lb_windowStart b' ->
    lb_windowEnd b = lb_windowEnd b' ->
    lb_nonce b = lb_nonce b' ->
    deriveKey_backend sharedSecret b = deriveKey_backend sharedSecret b' /\
    deriveKey_browser sharedSecret b = deriveKey_browser sharedSecret b'.
Proof.
  intros P sharedSecret b b' Hlat Hlon Hr Hs He Hn.
  unfold deriveKey_backend, deriveKey_browser,
    Backend.deriveLocationBoundKey, Browser.deriveLocationBoundKey.
  rewrite Hlat, Hlon, Hr, Hs, He, Hn. split; reflexivity.
Qed.

Lemma X22_key_ignores_digits_beyond_six_witness :
  let b := {| lb_latitude := 18.5204; lb_longitude := 73.8567;
              lb_radiusMeters := 100; lb_windowStart := 1000;
              lb_windowEnd := 2000; lb_nonce := "test-nonce" |} in
  let b' := {| lb_latitude := 18.52040000001; lb_longitude := 73.8567;
               lb_radiusMeters := 100; lb_windowStart := 1000;
               lb_windowEnd := 2000; lb_nonce := "test-nonce" |} in
  deriveKey_backend (H := demoPlatform) "c2VjcmV0" b
    = deriveKey_backend (H := demoPlatform) "c2VjcmV0" b' /\
  deriveKey_browser (H := demoPlatform) "c2VjcmV0" b
    = deriveKey_browser (H := demoPlatform) "c2VjcmV0" b'.
Proof.
  intros b b'.
  exact (X22_key_ignores_digits_beyond_six demoPlatform "c2VjcmV0" b b'
           eq_refl eq_refl eq_refl eq_refl eq_refl eq_refl).
Defined.

(* ================================================================== *)
(** * The message store *)
(* ================================================================== *)

Lemma map_get_set_same (s : MessageStore) (k : string) (v : ServerMessage) :
  map_get (map_set s k v) k = Some v.
Proof.
  induction s as [| [k' v'] s IH]; cbn [map_set map_get].
  - rewrite String.eqb_refl. reflexivity.
  - destruct (String.eqb k k') eqn:E; cbn [map_get].
    + rewrite String.eqb_refl. reflexivity.
    + rewrite E. exact IH.
Qed.

Lemma map_get_set_other (s : MessageStore) (k k' : string) (v : ServerMessage) :
  k' <> k -> map_get (map_set s k v) k' = map_get s k'.
Proof.
  intros Hne. induction s as [| [k0 v0] s IH]; cbn [map_set map_get].
  - replace (String.eqb k' k) with false
      by (symmetry; apply String.eqb_neq; exact Hne).
    reflexivity.
  - destruct (String.eqb k k0) eqn:E; cbn [map_get].
    + apply String.eqb_eq in E. subst k0.
      replace (String.eqb k' k) with false
        by (symmetry; apply String.eqb_neq; exact Hne).
      reflexivity.
    + destruct (String.eqb k' k0); [reflexivity | exact IH].
Qed.

Lemma map_get_delete_same (s : MessageStore) (k : string) :
  map_get (map_delete s k) k = None.
Proof.
  induction s as [| [k' v'] s IH]; cbn [map_delete map_get]; [reflexivity |].
  destruct (String.eqb k k') eqn:E; [exact IH |].
  cbn [map_get]. rewrite E. exact IH.
Qed.

Lemma map_get_delete_other (s : MessageStore) (k k' : string) :
  k' <> k -> map_get (map_delete s k) k' = map_get s k'.
Proof.
  intros Hne. induction s as [| [k0 v0] s IH]; cbn [map_delete map_get];
    [reflexivity |].
  destruct (String.eqb k k0) eqn:E.
  - apply String.eqb_eq in E. subst k0.
    replace (String.eqb k' k) with false
      by (symmetry; apply String.eqb_neq; exact Hne).
    exact IH.
  - cbn [map_get]. destruct (String.eqb k' k0); [reflexivity | exact IH].
Qed.

Lemma falsy_false_iff (v : option string) :
  falsy v = false <-> exists s, v = Some s /\ s <> EmptyString.
Proof.
  unfold falsy. destruct v as [s |].
  - split.
    + intros E. exists s. split; [reflexivity |]. apply String.eqb_neq. exact E.
    + intros (s' & Hs & Hne). injection Hs as <-. apply String.eqb_neq. exact Hne.
  - split; [discriminate | intros (s & Hs & _); discriminate].
Qed.

Section ServerFacts.
Context `{Platform}.

(** What [POST /api/messages] does with a body that passes its
    validation. *)
Lemma postMessage_accepts (store : MessageStore) (m : ServerMessage)
  (id : string) (lb : LocationBinding) :
  msg_id m = Some id -> id <> EmptyString ->
  falsy (msg_encryptedPayload m) = false ->
  falsy (msg_wrappedKey m) = false ->
  msg_locationBinding m = Some lb ->
  postMessage store m =
    (match msg_metadata m with
     | Some md => Stored id (expiresAt md)
     | None => InternalError
     end, map_set store id m).
Proof.
  intros Hid Hne Hpayload Hwrapped Hlb. unfold postMessage.
  assert (Hfid : falsy (msg_id m) = false).
  { apply falsy_false_iff. exists id. split; assumption. }
  rewrite Hfid, Hpayload, Hwrapped, Hlb, Hid. cbn [orb].
  destruct (msg_metadata m); reflexivity.
Qed.

Lemma lookupLive_live (now : Z) (store : MessageStore) (id : string)
  (m : ServerMessage) (md : MessageMetadata) :
  map_get store id = Some m -> msg_metadata m = Some md ->
  isExpired now md = false ->
  lookupLive now store id = inl (m, md).
Proof.
  intros Hget Hmd Hlive. unfold lookupLive. rewrite Hget, Hmd, Hlive. reflexivity.
Qed.

Lemma lookupLive_expired (now : Z) (store : MessageStore) (id : string)
  (m : ServerMessage) (md : MessageMetadata) :
  map_get store id = Some m -> msg_metadata m = Some md ->
  isExpired now md = true ->
  lookupLive now store id = inr (Gone, map_delete store id).
Proof.
  intros Hget Hmd Hexp. unfold lookupLive. rewrite Hget, Hmd, Hexp. reflexivity.
Qed.

Lemma lookupLive_absent (now : Z) (store : MessageStore) (id : string) :
  map_get store id = None ->
  lookupLive now store id = inr (NotFound, store).
Proof. intros Hget. unfold lookupLive. rewrite Hget. reflexivity. Qed.

Lemma lookupLive_no_metadata (now : Z) (store : MessageStore) (id : string)
  (m : ServerMessage) :
  map_get store id = Some m -> msg_metadata m = None ->
  lookupLive now store id = inr (InternalError, store).
Proof. intros Hget Hmd. unfold lookupLive. rewrite Hget, Hmd. reflexivity. Qed.

End ServerFacts.

Lemma isExpired_true_iff (now : Z) (md : MessageMetadata) :
  isExpired now md = true <->
  exists e, expiresAt md = Some e /\ e <> 0%Z /\ (e < now)%Z.
Proof.
  unfold isExpired. destruct (expiresAt md) as [e |].
  - rewrite andb_true_iff, negb_true_iff, Z.eqb_neq, Z.ltb_lt. split.
    + intros [Hne Hlt]. exists e. auto.
    + intros (e' & He & Hne & Hlt). injection He as <-. auto.
  - split; [discriminate | intros (e & He & _); discriminate].
Qed.

(* ================================================================== *)
(** * The REST handlers *)
(* ================================================================== *)

(** X23.  A body that passes the validation of [POST /api/messages] is
    stored under its identifier, replacing what was there; until it
    expires, the two reading handlers return it unchanged, and the
    messages under other identifiers are as before. *)
Theorem X23_stored_message_is_returned :
  forall (now : Z) (store : MessageStore) (m : ServerMessage)
         (id : string) (lb : LocationBinding) (md : MessageMetadata),
    msg_id m = Some id -> id <> EmptyString ->
    falsy (msg_encryptedPayload m) = false ->
    falsy (msg_wrappedKey m) = false ->
    msg_locationBinding m = Some lb ->
    msg_metadata m = Some md ->
    isExpired now md = false ->
    let store' := snd (postMessage store m) in
    fst (postMessage store m) = Stored id (expiresAt md) /\
    getEncrypted now store' id = (Encrypted m, store') /\
    getMessage now store' id
      = (Metadata (Some id) (Some lb) md
                  (msg_senderPublicKey m) (msg_recipientPublicKey m), store') /\
    (forall id', id' <> id -> map_get store' id' = map_get store id').
Proof.
  intros now store m id lb md Hid Hne Hpayload Hwrapped Hlb Hmd Hlive store'.
  subst store'.
  rewrite (postMessage_accepts store m id lb Hid Hne Hpayload Hwrapped Hlb), Hmd.
  cbn [fst snd].
  pose proof (lookupLive_live now (map_set store id m) id m md
                (map_get_set_same store id m) Hmd Hlive) as Hlook.
  split; [reflexivity |].
  split; [unfold getEncrypted; rewrite Hlook; reflexivity |].
  split; [unfold getMessage; rewrite Hlook, Hid, Hlb; reflexivity |].
  intros id' Hother. apply map_get_set_other. exact Hother.
Qed.

Lemma X23_stored_message_is_returned_witness :
  let m := demoMessage (Some (demoMetadata (Some 5000%Z))) in
  let store' := snd (postMessage [] m) in
  fst (postMessage [] m) = Stored "msg-1" (Some 5000%Z) /\
  getEncrypted 4000 store' "msg-1" = (Encrypted m, store') /\
  getMessage 4000 store' "msg-1"
    = (Metadata (Some "msg-1"%string) (Some demoBinding) (demoMetadata (Some 5000%Z))
                (msg_senderPublicKey m) (msg_recipientPublicKey m), store') /\
  (forall id', id' <> "msg-1"%string -> map_get store' id' = map_get [] id').
Proof.
  intros m.
  apply (X23_stored_message_is_returned 4000 [] m "msg-1"
           demoBinding (demoMetadata (Some 5000%Z)));
    try reflexivity.
  discriminate.
Defined.

(** X24.  A stored message has expired exactly when its expiry time is
    present, is not 0 and lies before the clock.  The first request
    for an expired message, by any of the three handlers, answers 410
    and deletes it, so that the next request answers 404; a message
    that has not expired is returned. *)
Theorem X24_expired_message_is_deleted :
  forall (P : Platform) (now now' : Z) (store : MessageStore) (id : string)
         (m : ServerMessage) (md : MessageMetadata) (a : LocationAttestation),
    map_get store id = Some m ->
    msg_metadata m = Some md ->
    let expired :=
      exists e, expiresAt md = Some e /\ e <> 0 /\ e < now in
    let store' := map_delete store id in
    (expired ->
     getMessage now store id = (Gone, store') /\
     getEncrypted now store id = (Gone, store') /\
     unlockMessage now now' store id a = (Gone, store') /\
     getMessage now store' id = (NotFound, store') /\
     getEncrypted now store' id = (NotFound, store') /\
     unlockMessage now now' store' id a = (NotFound, store')) /\
    (~ expired -> getEncrypted now store id = (Encrypted m, store)).
Proof.
  intros P now now' store id m md a Hget Hmd expired store'. subst expired store'.
  split.
  - intros Hexp. apply isExpired_true_iff in Hexp.
    pose proof (lookupLive_expired now store id m md Hget Hmd Hexp) as Hgone.
    pose proof (lookupLive_absent now (map_delete store id) id
                  (map_get_delete_same store id)) as Habsent.
    unfold getMessage, getEncrypted, unlockMessage.
    rewrite Hgone, Habsent. repeat split.
  - intros Hlive.
    assert (Hfalse : isExpired now md = false).
    { apply not_true_is_false. intros E. apply Hlive.
      apply isExpired_true_iff. exact E. }
    unfold getEncrypted.
    rewrite (lookupLive_live now store id m md Hget Hmd Hfalse). reflexivity.
Qed.

Lemma X24_expired_message_is_deleted_witness :
  let m := demoMessage (Some (demoMetadata (Some 5000%Z))) in
  let store := [("msg-1"%string, m)] in
  let a := demoAttestation "pk" 6000 None in
  (exists e, Some 5000 = Some e /\ e <> 0 /\ e < 6000) /\
  getEncrypted 6000 store "msg-1" = (Gone, []) /\
  unlockMessage (H := demoPlatform) 6000 6000 store "msg-1" a = (Gone, []) /\
  getEncrypted 6000 [] "msg-1" = (NotFound, []).
Proof.
  intros m store a.
  assert (Hexp : exists e, Some 5000 = Some e /\ e <> 0 /\ e < 6000)
    by (exists 5000; repeat split; lia).
  split; [exact Hexp |].
  destruct (X24_expired_message_is_deleted demoPlatform 6000 6000 store "msg-1"
              m (demoMetadata (Some 5000%Z)) a eq_refl eq_refl)
    as [Hgone _].
  destruct (Hgone Hexp) as (_ & Hg2 & Hg3 & _ & Hg5 & _).
  split; [exact Hg2 |]. split; [exact Hg3 | exact Hg5].
Defined.

Local Open Scope R_scope.

(** X26.  A body without [metadata] passes the validation: the server
    answers 500 but has stored the message, and from then on every
    request that reads it answers 500, at any time. *)
Theorem X26_message_without_metadata :
  forall (P : Platform) (now now' : Z) (store : MessageStore) (m : ServerMessage)
         (id : string) (lb : LocationBinding) (a : LocationAttestation),
    msg_id m = Some id -> id <> EmptyString ->
    falsy (msg_encryptedPayload m) = false ->
    falsy (msg_wrappedKey m) = false ->
    msg_locationBinding m = Some lb ->
    msg_metadata m = None ->
    let store' := snd (postMessage store m) in
    fst (postMessage store m) = InternalError /\
    map_get store' id = Some m /\
    getMessage now store' id = (InternalError, store') /\
    getEncrypted now store' id = (InternalError, store') /\
    unlockMessage now now' store' id a = (InternalError, store').
Proof.
  intros P now now' store m id lb a Hid Hne Hpayload Hwrapped Hlb Hmd store'.
  subst store'.
  rewrite (postMessage_accepts store m id lb Hid Hne Hpayload Hwrapped Hlb), Hmd.
  cbn [fst snd].
  pose proof (map_get_set_same store id m) as Hget.
  pose proof (lookupLive_no_metadata now (map_set store id m) id m Hget Hmd)
    as Hlook.
  unfold getMessage, getEncrypted, unlockMessage. rewrite Hlook.
  repeat split. exact Hget.
Qed.

Lemma X26_message_without_metadata_witness :
  let m := demoMessage None in
  let a := demoAttestation "pk" 1000 None in
  let store' := snd (postMessage [] m) in
  fst (postMessage [] m) = InternalError /\
  map_get store' "msg-1" = Some m /\
  getMessage 1000 store' "msg-1" = (InternalError, store') /\
  getEncrypted 1000 store' "msg-1" = (InternalError, store') /\
  unlockMessage (H := demoPlatform) 1000 1000 store' "msg-1" a
    = (InternalError, store').
Proof.
  intros m a.
  apply (X26_message_without_metadata demoPlatform 1000 1000 [] m "msg-1"
           demoBinding a); try reflexivity.
  discriminate.
Defined.

(** X27.  Deleting a stored message answers 200 and removes it, so
    that it is not found afterwards; deleting an unknown identifier
    answers 404 and changes nothing; the messages under other
    identifiers stay as they are. *)
Theorem X27_delete_message :
  forall (now : Z) (store : MessageStore) (id : string),
    let answer := deleteMessage store id in
    (map_get store id <> None -> fst answer = Deleted) /\
    (map_get store id = None -> answer = (NotFound, store)) /\
    getEncrypted now (snd answer) id = (NotFound, snd answer) /\
    deleteMessage (snd answer) id = (NotFound, snd answer) /\
    (forall id', id' <> id -> map_get (snd answer) id' = map_get store id').
Proof.
  intros now store id answer. subst answer. unfold deleteMessage.
  destruct (map_get store id) as [m |] eqn:Hget; cbn [fst snd].
  - split; [reflexivity |]. split; [discriminate |].
    pose proof (map_get_delete_same store id) as Hnone.
    unfold getEncrypted. rewrite (lookupLive_absent now _ id Hnone), Hnone.
    repeat split. intros id' Hother. apply map_get_delete_other. exact Hother.
  - split; [congruence |]. split; [reflexivity |].
    unfold getEncrypted. rewrite (lookupLive_absent now _ id Hget), Hget.
    repeat split.
Qed.

(** X28.  [POST /api/messages] answers 400 exactly when the body has no
    identifier, payload or wrapped key (or an empty one) or no location
    binding; a refused body leaves the store unchanged. *)
Theorem X28_post_validation :
  forall (store : MessageStore) (m : ServerMessage),
    let refused :=
      falsy (msg_id m) = true \/ falsy (msg_encryptedPayload m) = true \/
      falsy (msg_wrappedKey m) = true \/ msg_locationBinding m = None in
    ((exists error, fst (postMessage store m) = BadRequest error) <-> refused) /\
    (refused -> snd (postMessage store m) = store).
Proof.
  intros store m refused. subst refused. unfold postMessage.
  destruct (falsy (msg_id m)) eqn:Hid.
  { cbn. split; [split; [auto | eauto] | reflexivity]. }
  destruct (falsy (msg_encryptedPayload m)) eqn:Hp.
  { cbn. split; [split; [auto | eauto] | reflexivity]. }
  destruct (falsy (msg_wrappedKey m)) eqn:Hw.
  { cbn. split; [split; [auto | eauto] | reflexivity]. }
  cbn [orb].
  destruct (msg_locationBinding m) as [lb |].
  - apply falsy_false_iff in Hid. destruct Hid as (id & Hid & _). rewrite Hid.
    destruct (msg_metadata m); cbn [fst snd]; split;
      try (split; [intros [e He]; discriminate
                  | intros [E | [E | [E | E]]]; discriminate]);
      intros [E | [E | [E | E]]]; discriminate.
  - cbn. split; [split; [auto | eauto] | reflexivity].
Qed.

(* ================================================================== *)
(** * The client's view of a message *)
(* ================================================================== *)

(** X29.  The viewer shows a message as unlockable exactly when the
    clock is inside the window of the binding and the user is within
    its radius, which is when an attestation made there and then would
    pass the window and geofence checks of the pipeline; before the
    window it shows it as not yet active, after it as expired, and a
    window that ends before it starts is never unlockable. *)
Theorem X29_status_of_message :
  forall (m : StoredMessage) (now : Z) (userLat userLon : R),
    let b := locationBinding m in
    let status := getStatus (Some m) now userLat userLon in
    (status = UNLOCKABLE <->
     isWithinTimeWindow now (lb_windowStart b) (lb_windowEnd b) = true /\
     fst (isWithinGeofence userLat userLon (lb_latitude b) (lb_longitude b)
            (lb_radiusMeters b)) = true) /\
    (status = NOT_YET_ACTIVE <-> (now < lb_windowStart b)%Z) /\
    (status = EXPIRED <-> (lb_windowStart b <= now)%Z /\ (lb_windowEnd b < now)%Z) /\
    ((lb_windowEnd b < lb_windowStart b)%Z -> status <> UNLOCKABLE) /\
    getStatus None now userLat userLon = UNKNOWN.
Proof.
  intros m now userLat userLon b status. subst status.
  unfold getStatus, isWithinTimeWindow, isWithinGeofence. fold b. cbn [fst].
  destruct (now <? lb_windowStart b)%Z eqn:E1.
  { apply Z.ltb_lt in E1.
    replace (lb_windowStart b <=? now)%Z with false
      by (symmetry; apply Z.leb_gt; exact E1).
    cbn [andb]. repeat split;
      solve [discriminate | tauto | lia | intros [? ?]; discriminate]. }
  apply Z.ltb_ge in E1.
  replace (lb_windowStart b <=? now)%Z with true
    by (symmetry; apply Z.leb_le; exact E1).
  destruct (lb_windowEnd b <? now)%Z eqn:E2.
  { apply Z.ltb_lt in E2.
    replace (now <=? lb_windowEnd b)%Z with false
      by (symmetry; apply Z.leb_gt; exact E2).
    cbn [andb]. repeat split;
      solve [discriminate | tauto | lia | intros [? ?]; discriminate]. }
  apply Z.ltb_ge in E2.
  replace (now <=? lb_windowEnd b)%Z with true
    by (symmetry; apply Z.leb_le; exact E2).
  cbn [andb].
  destruct (num_le _ (lb_radiusMeters b)); repeat split;
    solve [discriminate | tauto | lia | intros [? ?]; discriminate
          | intros [? ?]; lia].
Qed.

(** X30.  The list shows a message as expired exactly when its expiry
    lies before the clock, which for an expiry other than 0 is when the
    server answers 410; otherwise it shows whole hours and minutes that
    are not negative, with less than 60 minutes, and that fall short of
    the time left by less than one minute. *)
Theorem X30_time_left :
  forall now expires : Z,
    (getTimeLeft now expires = TimeExpired <-> (expires < now)%Z) /\
    (forall md, expiresAt md = Some expires -> expires <> 0%Z ->
       (getTimeLeft now expires = TimeExpired <-> isExpired now md = true)) /\
    ((now <= expires)%Z ->
     exists hours mins,
       getTimeLeft now expires = HoursMinutes hours mins /\
       (0 <= hours)%Z /\ (0 <= mins < 60)%Z /\
       (hours * 3600000 + mins * 60000 <= expires - now
        < hours * 3600000 + mins * 60000 + 60000)%Z).
Proof.
  intros now expires.
  assert (Hexp : getTimeLeft now expires = TimeExpired <-> (expires < now)%Z).
  { unfold getTimeLeft. destruct (expires - now <? 0)%Z eqn:E.
    - apply Z.ltb_lt in E. split; [lia | reflexivity].
    - apply Z.ltb_ge in E. split; [discriminate | lia]. }
  split; [exact Hexp |].
  split.
  { intros md Hmd Hne. rewrite Hexp, isExpired_true_iff. split.
    - intros Hlt. exists expires. auto.
    - intros (e & He & _ & Hlt). congruence. }
  intros Hle. unfold getTimeLeft.
  replace (expires - now <? 0)%Z with false by (symmetry; apply Z.ltb_ge; lia).
  do 2 eexists. split; [reflexivity |].
  change (1000 * 60 * 60)%Z with 3600000%Z. change (1000 * 60)%Z with 60000%Z.
  rewrite Z.rem_mod_nonneg by lia.
  Z.div_mod_to_equations. lia.
Qed.

(* ================================================================== *)
(** * The signature check that throws *)
(* ================================================================== *)

Local Open Scope R_scope.

Section ExnFacts.
Context `{Platform} `{Base64Validation}.


(** When the check returns, it returns what [verifyAttestationSignature]
    above computes, and the pipeline goes on as above. *)
Lemma Exn_signature_returns (a : LocationAttestation) (ok : bool) :
  Exn.verifyAttestationSignature a = Some ok -> verifyAttestationSignature a = ok.
Proof.
  unfold Exn.verifyAttestationSignature, Exn.verifySignature,
    Exn.util_decodeBase64, Exn.sign_detached_verify,
    verifyAttestationSignature, verifySignature.
  destruct (validateBase64 (signature a)); [| discriminate].
  destruct (validateBase64 (devicePublicKey a)); [| discriminate].
  destruct (negb _); [discriminate |].
  destruct (negb _); [discriminate |].
  intros E. injection E as <-. reflexivity.
Qed.

Lemma Exn_pipeline_returns (now : Z) (a : LocationAttestation)
  (config : VerificationConfig) (ok : bool) :
  Exn.verifyAttestationSignature a = Some ok ->
  Exn.verifyLocationAttestation now a config
  = Some (verifyLocationAttestation now a config).
Proof.
  intros E. unfold Exn.verifyLocationAttestation, verifyLocationAttestation.
  rewrite E, (Exn_signature_returns a ok E). reflexivity.
Qed.

Lemma Exn_pipeline_throws (now : Z) (a : LocationAttestation)
  (config : VerificationConfig) :
  Exn.verifyAttestationSignature a = None ->
  Exn.verifyLocationAttestation now a config = None.
Proof.
  intros E. unfold Exn.verifyLocationAttestation. rewrite E. reflexivity.
Qed.

Variable now : Z.
Variable a : LocationAttestation.
Variable config : VerificationConfig.

Let sigOk : option bool := Exn.verifyAttestationSignature a.
Let r : option VerificationResult := Exn.verifyLocationAttestation now a config.
Let fresh : bool :=
  isAttestationFresh now (timestamp a) (nullish (maxAttestationAgeSec config) 300).
Let inWindow : bool :=
  isWithinTimeWindow (timestamp a) (windowStart config) (windowEnd config).
Let d : R := geofenceDistance a config.
Let within : bool := num_le d (radiusMeters config).
Let plausibility (h : list LocationPoint) : PlausibilityResult :=
  checkMovementPlausibility h (nullish (maxSpeedMps config) 200).
Let presence (h : list LocationPoint) : PresenceResult :=
  verifyContinuousPresence h (targetLat config) (targetLon config)
    (radiusMeters config) (nullish (continuousPresenceDurationSec config) 30).
Let stage5_passes : Prop :=
  forall h, movementHistory a = Some h -> (2 <= List.length h)%nat ->
            plausible (plausibility h) = true.

Lemma Exn_stage1 : sigOk = Some false -> r = Some rejectedAt1.
Proof.
  intros Hs. subst r. rewrite (Exn_pipeline_returns now a config false Hs).
  f_equal. apply pipeline_stage1. exact (Exn_signature_returns a false Hs).
Qed.

Lemma Exn_stage2 :
  sigOk = Some true -> fresh = false -> r = Some (rejectedAt2 a config).
Proof.
  intros Hs Hf. subst r. rewrite (Exn_pipeline_returns now a config true Hs).
  f_equal. apply pipeline_stage2; [exact (Exn_signature_returns a true Hs) | exact Hf].
Qed.

Lemma Exn_stage3 :
  sigOk = Some true -> fresh = true -> inWindow = false ->
  r = Some (rejectedAt3 a).
Proof.
  intros Hs Hf Hw. subst r. rewrite (Exn_pipeline_returns now a config true Hs).
  f_equal.
  apply pipeline_stage3; [exact (Exn_signature_returns a true Hs) | exact Hf | exact Hw].
Qed.

Lemma Exn_stage4 :
  sigOk = Some true -> fresh = true -> inWindow = true -> within = false ->
  r = Some (rejectedAt4 a config).
Proof.
  intros Hs Hf Hw Hg. subst r. rewrite (Exn_pipeline_returns now a config true Hs).
  f_equal.
  apply pipeline_stage4;
    [exact (Exn_signature_returns a true Hs) | exact Hf | exact Hw | exact Hg].
Qed.

Lemma Exn_late :
  sigOk = Some true -> fresh = true -> inWindow = true -> within = true ->
  r = Some match checkStep5 a config d with
           | Some r5 => r5
           | None => match checkStep6 a config d with
                     | Some r6 => r6
                     | None => accepted a config
                     end
           end.
Proof.
  intros Hs Hf Hw Hg. subst r. rewrite (Exn_pipeline_returns now a config true Hs).
  f_equal.
  apply pipeline_late;
    [exact (Exn_signature_returns a true Hs) | exact Hf | exact Hw | exact Hg].
Qed.

Lemma Exn_stage5 :
  sigOk = Some true -> fresh = true -> inWindow = true -> within = true ->
  forall h, movementHistory a = Some h -> (2 <= List.length h)%nat ->
    plausible (plausibility h) = false ->
    r = Some {| valid := false;
                reason := plausibility_reason (plausibility h);
                attestation := Some a;
                distance := Some d |}.
Proof.
  intros Hs Hf Hw Hg h Hh Hlen Hp.
  rewrite (Exn_late Hs Hf Hw Hg). unfold checkStep5. rewrite Hh.
  replace (2 <=? List.length h)%nat with true
    by (symmetry; apply Nat.leb_le; exact Hlen).
  fold (plausibility h). rewrite Hp. reflexivity.
Qed.

Lemma Exn_stage6 :
  sigOk = Some true -> fresh = true -> inWindow = true -> within = true ->
  stage5_passes ->
  forall h, movementHistory a = Some h ->
    requireContinuousPresence config = Some true ->
    verified (presence h) = false ->
    r = Some {| valid := false;
                reason := presence_reason (presence h);
                attestation := Some a;
                distance := Some d |}.
Proof.
  intros Hs Hf Hw Hg H5 h Hh Hreq Hp.
  rewrite (Exn_late Hs Hf Hw Hg).
  apply (checkStep5_none_iff a config) in H5. fold d in H5. rewrite H5.
  unfold checkStep6. rewrite Hreq, Hh. cbn [truthy].
  fold (presence h). rewrite Hp. reflexivity.
Qed.


(** A rejection names its stage, and carries the distance from the
    geofence stage on. *)
Lemma Exn_rejection_distance (res : VerificationResult) :
  r = Some res -> valid res = false ->
  exists rs, reason res = Some rs /\
    ((4 <= stageOf rs)%nat -> distance res = Some d) /\
    ((stageOf rs < 4)%nat -> distance res = None).
Proof.
  intros Hr Hv. subst r.
  destruct (Exn.verifyAttestationSignature a) as [ok |] eqn:Hs.
  2:{ rewrite (Exn_pipeline_throws now a config Hs) in Hr. discriminate. }
  rewrite (Exn_pipeline_returns now a config ok Hs) in Hr. injection Hr as <-.
  destruct (pipeline_outcome now a config) as [[Hv' _] | [_ (rs & Hrs & Hd)]];
    [congruence |].
  exists rs. split; [exact Hrs |].
  destruct Hd as [[Hlt Hnone] | [Hge Hsome]]; split; intros; try lia; assumption.
Qed.

End ExnFacts.




(** C6.  Each rejection of the signature, the freshness or the
    time-window check carries no distance; the rejection of the
    geofence check, of the plausibility check and of the presence check
    carries the distance computed at the geofence stage.  Conversely a
    rejection whose reason belongs to stage 4 or later carries that
    distance, and one whose reason belongs to an earlier stage carries
    none. *)
Theorem C6_distance_on_rejection :
  forall (P : Platform) (V : Base64Validation) (now : Z)
         (a : LocationAttestation) (config : VerificationConfig),
    let r := Exn.verifyLocationAttestation now a config in
    let sigOk := Exn.verifyAttestationSignature a in
    let maxAge := nullish (maxAttestationAgeSec config) 300 in
    let fresh := isAttestationFresh now (timestamp a) maxAge in
    let inWindow := isWithinTimeWindow (timestamp a)
                      (windowStart config) (windowEnd config) in
    let within := fst (isWithinGeofence (latitude a) (longitude a)
                         (targetLat config) (targetLon config)
                         (radiusMeters config)) in
    let d := calculateDistance (latitude a) (longitude a)
               (targetLat config) (targetLon config) in
    let limit := nullish (maxSpeedMps config) 200 in
    let required := nullish (continuousPresenceDurationSec config) 30 in
    let plausibility h := checkMovementPlausibility h limit in
    let presence h :=
      verifyContinuousPresence h (targetLat config) (targetLon config)
        (radiusMeters config) required in
    let stage5_passes :=
      forall h, movementHistory a = Some h -> (2 <= List.length h)%nat ->
                plausible (plausibility h) = true in
    (* before the geofence stage: no distance *)
    (sigOk = Some false ->
     exists res, r = Some res /\ valid res = false /\
       reason res = Some InvalidSignature /\ distance res = None) /\
    (sigOk = Some true -> fresh = false ->
     exists res, r = Some res /\ valid res = false /\
       reason res = Some (AttestationTooOld maxAge) /\ distance res = None) /\
    (sigOk = Some true -> fresh = true -> inWindow = false ->
     exists res, r = Some res /\ valid res = false /\
       reason res = Some OutsideTimeWindow /\ distance res = None) /\
    (* at the geofence stage and after it: the distance *)
    (sigOk = Some true -> fresh = true -> inWindow = true -> within = false ->
     exists res, r = Some res /\ valid res = false /\
       reason res = Some (OutsideGeofence d (radiusMeters config)) /\
       distance res = Some d) /\
    (sigOk = Some true -> fresh = true -> inWindow = true -> within = true ->
     forall h, movementHistory a = Some h -> (2 <= List.length h)%nat ->
       plausible (plausibility h) = false ->
       exists res s, r = Some res /\ valid res = false /\
         reason res = Some (ImpossibleSpeed s limit) /\
         distance res = Some d) /\
    (sigOk = Some true -> fresh = true -> inWindow = true -> within = true ->
     stage5_passes ->
     forall h, movementHistory a = Some h ->
       requireContinuousPresence config = Some true ->
       verified (presence h) = false ->
       exists res, r = Some res /\ valid res = false /\
         (reason res = Some NoMovementHistory \/
          exists s, reason res = Some (InsufficientPresence s required)) /\
         distance res = Some d) /\
    (* read off the result *)
    (forall res, r = Some res -> valid res = false ->
       exists rs, reason res = Some rs /\
         ((4 <= stageOf rs)%nat -> distance res = Some d) /\
         ((stageOf rs < 4)%nat -> distance res = None)).
Proof.
  intros P V now a config r sigOk maxAge fresh inWindow within d limit required
         plausibility presence stage5_passes.
  subst r sigOk maxAge fresh inWindow within limit required plausibility presence
        stage5_passes.
  unfold isWithinGeofence; cbn [fst].
  change (calculateDistance (latitude a) (longitude a)
            (targetLat config) (targetLon config))
    with (geofenceDistance a config) in *.
  split.
  { intros Hs. rewrite (Exn_stage1 now a config Hs).
    eexists. split; [reflexivity |]. cbn. auto. }
  split.
  { intros Hs Hf. rewrite (Exn_stage2 now a config Hs Hf).
    eexists. split; [reflexivity |]. cbn. auto. }
  split.
  { intros Hs Hf Hw. rewrite (Exn_stage3 now a config Hs Hf Hw).
    eexists. split; [reflexivity |]. cbn. auto. }
  split.
  { intros Hs Hf Hw Hg. rewrite (Exn_stage4 now a config Hs Hf Hw Hg).
    eexists. split; [reflexivity |]. cbn. auto. }
  split.
  { intros Hs Hf Hw Hg h Hh Hlen Hp.
    rewrite (Exn_stage5 now a config Hs Hf Hw Hg h Hh Hlen Hp).
    destruct (checkMovementPlausibility_reason _ _ Hp) as [s Hreason].
    eexists. exists s. split; [reflexivity |]. cbn. auto. }
  split.
  { intros Hs Hf Hw Hg H5 h Hh Hreq Hp.
    rewrite (Exn_stage6 now a config Hs Hf Hw Hg H5 h Hh Hreq Hp).
    pose proof (verifyContinuousPresence_reason _ _ _ _ _ Hp) as Hreason.
    eexists. split; [reflexivity |]. cbn. auto. }
  intros res Hr Hv. subst d.
  exact (Exn_rejection_distance now a config res Hr Hv).
Qed.

(** A rejection of stage 4: valid signature, fresh, inside the window,
    at the antipode of the target; the result names the geofence and
    carries the distance, half the circumference. *)
Lemma C6_distance_on_rejection_witness :
  let a := signedAttestation demoSignature 1000 None in
  let config := demoConfig 180 None in
  exists res,
    Exn.verifyLocationAttestation (H := demoPlatform64) (H0 := demoValidation)
      1000 a config = Some res /\
    valid res = false /\
    reason res = Some (OutsideGeofence (6371000 * PI) 100) /\
    distance res = Some (6371000 * PI).
Proof.
  intros a config.
  pose proof (C6_distance_on_rejection demoPlatform64 demoValidation 1000 a config)
    as Hall.
  cbv zeta in Hall. destruct Hall as (_ & _ & _ & Hgeo & _).
  cbn [latitude longitude targetLat targetLon radiusMeters a config
       signedAttestation demoConfig] in Hgeo.
  rewrite calculateDistance_antipode in Hgeo.
  apply Hgeo.
  - reflexivity.
  - apply isAttestationFresh_iff. subst a config.
    cbn [nullish maxAttestationAgeSec demoConfig timestamp signedAttestation].
    split; [lia |]. change (1000 - 1000)%Z with 0%Z. lra.
  - reflexivity.
  - unfold isWithinGeofence; cbn [fst].
    apply num_le_false_iff. rewrite calculateDistance_antipode.
    pose proof antipode_is_far as Hfar. rewrite calculateDistance_antipode in Hfar.
    exact Hfar.
Defined.

(* ================================================================== *)
(** * The derivation in the browser, which throws on a malformed secret *)
(* ================================================================== *)

Section ExnDeriveFacts.
Context `{Platform} `{Base64Validation}.

Lemma Exn_deriveKey_browser (sharedSecret : string) (b : LocationBinding) :
  Exn.deriveKey_browser sharedSecret b
  = if validateBase64 sharedSecret then deriveKey_backend sharedSecret b else None.
Proof.
  rewrite <- deriveKey_agree.
  unfold Exn.deriveKey_browser, Exn.browser_deriveLocationBoundKey,
    Exn.browser_hkdf, Exn.util_decodeBase64,
    deriveKey_browser, Browser.deriveLocationBoundKey, Browser.hkdf.
  destruct (validateBase64 sharedSecret); reflexivity.
Qed.

End ExnDeriveFacts.

(** C7.  Key derivation is a function of what it reads of its inputs,
    the bytes of the secret and the six encoded fields of the binding:
    two calls whose inputs agree on these, and so any two calls on
    identical inputs, have the same outcome.  On the server that is a
    key of 32 bytes, whatever the text of the secret.  In the browser it
    is the same key when the text of the secret is padded base64 (as
    every encoded secret is), and an exception when it is not. *)
Theorem C7_key_derivation_deterministic :
  forall (P : Platform) (V : Base64Validation)
         (s1 s2 : string) (b1 b2 : LocationBinding),
    (forall k m, List.length (HMAC_SHA256 k m) = 32%nat) ->
    decodeBase64 s1 = decodeBase64 s2 ->
    validateBase64 s1 = validateBase64 s2 ->
    toFixed (lb_latitude b1) 6 = toFixed (lb_latitude b2) 6 ->
    toFixed (lb_longitude b1) 6 = toFixed (lb_longitude b2) 6 ->
    lb_radiusMeters b1 = lb_radiusMeters b2 ->
    lb_windowStart b1 = lb_windowStart b2 ->
    lb_windowEnd b1 = lb_windowEnd b2 ->
    lb_nonce b1 = lb_nonce b2 ->
    exists key : bytes,
      List.length key = 32%nat /\
      deriveKey_backend s1 b1 = Some key /\
      deriveKey_backend s2 b2 = Some key /\
      Exn.deriveKey_browser s1 b1 = (if validateBase64 s1 then Some key else None) /\
      Exn.deriveKey_browser s2 b2 = (if validateBase64 s1 then Some key else None).
Proof.
  intros P V s1 s2 b1 b2 Hlen Hs Hv Hlat Hlon Hr Hstart Hend Hnonce.
  rewrite !Exn_deriveKey_browser, <- Hv.
  rewrite (deriveKey_backend_value s1 b1 Hlen), (deriveKey_backend_value s2 b2 Hlen).
  rewrite <- Hs, <- Hlat, <- Hlon, <- Hr, <- Hstart, <- Hend, <- Hnonce.
  eexists. split; [apply Hlen |]. repeat split.
Qed.

(** Two calls on the binding of the specification's scenario: with a
    well-formed secret the server and the browser return one key of 32
    bytes; with the unpadded text 'c2VjcmV0MQ' the server returns a key
    and the browser throws. *)
Lemma C7_key_derivation_deterministic_witness :
  let b := {| lb_latitude := 18.5204; lb_longitude := 73.8567;
              lb_radiusMeters := 100; lb_windowStart := 1000;
              lb_windowEnd := 2000; lb_nonce := "test-nonce" |} in
  (exists key : bytes,
     List.length key = 32%nat /\
     deriveKey_backend (H := demoPlatform) "c2VjcmV0" b = Some key /\
     Exn.deriveKey_browser (H := demoPlatform) (H0 := demoValidation) "c2VjcmV0" b
     = Some key) /\
  (exists key : bytes,
     List.length key = 32%nat /\
     deriveKey_backend (H := demoPlatform) "c2VjcmV0MQ" b = Some key /\
     Exn.deriveKey_browser (H := demoPlatform) (H0 := demoValidation) "c2VjcmV0MQ" b
     = None).
Proof.
  intros b. split.
  - destruct (C7_key_derivation_deterministic demoPlatform demoValidation
                "c2VjcmV0" "c2VjcmV0" b b demo_HMAC_length
                eq_refl eq_refl eq_refl eq_refl eq_refl eq_refl eq_refl eq_refl)
      as (key & Hlen & Hserver & _ & Hbrowser & _).
    exists key. split; [exact Hlen |]. split; [exact Hserver | exact Hbrowser].
  - destruct (C7_key_derivation_deterministic demoPlatform demoValidation
                "c2VjcmV0MQ" "c2VjcmV0MQ" b b demo_HMAC_length
                eq_refl eq_refl eq_refl eq_refl eq_refl eq_refl eq_refl eq_refl)
      as (key & Hlen & Hserver & _ & Hbrowser & _).
    exists key. split; [exact Hlen |]. split; [exact Hserver | exact Hbrowser].
Defined.

(** X21.  The location-bound key is one block of HKDF: the HMAC, under
    the key HMAC(salt, secret) with the salt
    'LocationBoundMessaging-v1' and the secret decoded from base64, of
    the JSON text of the binding followed by the byte 1.  The server
    returns it for every text of the secret; the browser returns the
    same key when that text is padded base64, and throws when it is
    not. *)
Theorem X21_derived_key_value :
  forall (P : Platform) (V : Base64Validation)
         (sharedSecret : string) (b : LocationBinding),
    (forall k m, List.length (HMAC_SHA256 k m) = 32%nat) ->
    let salt := list_byte_of_string "LocationBoundMessaging-v1" in
    let locationInfo := JSON_stringify
      [ ("lat"%string, JSString (toFixed (lb_latitude b) 6));
        ("lon"%string, JSString (toFixed (lb_longitude b) 6));
        ("radius"%string, JSNumber (lb_radiusMeters b));
        ("start"%string, JSNumber (IZR (lb_windowStart b)));
        ("end"%string, JSNumber (IZR (lb_windowEnd b)));
        ("nonce"%string, JSString (lb_nonce b)) ] in
    let key := HMAC_SHA256 (HMAC_SHA256 salt (decodeBase64 sharedSecret))
                 (list_byte_of_string locationInfo ++ [x01]) in
    deriveKey_backend sharedSecret b = Some key /\
    (validateBase64 sharedSecret = true ->
     Exn.deriveKey_browser sharedSecret b = Some key) /\
    (validateBase64 sharedSecret = false ->
     Exn.deriveKey_browser sharedSecret b = None).
Proof.
  intros P V sharedSecret b Hlen salt locationInfo key.
  rewrite Exn_deriveKey_browser.
  rewrite (deriveKey_backend_value sharedSecret b Hlen).
  split; [reflexivity |].
  split; intros ->; reflexivity.
Qed.

Lemma X21_derived_key_value_witness :
  let b := {| lb_latitude := 18.5204; lb_longitude := 73.8567;
              lb_radiusMeters := 100; lb_windowStart := 1000;
              lb_windowEnd := 2000; lb_nonce := "test-nonce" |} in
  (exists key,
     deriveKey_backend (H := demoPlatform) "c2VjcmV0" b = Some key /\
     Exn.deriveKey_browser (H := demoPlatform) (H0 := demoValidation) "c2VjcmV0" b
     = Some key) /\
  Exn.deriveKey_browser (H := demoPlatform) (H0 := demoValidation) "c2VjcmV0MQ" b
  = None.
Proof.
  intros b. split.
  - destruct (X21_derived_key_value demoPlatform demoValidation "c2VjcmV0" b
                demo_HMAC_length) as (Hserver & Hbrowser & _).
    eexists. split; [exact Hserver | apply Hbrowser; reflexivity].
  - destruct (X21_derived_key_value demoPlatform demoValidation "c2VjcmV0MQ" b
                demo_HMAC_length) as (_ & _ & Hthrows).
    apply Hthrows. reflexivity.
Defined.

(* ================================================================== *)
(** * The unlock handler and its catch *)
(* ================================================================== *)

(** X25.  For a stored message that has not expired, the unlock handler
    answers 500 when the signature check throws.  When it returns, the
    handler releases the wrapped key, with the distance, exactly when
    the signature verifies and the attestation is at most 300 s old and
    not from the future, is stamped inside the window of the binding,
    lies within its radius, and has a plausible history under 200 m/s
    if it has one of two samples or more; it never asks for continuous
    presence.  Otherwise it answers 403 with a reason.  No answer
    changes the store. *)
Theorem X25_unlock_releases_key_iff :
  forall (P : Platform) (V : Base64Validation) (now now' : Z)
         (store : MessageStore) (id : string)
         (a : LocationAttestation) (m : ServerMessage) (md : MessageMetadata)
         (lb : LocationBinding),
    map_get store id = Some m ->
    msg_metadata m = Some md ->
    isExpired now md = false ->
    msg_locationBinding m = Some lb ->
    let dist := calculateDistance (latitude a) (longitude a)
                  (lb_latitude lb) (lb_longitude lb) in
    let sigOk := Exn.verifyAttestationSignature a in
    let located :=
      ((0 <= now' - timestamp a)%Z /\ IZR (now' - timestamp a) <= 300 * 1000) /\
      (lb_windowStart lb <= timestamp a <= lb_windowEnd lb)%Z /\
      dist <= lb_radiusMeters lb /\
      (forall h, movementHistory a = Some h -> (2 <= List.length h)%nat ->
                 plausible (checkMovementPlausibility h 200) = true) in
    let answer := Exn.unlockMessage now now' store id a in
    snd answer = store /\
    (sigOk = None -> fst answer = InternalError) /\
    (sigOk = Some true -> located ->
     fst answer = Unlocked (msg_wrappedKey m) (msg_wrappedKeyNonce m)
                           (msg_wrappedKeyAuthTag m) (Some dist)) /\
    (sigOk = Some false \/ (sigOk = Some true /\ ~ located) ->
     exists rs d, fst answer = Denied (Some rs) d) /\
    (forall w wn wt dd, fst answer = Unlocked w wn wt dd ->
                        sigOk = Some true /\ located).
Proof.
  intros P V now now' store id a m md lb Hget Hmd Hlive Hlb dist sigOk located
         answer.
  subst answer. unfold Exn.unlockMessage.
  rewrite (lookupLive_live now store id m md Hget Hmd Hlive), Hlb.
  destruct (Exn.verifyAttestationSignature a) as [ok |] eqn:Hs; subst sigOk.
  2:{ rewrite (Exn_pipeline_throws now' a (unlockConfig lb) Hs). cbn [fst snd].
      split; [reflexivity |]. split; [reflexivity |].
      split; [discriminate |].
      split; [intros [E | [E _]]; discriminate | discriminate]. }
  rewrite (Exn_pipeline_returns now' a (unlockConfig lb) ok Hs).
  pose proof (Exn_signature_returns a ok Hs) as Hok.
  set (v := verifyLocationAttestation now' a (unlockConfig lb)).
  assert (Hiff : valid v = true <-> ok = true /\ located).
  { subst v located.
    rewrite pipeline_valid_iff, isAttestationFresh_iff, isWithinTimeWindow_iff,
      num_le_true_iff, checkStep5_none_iff, checkStep6_none_iff.
    cbn [unlockConfig maxAttestationAgeSec nullish windowStart windowEnd
         radiusMeters maxSpeedMps requireContinuousPresence].
    change (geofenceDistance a (unlockConfig lb)) with dist.
    rewrite Hok.
    split.
    - intros (Hsig & Hf & Hw & Hd & Hp & _). repeat split; tauto.
    - intros (Hsig & Hf & Hw & Hd & Hp). repeat split; try tauto.
      discriminate. }
  destruct (valid v) eqn:Hv; cbn [negb fst snd].
  - destruct (proj1 Hiff eq_refl) as [-> Hloc].
    split; [reflexivity |]. split; [discriminate |].
    assert (Hshape : v = accepted a (unlockConfig lb)).
    { destruct (pipeline_result_shape now' a (unlockConfig lb)) as [Hshape _].
      apply Hshape. exact Hv. }
    split; [intros _ _; rewrite Hshape; reflexivity |].
    split.
    + intros [E | [_ Hnot]]; [discriminate | contradiction].
    + intros w wn wt dd _. split; [reflexivity | exact Hloc].
  - split; [reflexivity |]. split; [discriminate |].
    split.
    { intros E Hloc. injection E as ->.
      assert (Hvalid : false = true)
        by (apply Hiff; split; [reflexivity | exact Hloc]).
      discriminate. }
    split; [| discriminate].
    intros _.
    destruct (pipeline_result_shape now' a (unlockConfig lb)) as [_ Hshape].
    fold v in Hshape. destruct (Hshape Hv) as (rs & Hrs & _).
    exists rs, (distance v). rewrite Hrs. reflexivity.
Qed.

(** An attestation at the target, signed, fresh and inside the window,
    unlocks the message; the same attestation under the malformed
    signature 'forged' is answered 500. *)
Lemma X25_unlock_releases_key_iff_witness :
  let m := demoMessage (Some (demoMetadata (Some 5000%Z))) in
  let store := [("msg-1"%string, m)] in
  let a := signedAttestation demoSignature 1000 None in
  let a' := signedAttestation "forged" 1000 None in
  Exn.unlockMessage (H := demoPlatform64) (H0 := demoValidation)
    1000 1000 store "msg-1" a
  = (Unlocked (Some "a2V5"%string) (Some "bm9uY2Uy"%string)
              (Some "dGFnMg=="%string) (Some (calculateDistance 0 0 0 0)), store) /\
  Exn.unlockMessage (H := demoPlatform64) (H0 := demoValidation)
    1000 1000 store "msg-1" a'
  = (InternalError, store).
Proof.
  intros m store a a'. split.
  - destruct (X25_unlock_releases_key_iff demoPlatform64 demoValidation
                1000 1000 store "msg-1" a m
                (demoMetadata (Some 5000%Z)) demoBinding
                eq_refl eq_refl eq_refl eq_refl)
      as (Hstore & _ & Hgranted & _).
    rewrite (surjective_pairing (Exn.unlockMessage 1000 1000 store "msg-1" a)).
    rewrite Hstore, Hgranted; [reflexivity | reflexivity |].
    split; [split; [cbn; lia | change (1000 - timestamp a)%Z with 0%Z; lra] |].
    split; [cbn; lia |].
    split; [cbn [lb_radiusMeters lb_latitude lb_longitude demoBinding latitude
                 longitude a signedAttestation];
            rewrite calculateDistance_self; lra |].
    intros h Hh. discriminate.
  - destruct (X25_unlock_releases_key_iff demoPlatform64 demoValidation
                1000 1000 store "msg-1" a' m
                (demoMetadata (Some 5000%Z)) demoBinding
                eq_refl eq_refl eq_refl eq_refl)
      as (Hstore & Hthrows & _).
    rewrite (surjective_pairing (Exn.unlockMessage 1000 1000 store "msg-1" a')).
    rewrite Hstore, Hthrows; reflexivity.
Defined.
